(** * Tabular filter engine: a shallow embedding and its checked properties

    The development follows the Python sources
    [src/lib/filter_engine.py], [src/lib/data_processor.py] and the filter
    callbacks of [src/app.py].  Python values, the pandas operations the
    code calls and the three source modules are embedded as Rocq
    functions; exceptions are explicit results.  *)

From Stdlib Require Import String Ascii List ZArith QArith Qabs Bool Lia.
From Stdlib Require Import DecimalString.
From stdpp Require Import gmap strings.
Import ListNotations.
Open Scope string_scope.

(** ** Python values and exceptions *)

Module Py.

(** The exceptions the modelled code raises or lets through. *)
Inductive exn :=
| ValueError (msg : string)
| TypeError
| IndexError
| ReError
| AttributeError.

Inductive result (A : Type) :=
| Ok (a : A)
| Raise (e : exn).
Arguments Ok {A} a.
Arguments Raise {A} e.

Definition bind {A B} (r : result A) (k : A -> result B) : result B :=
  match r with
  | Ok a => k a
  | Raise e => Raise e
  end.

(** [for x in l: f x], stopping at the first exception. *)
Fixpoint mapM {A B} (f : A -> result B) (l : list A) : result (list B) :=
  match l with
  | [] => Ok []
  | x :: t =>
      match f x with
      | Ok y =>
          match mapM f t with
          | Ok ys => Ok (y :: ys)
          | Raise e => Raise e
          end
      | Raise e => Raise e
      end
  end.

(** A scalar as it sits in a cell or in a filter value.  Numbers are
    kept by value (Python compares [int] and [float] by value), a
    finite float being the rational it denotes; [VNaN] is the float
    not-a-number, [VNaT] the missing timestamp, [VNone] is Python's
    [None]; a [Timestamp] is its offset in nanoseconds.

    Keeping numbers by value describes the code for the numbers that a
    64-bit float holds exactly and a 64-bit integer can hold (see
    [exact_number] below): for these a Python [int], an [int64] cell and
    a [float64] cell of the same value are interchangeable.  Outside
    this range pandas rounds when it moves an integer into a [float64]
    column or compares it with a float; the statements that depend on
    the value of a number assume the range. *)
Inductive scalar :=
| VNone
| VNaN
| VNaT
| VNum (q : Q)
| VStr (s : string)
| VDate (t : Z).

(** What a condition's ['value'] holds: a scalar, a [list] or a
    [tuple]. *)
Inductive pyval :=
| Scalar (v : scalar)
| PList (l : list scalar)
| PTuple (l : list scalar).

(** [pd.isna] on a scalar. *)
Definition isna (v : scalar) : bool :=
  match v with
  | VNone | VNaN | VNaT => true
  | _ => false
  end.

Definition Qlt_bool (x y : Q) : bool := negb (Qle_bool y x).

(** Python's [a == b] on scalars: by value within numbers, texts and
    timestamps, false across kinds.  For the cells of a column pandas
    agrees with it on exact numbers ([exact_number] below). *)
Definition py_eq (a b : scalar) : bool :=
  match a, b with
  | VNone, VNone => true
  | VNum x, VNum y => Qeq_bool x y
  | VStr x, VStr y => String.eqb x y
  | VDate x, VDate y => Z.eqb x y
  | _, _ => false
  end.

(** Python's [a < b] and [a <= b]: ordered within numbers, strings and
    timestamps, false against NaN and NaT, [TypeError] across kinds
    and on [None]. *)
Definition py_lt (a b : scalar) : result bool :=
  match a, b with
  | VNum x, VNum y => Ok (Qlt_bool x y)
  | VNum _, VNaN | VNaN, VNum _ | VNaN, VNaN => Ok false
  | VStr x, VStr y => Ok (String.ltb x y)
  | VDate x, VDate y => Ok (Z.ltb x y)
  | VDate _, VNaT | VNaT, VDate _ | VNaT, VNaT => Ok false
  | _, _ => Raise TypeError
  end.

Definition py_le (a b : scalar) : result bool :=
  match a, b with
  | VNum x, VNum y => Ok (Qle_bool x y)
  | VNum _, VNaN | VNaN, VNum _ | VNaN, VNaN => Ok false
  | VStr x, VStr y => Ok (String.leb x y)
  | VDate x, VDate y => Ok (Z.leb x y)
  | VDate _, VNaT | VNaT, VDate _ | VNaT, VNaT => Ok false
  | _, _ => Raise TypeError
  end.

Definition py_gt (a b : scalar) : result bool := py_lt b a.
Definition py_ge (a b : scalar) : result bool := py_le b a.

(** *** Strings (ASCII) *)

Definition lower_ascii (c : ascii) : ascii :=
  let n := nat_of_ascii c in
  if (65 <=? n)%nat && (n <=? 90)%nat then ascii_of_nat (n + 32) else c.

Definition upper_ascii (c : ascii) : ascii :=
  let n := nat_of_ascii c in
  if (97 <=? n)%nat && (n <=? 122)%nat then ascii_of_nat (n - 32) else c.

Fixpoint lower (s : string) : string :=
  match s with
  | EmptyString => EmptyString
  | String c t => String (lower_ascii c) (lower t)
  end.

Fixpoint upper (s : string) : string :=
  match s with
  | EmptyString => EmptyString
  | String c t => String (upper_ascii c) (upper t)
  end.

(** [s.startswith(p)] *)
Definition startswith (p s : string) : bool := String.prefix p s.

Fixpoint rev_string (s acc : string) : string :=
  match s with
  | EmptyString => acc
  | String c t => rev_string t (String c acc)
  end.

(** [s.endswith(p)] *)
Definition endswith (p s : string) : bool :=
  String.prefix (rev_string p EmptyString) (rev_string s EmptyString).

(** [p in s] *)
Fixpoint substring_of (p s : string) : bool :=
  String.prefix p s ||
  match s with
  | EmptyString => false
  | String _ t => substring_of p t
  end.

(** The characters with a special meaning in a regular expression. *)
Definition is_meta (c : ascii) : bool :=
  existsb (Ascii.eqb c)
    (list_ascii_of_string ".^$*+?{}[]\|()").

Fixpoint is_plain (p : string) : bool :=
  match p with
  | EmptyString => true
  | String c t => negb (is_meta c) && is_plain t
  end.

(** The library routines whose code is not part of the repository:
    printing of numbers, timestamps and sequences ([str]), parsing
    ([float], [pd.to_datetime]) and regular-expression search. *)
Record PyLib := {
  str_num : Q -> string;
  str_date : Z -> string;
  str_seq : pyval -> string;
  (* [re.search(pat, s, re.IGNORECASE) is not None]; [re.error] on a
     malformed pattern *)
  re_search : string -> string -> result bool;
  (* [float(s)]; [None] stands for [ValueError] *)
  to_float : string -> option Q;
  (* [pd.to_datetime(s)]; [None] stands for a parse error *)
  to_datetime : string -> option Z;
  (* whether [pd.to_datetime(series, errors='raise')] returns *)
  to_datetime_series : list string -> bool
}.

Section WithLib.
Context (lib : PyLib).

(** [str(v)] *)
Definition str_of_value (v : scalar) : string :=
  match v with
  | VNone => "None"
  | VNaN => "nan"
  | VNaT => "NaT"
  | VNum q => str_num lib q
  | VStr s => s
  | VDate t => str_date lib t
  end.

Definition str_of_pyval (v : pyval) : string :=
  match v with
  | Scalar x => str_of_value x
  | _ => str_seq lib v
  end.

(** [re.search(pat, s, re.IGNORECASE)]: a pattern without special
    characters is searched as a case-insensitive substring; any
    other pattern is left to the library. *)
Definition re_search_ignorecase (pat s : string) : result bool :=
  if is_plain pat then Ok (substring_of (lower pat) (lower s))
  else re_search lib pat s.

End WithLib.

End Py.
Export Py.

Notation "'let*' x ':=' c1 'in' c2" := (Py.bind c1 (fun x => c2))
  (at level 10, x name, c1 at level 100, c2 at level 200).

(** ** The pandas operations the sources call *)

Module Pandas.

Inductive Dtype :=
| DObject
| DInt64
| DFloat64
| DBool
| DDatetime64
| DOther.

Definition is_numeric_dtype (d : Dtype) : bool :=
  match d with
  | DInt64 | DFloat64 | DBool => true
  | _ => false
  end.

Definition is_datetime64_any_dtype (d : Dtype) : bool :=
  match d with
  | DDatetime64 => true
  | _ => false
  end.

Definition is_object (d : Dtype) : bool :=
  match d with
  | DObject => true
  | _ => false
  end.

(** One row: its index label and one cell per column. *)
Record Row := { label : Z; cells : list scalar }.

Record DataFrame := {
  df_columns : list string;
  df_dtypes : list Dtype;
  df_rows : list Row
}.

Definition Series := list scalar.
Definition Mask := list bool.

(** [len(df)] *)
Definition len (df : DataFrame) : nat := length (df_rows df).

(** [df.index] *)
Definition index (df : DataFrame) : list Z := map label (df_rows df).

Fixpoint position (c : string) (cols : list string) : option nat :=
  match cols with
  | [] => None
  | k :: t => if String.eqb c k then Some O
              else option_map S (position c t)
  end.

(** [c in df.columns] *)
Definition has_column (df : DataFrame) (c : string) : bool :=
  existsb (String.eqb c) (df_columns df).

Definition cell_at (i : nat) (r : Row) : scalar := nth i (cells r) VNaN.

(** [df[c]] for a column the frame has. *)
Definition get_column (df : DataFrame) (c : string) : Series :=
  match position c (df_columns df) with
  | Some i => map (cell_at i) (df_rows df)
  | None => []
  end.

Definition dtype_of (df : DataFrame) (c : string) : Dtype :=
  match position c (df_columns df) with
  | Some i => nth i (df_dtypes df) DObject
  | None => DObject
  end.

Fixpoint select {A} (l : list A) (m : Mask) : list A :=
  match l, m with
  | x :: l', b :: m' => if b then x :: select l' m' else select l' m'
  | _, _ => []
  end.

(** [df[mask]] *)
Definition df_select (df : DataFrame) (m : Mask) : DataFrame :=
  {| df_columns := df_columns df;
     df_dtypes := df_dtypes df;
     df_rows := select (df_rows df) m |}.

(** [[b] * len(df)] *)
Definition full_mask (b : bool) (df : DataFrame) : Mask :=
  repeat b (len df).

(** A Series used as the key of [df[key]].  A Series of Booleans is a
    mask.  A Series that [pd.Series] builds from an empty list has dtype
    object, and [df[key]] takes it for a list of column labels, here
    none. *)
Inductive Key :=
| BoolMask (m : Mask)
| NoLabels.

(** [pd.Series(l, index=df.index)] for a list [l] of Booleans *)
Definition series_of_bools (l : list bool) : Key :=
  match l with
  | [] => NoLabels
  | _ :: _ => BoolMask l
  end.

(** [df[[]]]: every row, no column *)
Definition no_columns (df : DataFrame) : DataFrame :=
  {| df_columns := [];
     df_dtypes := [];
     df_rows := map (fun r => {| label := label r; cells := [] |})
                    (df_rows df) |}.

(** [df[key]] *)
Definition getitem (df : DataFrame) (key : Key) : DataFrame :=
  match key with
  | BoolMask m => df_select df m
  | NoLabels => no_columns df
  end.

(** [index.isin(other)] *)
Definition index_isin (idx other : list Z) : Mask :=
  map (fun i => existsb (Z.eqb i) other) idx.

Fixpoint mask_and (a b : Mask) : Mask :=
  match a, b with
  | x :: a', y :: b' => (x && y) :: mask_and a' b'
  | _, _ => []
  end.

Fixpoint mask_or (a b : Mask) : Mask :=
  match a, b with
  | x :: a', y :: b' => (x || y) :: mask_or a' b'
  | _, _ => []
  end.

Definition lengths_must_match : exn :=
  ValueError "Lengths must match to compare".

Definition cmp_cell (op : scalar -> scalar -> result bool) (c x : scalar)
  : result bool :=
  if isna c then Ok false else op c x.

Definition is_text (x : scalar) : bool :=
  match x with
  | VStr _ => true
  | _ => false
  end.

Section Compare.
Context (lib : PyLib).

(** The scalar a column of the given storage is compared with: against
    a datetime column a text is first parsed as a date; [None] when it
    does not parse. *)
Definition right_operand (dtype : Dtype) (x : scalar) : option scalar :=
  match x with
  | VStr s =>
      if is_datetime64_any_dtype dtype
      then option_map VDate (to_datetime lib s)
      else Some x
  | _ => Some x
  end.

(** The comparisons pandas refuses whatever the cells are: numbers with
    a text or a timestamp, dates with a number or with a text that is no
    date.  [==] answers [False] for every row then, [<] and the like
    raise. *)
Definition invalid_comparison (dtype : Dtype) (x : scalar) : bool :=
  match x with
  | VStr s =>
      is_numeric_dtype dtype
      || (is_datetime64_any_dtype dtype
          && match to_datetime lib s with Some _ => false | None => true end)
  | VNum _ => is_datetime64_any_dtype dtype
  | VDate _ => is_numeric_dtype dtype
  | _ => false
  end.

(** [col == v].  Against a scalar: a missing cell compares unequal to
    everything, and so does every cell to a missing scalar.  A list is
    compared position by position.  A tuple is one scalar for a column
    of objects, which no cell equals, and is compared position by
    position otherwise. *)
Definition series_eq (dtype : Dtype) (col : Series) (v : pyval)
  : result Mask :=
  let by_position l :=
    if Nat.eqb (length l) (length col)
    then Ok (map (fun cx => negb (isna (fst cx)) && py_eq (fst cx) (snd cx))
                 (combine col l))
    else Raise lengths_must_match in
  match v with
  | Scalar x =>
      match right_operand dtype x with
      | Some y => Ok (map (fun c => negb (isna c) && py_eq c y) col)
      | None => Ok (map (fun _ => false) col)
      end
  | PList l => by_position l
  | PTuple l =>
      if is_object dtype then Ok (map (fun _ => false) col)
      else by_position l
  end.

(** [col < x], [col >= x], ... against a scalar: a missing scalar gives
    [False] for every row; a comparison pandas refuses raises; otherwise
    a missing cell gives [False] and every other cell is compared as
    Python does. *)
Definition series_cmp_scalar (op : scalar -> scalar -> result bool)
    (dtype : Dtype) (col : Series) (x : scalar) : result Mask :=
  if isna x then Ok (map (fun _ => false) col)
  else if invalid_comparison dtype x then Raise TypeError
  else
    match right_operand dtype x with
    | Some y => mapM (fun c => cmp_cell op c y) col
    | None => Raise TypeError
    end.

(** [col < v], ...: a list is compared position by position, and in a
    column of objects a missing item gives [False]; a tuple is one
    scalar for a column of objects, with which no present cell can be
    ordered, and is compared position by position otherwise. *)
Definition series_cmp (op : scalar -> scalar -> result bool)
    (dtype : Dtype) (col : Series) (v : pyval) : result Mask :=
  let by_position l :=
    if Nat.eqb (length l) (length col)
    then mapM (fun cx => if is_object dtype && isna (snd cx) then Ok false
                         else cmp_cell op (fst cx) (snd cx))
              (combine col l)
    else Raise lengths_must_match in
  match v with
  | Scalar x => series_cmp_scalar op dtype col x
  | PList l => by_position l
  | PTuple l =>
      if is_object dtype
      then mapM (fun c => if isna c then Ok false else Raise TypeError) col
      else by_position l
  end.

End Compare.

(** Membership as [isin] sees it: equality by value, and a missing
    marker among the targets finds the cells holding that marker.
    (Against a datetime column pandas first parses targets that are all
    texts, and reads [None] as the missing timestamp; the statements on
    [isin] are for targets that are timestamps there.) *)
Definition isin_match (c x : scalar) : bool :=
  match c, x with
  | VNaN, VNaN => true
  | VNaT, VNaT => true
  | _, _ => py_eq c x
  end.

(** [col.isin(l)] *)
Definition series_isin (col : Series) (l : list scalar) : Mask :=
  map (fun c => existsb (isin_match c) l) col.

Section Text.
Context (lib : PyLib).

(** [col.astype(str)]: every cell, a missing one included, becomes
    the text [str] prints for it. *)
Definition astype_str (col : Series) : Series :=
  map (fun c => VStr (str_of_value lib c)) col.

(** The [.str] methods with [na=False]: a cell that is not a string
    gives [False]. *)
Definition str_contains_nocase (col : Series) (pat : string)
  : result Mask :=
  mapM (fun c => match c with
                 | VStr s => re_search_ignorecase lib pat s
                 | _ => Ok false
                 end) col.

Definition str_startswith (col : Series) (pat : string) : Mask :=
  map (fun c => match c with
                | VStr s => startswith pat s
                | _ => false
                end) col.

Definition str_endswith (col : Series) (pat : string) : Mask :=
  map (fun c => match c with
                | VStr s => endswith pat s
                | _ => false
                end) col.
End Text.

End Pandas.
Export Pandas.

(** ** [src/lib/filter_engine.py] *)

(** A filter condition dictionary.  A key that is absent (or holds
    [None]) reads as [None]; ['value'] absent reads as [Scalar VNone]. *)
Record Condition := {
  column_name : option string;
  operator : option string;
  value : pyval;
  data_type : option string;
  is_active : option bool
}.

Module filter_engine.

Definition text_operators : list string :=
  ["equals"; "contains"; "starts_with"; "ends_with"].
Definition numeric_operators : list string :=
  ["equals"; "greater_than"; "less_than"; "between"].
Definition date_operators : list string :=
  ["equals"; "before"; "after"; "between"].

(** [x in l] on a list of strings *)
Definition str_in (x : string) (l : list string) : bool :=
  existsb (String.eqb x) l.

Definition validate_filter_operator (operator data_type : string) : bool :=
  if data_type =? "text" then str_in operator text_operators
  else if data_type =? "numeric" then str_in operator numeric_operators
  else if data_type =? "date" then str_in operator date_operators
  else false.

Definition max_conditions_error : exn :=
  ValueError "Maximum 10 filter conditions allowed".

Section WithLib.
Context (lib : PyLib).

Definition between_error (lo hi : scalar) : exn :=
  ValueError ("Invalid 'between' filter: min value ("
              ++ str_of_value lib lo
              ++ ") must be less than or equal to max value ("
              ++ str_of_value lib hi ++ ")").

(** The Series the operator branches of [apply_single_filter] leave in
    [mask], for the column [col] stored as [dtype]; [None] is the final
    [else], which returns the frame as it is. *)
Definition operator_mask (df : DataFrame) (dtype : Dtype) (col : Series)
    (operator : string) (value : pyval) : result (option Key) :=
  if operator =? "equals" then
    match value with
    | PList l => Ok (Some (BoolMask (series_isin col l)))
    | _ => let* m := series_eq lib dtype col value in Ok (Some (BoolMask m))
    end
  else if operator =? "contains" then
    let* m := str_contains_nocase lib (astype_str lib col)
                (str_of_pyval lib value) in
    Ok (Some (BoolMask m))
  else if operator =? "starts_with" then
    Ok (Some (BoolMask (str_startswith (astype_str lib col)
                          (str_of_pyval lib value))))
  else if operator =? "ends_with" then
    Ok (Some (BoolMask (str_endswith (astype_str lib col)
                          (str_of_pyval lib value))))
  else if operator =? "greater_than" then
    let* m := series_cmp lib py_gt dtype col value in Ok (Some (BoolMask m))
  else if operator =? "less_than" then
    let* m := series_cmp lib py_lt dtype col value in Ok (Some (BoolMask m))
  else if operator =? "between" then
    match value with
    | PTuple [lo; hi] =>
        let* inverted := py_gt lo hi in
        if inverted then Raise (between_error lo hi)
        else
          let* above := series_cmp_scalar lib py_ge dtype col lo in
          let* below := series_cmp_scalar lib py_le dtype col hi in
          Ok (Some (BoolMask (mask_and above below)))
    | _ => Ok (Some (series_of_bools (full_mask false df)))
    end
  else if operator =? "before" then
    let* m := series_cmp lib py_lt dtype col value in Ok (Some (BoolMask m))
  else if operator =? "after" then
    let* m := series_cmp lib py_gt dtype col value in Ok (Some (BoolMask m))
  else Ok None.

Definition apply_single_filter (df : DataFrame)
    (column_name operator : string) (value : pyval)
    (data_type : string) : result DataFrame :=
  if negb (has_column df column_name) then Ok df
  else
    let col := get_column df column_name in
    let* mask :=
      operator_mask df (dtype_of df column_name) col operator value in
    match mask with
    | Some key => Ok (getitem df key)
    | None => Ok df
    end.

Definition apply_text_filter df column_name operator value :=
  apply_single_filter df column_name operator value "text".
Definition apply_numeric_filter df column_name operator value :=
  apply_single_filter df column_name operator value "numeric".
Definition apply_date_filter df column_name operator value :=
  apply_single_filter df column_name operator value "date".

(** One turn of the loop over the conditions: the mask appended to
    [masks], or [None] when the condition is skipped. *)
Definition condition_mask (result_df : DataFrame) (condition : Condition)
  : result (option Mask) :=
  match column_name condition, operator condition with
  | Some col, Some op =>
      if col =? EmptyString then Ok None
      else
        let dtype := default "text" (data_type condition) in
        let* filtered :=
          apply_single_filter result_df col op (value condition) dtype in
        Ok (Some (index_isin (index result_df) (index filtered)))
  | _, _ => Ok None
  end.

Fixpoint collect_masks (result_df : DataFrame)
    (filter_conditions : list Condition) : result (list Mask) :=
  match filter_conditions with
  | [] => Ok []
  | condition :: rest =>
      let* m := condition_mask result_df condition in
      let* ms := collect_masks result_df rest in
      Ok (match m with Some mask => mask :: ms | None => ms end)
  end.

Definition combine_masks (logic_operator : string) (masks : list Mask)
  : option Mask :=
  match masks with
  | [] => None
  | first :: others =>
      if upper logic_operator =? "OR"
      then Some (fold_left mask_or others first)
      else Some (fold_left mask_and others first)
  end.

Definition apply_multiple_filters (df : DataFrame)
    (filter_conditions : list Condition) (logic_operator : string)
  : result DataFrame :=
  match filter_conditions with
  | [] => Ok df
  | _ =>
      if (10 <? length filter_conditions)%nat then Raise max_conditions_error
      else
        let result_df := df in
        let* masks := collect_masks result_df filter_conditions in
        match combine_masks logic_operator masks with
        | None => Ok result_df
        | Some combined_mask => Ok (df_select result_df combined_mask)
        end
  end.

End WithLib.

End filter_engine.
Export filter_engine.

(** ** Frames and records: [DataFrame.from_dict], [to_dict('records')],
    [replace], [dropna], [head] *)

Module Frames.

(** A row as a Python [dict] from column name to cell, in insertion
    order. *)
Definition record := list (string * scalar).

Fixpoint dict_get (k : string) (d : record) : option scalar :=
  match d with
  | [] => None
  | (k', v) :: t => if String.eqb k k' then Some v else dict_get k t
  end.

(** [d[k] = v] *)
Fixpoint dict_set (k : string) (v : scalar) (d : record) : record :=
  match d with
  | [] => [(k, v)]
  | (k', v') :: t =>
      if String.eqb k k' then (k, v) :: t else (k', v') :: dict_set k v t
  end.

Definition dict_of_items (items : list (string * scalar)) : record :=
  fold_left (fun d kv => dict_set (fst kv) (snd kv) d) items [].

(** [df.to_dict('records')] *)
Definition to_dict_records (df : DataFrame) : list record :=
  map (fun r => dict_of_items (combine (df_columns df) (cells r)))
      (df_rows df).

(** [df[c]] by position *)
Definition column_at (rows : list Row) (i : nat) : Series :=
  map (cell_at i) rows.

Definition nan_to_none (v : scalar) : scalar :=
  if isna v then VNone else v.

(** [df.replace({np.nan: None})]: every missing cell becomes [None];
    a column that held one is stored as objects afterwards. *)
Definition replace_nan_with_none (df : DataFrame) : DataFrame :=
  {| df_columns := df_columns df;
     df_dtypes :=
       map (fun id => if existsb isna (column_at (df_rows df) (fst id))
                      then DObject else snd id)
           (combine (seq 0 (length (df_dtypes df))) (df_dtypes df));
     df_rows :=
       map (fun r => {| label := label r;
                        cells := map nan_to_none (cells r) |})
           (df_rows df) |}.

(** The column names of a list of records: every key, in order of
    first appearance. *)
Definition add_key (acc : list string) (k : string) : list string :=
  if str_in k acc then acc else acc ++ [k].

Definition keys_union (records : list record) : list string :=
  fold_left (fun acc d => fold_left add_key (map fst d) acc) records [].

Definition is_number_or_missing (v : scalar) : bool :=
  match v with
  | VNum _ | VNaN | VNone => true
  | _ => false
  end.

Definition is_float_like (v : scalar) : bool :=
  match v with
  | VNum _ | VNaN => true
  | _ => false
  end.

Definition is_date_or_missing (v : scalar) : bool :=
  match v with
  | VDate _ | VNaT | VNaN | VNone => true
  | _ => false
  end.

Definition is_date_like (v : scalar) : bool :=
  match v with
  | VDate _ | VNaT => true
  | _ => false
  end.

Definition is_whole (v : scalar) : bool :=
  match v with
  | VNum q => Qeq_bool q (inject_Z (Qnum q / Zpos (Qden q)))
  | _ => false
  end.

(** The storage pandas picks for a column built from Python objects. *)
Definition infer_dtype (vs : Series) : Dtype :=
  if forallb is_number_or_missing vs && existsb is_float_like vs then
    if forallb is_whole vs then DInt64 else DFloat64
  else if forallb is_date_or_missing vs && existsb is_date_like vs then
    DDatetime64
  else DObject.

(** A missing cell of a numeric column is NaN, of a datetime column
    NaT; an object column keeps what it was given.  A number is kept by
    value, which is what a float column does for the exact numbers. *)
Definition cast (d : Dtype) (v : scalar) : scalar :=
  match d with
  | DInt64 | DFloat64 => if isna v then VNaN else v
  | DDatetime64 => if isna v then VNaT else v
  | _ => v
  end.

Definition raw_cells (cols : list string) (d : record) : list scalar :=
  map (fun k => default VNaN (dict_get k d)) cols.

(** [pd.DataFrame.from_dict(records)] on a list of records: columns
    are the keys met, a key a record lacks reads NaN, the index is
    [0 .. n-1]. *)
Definition from_dict (records : list record) : DataFrame :=
  let cols := keys_union records in
  let raw := map (raw_cells cols) records in
  let dts :=
    map (fun j => infer_dtype (map (fun r => nth j r VNaN) raw))
        (seq 0 (length cols)) in
  {| df_columns := cols;
     df_dtypes := dts;
     df_rows :=
       map (fun ir => {| label := Z.of_nat (fst ir);
                         cells := map (fun dv => cast (fst dv) (snd dv))
                                      (combine dts (snd ir)) |})
           (combine (seq 0 (length raw)) raw) |}.

(** [col.dropna()] and [col.head(n)] *)
Definition dropna (col : Series) : Series :=
  List.filter (fun v => negb (isna v)) col.

Definition head (n : nat) (col : Series) : Series := firstn n col.

End Frames.
Export Frames.

(** ** [src/lib/data_processor.py] *)

Module data_processor.

Section WithLib.
Context (lib : PyLib).

(** The body of the loop of [detect_column_types], for one column
    given by its storage and its cells. *)
Definition detect_column_type (dtype : Dtype) (col : Series) : string :=
  let col_data := dropna col in
  if Nat.eqb (length col_data) 0 then "text"
  else if is_datetime64_any_dtype dtype then "date"
  else if is_object dtype then
    let sample_values := map (str_of_value lib) (head 10 col_data) in
    if to_datetime_series lib sample_values then "date"
    else if is_numeric_dtype dtype then "numeric"
    else "text"
  else if is_numeric_dtype dtype then "numeric"
  else "text".

(** The positions of the columns named [col]. *)
Definition positions_named (col : string) (cols : list string) : list nat :=
  map fst
      (List.filter (fun ic => String.eqb col (snd ic))
                   (combine (seq 0 (length cols)) cols)).

(** When several columns are named [col], [df[col]] is the frame of
    these columns and [dropna] keeps its rows without a missing cell. *)
Definition complete_rows (df : DataFrame) (positions : list nat)
  : list Row :=
  List.filter
    (fun r => forallb (fun i => negb (isna (cell_at i r))) positions)
    (df_rows df).

(** One turn of the loop of [detect_column_types].  For a name that
    several columns carry the type is "text" when [dropna] leaves no
    row; otherwise [df[col].dtype] raises, a frame having no [dtype]. *)
Definition column_type (df : DataFrame) (col : string) : result string :=
  match positions_named col (df_columns df) with
  | _ :: _ :: _ as positions =>
      if Nat.eqb (length (complete_rows df positions)) 0 then Ok "text"
      else Raise AttributeError
  | _ => Ok (detect_column_type (dtype_of df col) (get_column df col))
  end.

Fixpoint detect_loop (df : DataFrame) (cols : list string)
    (column_types : gmap string string) : result (gmap string string) :=
  match cols with
  | [] => Ok column_types
  | col :: rest =>
      let* t := column_type df col in
      detect_loop df rest (<[col := t]> column_types)
  end.

Definition detect_column_types (df : DataFrame)
  : result (gmap string string) :=
  detect_loop df (df_columns df) ∅.

End WithLib.

Definition str_nat (n : nat) : string :=
  NilZero.string_of_uint (Nat.to_uint n).

(** The renaming loop of [handle_duplicate_columns]. *)
Fixpoint rename_duplicates (cols : list string) (seen : gmap string nat)
  : list string :=
  match cols with
  | [] => []
  | col :: rest =>
      match seen !! col with
      | Some n =>
          (col ++ "_" ++ str_nat (S n))
            :: rename_duplicates rest (<[col := S n]> seen)
      | None => col :: rename_duplicates rest (<[col := O]> seen)
      end
  end.

Definition handle_duplicate_columns (df : DataFrame) : DataFrame :=
  {| df_columns := rename_duplicates (df_columns df) ∅;
     df_dtypes := df_dtypes df;
     df_rows := df_rows df |}.

Definition convert_to_json_format (df : DataFrame) : list record :=
  let df_clean := replace_nan_with_none df in
  to_dict_records df_clean.

(** The dictionary kept in the table-data store. *)
Record TableData := {
  dataframe_json : list record;
  row_count : nat;
  column_count : nat;
  column_names : list string;
  column_types : gmap string string;
  file_format : string;
  file_name : string
}.

Definition prepare_table_data (lib : PyLib) (df : DataFrame)
    (file_format file_name : string) : result TableData :=
  let df_processed := handle_duplicate_columns df in
  let* column_types := detect_column_types lib df_processed in
  let dataframe_json := convert_to_json_format df_processed in
  Ok {| dataframe_json := dataframe_json;
        row_count := len df_processed;
        column_count := length (df_columns df_processed);
        column_names := df_columns df_processed;
        column_types := column_types;
        file_format := file_format;
        file_name := file_name |}.

(** A table with no row and no column. *)
Definition no_table_data : TableData :=
  {| dataframe_json := [];
     row_count := O;
     column_count := O;
     column_names := [];
     column_types := ∅;
     file_format := EmptyString;
     file_name := EmptyString |}.

(** What [upload_file] writes to the table-data store for the outcome
    of [prepare_table_data]: the table, or, when it raised, the empty
    dictionary, which every callback takes for no table. *)
Definition stored_table (r : result TableData) : option TableData :=
  match r with
  | Ok table_data => Some table_data
  | Raise _ => None
  end.

End data_processor.
Export data_processor.

(** ** The filter callbacks of [src/app.py] *)

(** The dictionary kept in the filter-set store. *)
Record FilterSet := {
  conditions : list Condition;
  logic_operator : option string;
  result_count : option nat
}.

Module app.

(** What a callback shows in the status line. *)
Inductive Status :=
| NoDataLoaded
| PleaseSelect
| InvalidOperator (operator data_type : string)
| InvalidNumericValue
| InvalidDateFormat
| NoResultsMatch
| AppliedFilters (count : nat) (logic : string) (rows : nat)
| FilterApplied (column operator : string) (value : pyval) (rows : nat)
| ErrorApplyingFilter (e : exn)
| MaximumConditionsAllowed (limit : nat)
| ConditionAdded (column operator : string) (total : nat)
| ErrorAddingCondition (e : exn).

(** The outputs of [apply_column_filter]; [out_table = None] is the
    empty [html.Div()] that keeps the table on screen. *)
Record ApplyOutput := {
  out_filter_set : FilterSet;
  out_table : option (list record);
  out_status : Status;
  out_conditions_list : list Condition
}.

(** The outputs of [add_filter_condition]; [add_inputs_cleared] tells
    whether the input fields were reset. *)
Record AddOutput := {
  add_filter_set : FilterSet;
  add_conditions_list : list Condition;
  add_inputs_cleared : bool;
  add_status : Status
}.

Definition empty_filter_set : FilterSet :=
  {| conditions := []; logic_operator := Some "AND"; result_count := None |}.

(** [filter_set.get('logic_operator', 'AND')] *)
Definition get_logic_operator (filter_set : FilterSet) : string :=
  default "AND" (logic_operator filter_set).

Definition scalar_of_input (v : option string) : scalar :=
  match v with
  | Some s => VStr s
  | None => VNone
  end.

(** "Decide which filter value to use": [None] is Python's [None]. *)
Definition actual_value_of (operator : option string)
    (filter_value : option string)
    (filter_value_multi : option (list scalar))
    (filter_value2 : option string) : option pyval :=
  match operator, filter_value_multi with
  | Some "equals", Some multi => Some (PList multi)
  | _, _ =>
      match operator with
      | Some "between" =>
          Some (PTuple [scalar_of_input filter_value;
                        scalar_of_input filter_value2])
      | _ => option_map (fun s => Scalar (VStr s)) filter_value
      end
  end.

(** [not column_name or not operator or actual_value is None or
    (isinstance(actual_value, list) and not actual_value)] *)
Definition inputs_missing (column_name operator : option string)
    (actual_value : option pyval) : bool :=
  match column_name, operator, actual_value with
  | Some c, Some o, Some v =>
      (c =? EmptyString) || (o =? EmptyString)
      || match v with PList [] => true | _ => false end
  | _, _, _ => true
  end.

Definition is_and_or (s : option string) : bool :=
  match s with
  | Some l => str_in l ["AND"; "OR"]
  | None => false
  end.

(** [[c for c in conditions if c.get('column_name') != column_name]] *)
Definition other_columns (column : string) (conds : list Condition)
  : list Condition :=
  List.filter
    (fun c => negb (match column_name c with
                    | Some k => k =? column
                    | None => false
                    end)) conds.

Definition new_condition (column operator : string) (actual_value : pyval)
    (data_type : string) : Condition :=
  {| column_name := Some column;
     operator := Some operator;
     value := actual_value;
     data_type := Some data_type;
     is_active := Some true |}.

Section WithLib.
Context (lib : PyLib).

(** [float(v)] *)
Definition py_float (v : scalar) : result scalar :=
  match v with
  | VNum q => Ok (VNum q)
  | VNaN => Ok VNaN
  | VStr s =>
      match to_float lib s with
      | Some q => Ok (VNum q)
      | None => Raise (ValueError "could not convert string to float")
      end
  | _ => Raise TypeError
  end.

(** [pd.to_datetime(v)] *)
Definition pd_to_datetime (v : scalar) : result scalar :=
  match v with
  | VDate t => Ok (VDate t)
  | VStr s =>
      match to_datetime lib s with
      | Some t => Ok (VDate t)
      | None => Raise (ValueError "Unknown datetime string format")
      end
  | VNum q => Ok (VDate (Qnum q / Zpos (Qden q)))
  | VNone => Ok VNone
  | VNaN | VNaT => Ok VNaT
  end.

(** The conversions of [_apply_filter_set_to_df], inside their
    [try]. *)
Definition convert_value (conv : scalar -> result scalar) (val : pyval)
  : result pyval :=
  match val with
  | PList l => let* l' := mapM conv l in Ok (PList l')
  | PTuple (lo :: hi :: _) =>
      let* lo' := conv lo in
      let* hi' := conv hi in
      Ok (PTuple [lo'; hi'])
  | PTuple _ => Raise IndexError
  | Scalar v => let* v' := conv v in Ok (Scalar v')
  end.

(** [try: val = ... except Exception: pass] *)
Definition try_convert (conv : scalar -> result scalar) (val : pyval)
  : pyval :=
  match convert_value conv val with
  | Ok v => v
  | Raise _ => val
  end.

Definition is_truthy (s : option string) : bool :=
  match s with
  | Some x => negb (x =? EmptyString)
  | None => false
  end.

(** One turn of the loop of [_apply_filter_set_to_df]: the
    dictionary appended to [filter_conditions], if any. *)
Definition typed_condition (column_types : gmap string string)
    (cond : Condition) : option Condition :=
  let col := column_name cond in
  let op := operator cond in
  let val := value cond in
  let dtype :=
    if is_truthy (data_type cond) then default "text" (data_type cond)
    else default "text" (col ≫= fun c => column_types !! c) in
  if is_truthy col && is_truthy op then
    let val :=
      if dtype =? "numeric" then try_convert py_float val
      else if dtype =? "date" then try_convert pd_to_datetime val
      else val in
    Some {| column_name := col; operator := op; value := val;
            data_type := Some dtype; is_active := None |}
  else None.

Definition _apply_filter_set_to_df (df : DataFrame)
    (current_filter_set : option FilterSet)
    (column_types : gmap string string) : result DataFrame :=
  match current_filter_set with
  | None => Ok df
  | Some fs =>
      match conditions fs with
      | [] => Ok df
      | conds =>
          let logic := get_logic_operator fs in
          let filter_conditions :=
            omap (typed_condition column_types) conds in
          match filter_conditions with
          | [] => Ok df
          | _ => apply_multiple_filters lib df filter_conditions logic
          end
      end
  end.

(** The first [try] of [apply_column_filter]: does the input convert
    to the column's type?  [filter_value_typed] itself is not used
    afterwards. *)
Definition check_numeric (actual_value : pyval) : result unit :=
  match actual_value with
  | PList l =>
      let* _ := mapM py_float (List.filter (fun v => negb (py_eq v VNone)) l) in
      Ok tt
  | PTuple l =>
      let* _ := match nth_error l 0 with
                | Some VNone => Ok (VNum 0)
                | Some v => py_float v
                | None => Raise IndexError
                end in
      let* _ := match nth_error l 1 with
                | Some VNone => Ok (VNum 0)
                | Some v => py_float v
                | None => Raise IndexError
                end in
      Ok tt
  | Scalar v => let* _ := py_float v in Ok tt
  end.

Definition check_date (actual_value : pyval) : result unit :=
  match actual_value with
  | PList l =>
      let* _ := mapM pd_to_datetime
                  (List.filter (fun v => negb (py_eq v VNone)) l) in
      Ok tt
  | PTuple l =>
      let* _ := match nth_error l 0 with
                | Some v => pd_to_datetime v
                | None => Raise IndexError
                end in
      let* _ := match nth_error l 1 with
                | Some v => pd_to_datetime v
                | None => Raise IndexError
                end in
      Ok tt
  | Scalar v => let* _ := pd_to_datetime v in Ok tt
  end.

(** [apply_column_filter].  [current_filter_set] is one dictionary
    object: the assignments to its ['logic_operator'] and
    ['conditions'] keys are made before the filters run, and the
    exception handler returns that same object. *)
Definition apply_column_filter
    (column_name operator filter_value : option string)
    (filter_value_multi : option (list scalar))
    (filter_value2 logic_operator : option string)
    (table_data : option TableData)
    (current_filter_set : option FilterSet) : ApplyOutput :=
  let current_filter_set := default empty_filter_set current_filter_set in
  match table_data with
  | None =>
      {| out_filter_set := current_filter_set;
         out_table := None;
         out_status := NoDataLoaded;
         out_conditions_list := [] |}
  | Some table_data =>
      let actual_value :=
        actual_value_of operator filter_value filter_value_multi
          filter_value2 in
      match column_name, operator, actual_value with
      | Some column, Some op, Some actual =>
          if inputs_missing column_name operator actual_value then
            {| out_filter_set := current_filter_set;
               out_table := None;
               out_status := PleaseSelect;
               out_conditions_list := conditions current_filter_set |}
          else
            let df := from_dict (dataframe_json table_data) in
            let data_type :=
              default "text" (column_types table_data !! column) in
            if negb (validate_filter_operator op data_type) then
              {| out_filter_set := current_filter_set;
                 out_table := None;
                 out_status := InvalidOperator op data_type;
                 out_conditions_list := conditions current_filter_set |}
            else
              let checked :=
                if data_type =? "numeric" then
                  match check_numeric actual with
                  | Ok _ => None
                  | Raise _ => Some InvalidNumericValue
                  end
                else if data_type =? "date" then
                  match check_date actual with
                  | Ok _ => None
                  | Raise _ => Some InvalidDateFormat
                  end
                else None in
              match checked with
              | Some failure =>
                  {| out_filter_set := current_filter_set;
                     out_table := None;
                     out_status := failure;
                     out_conditions_list :=
                       conditions current_filter_set |}
              | None =>
                  let logic_operator_effective :=
                    if is_and_or logic_operator
                    then default "AND" logic_operator
                    else get_logic_operator current_filter_set in
                  let logic_operator_effective :=
                    if str_in logic_operator_effective ["AND"; "OR"]
                    then logic_operator_effective else "AND" in
                  let filter_condition :=
                    new_condition column op actual data_type in
                  let conds :=
                    (other_columns column (conditions current_filter_set)
                       ++ [filter_condition])%list in
                  (* the dictionary after the two assignments *)
                  let current_filter_set :=
                    Build_FilterSet conds (Some logic_operator_effective)
                      (result_count current_filter_set) in
                  match _apply_filter_set_to_df df (Some current_filter_set)
                          (column_types table_data) with
                  | Ok filtered_df =>
                      let filter_set :=
                        Build_FilterSet conds
                          (Some logic_operator_effective)
                          (Some (len filtered_df)) in
                      let filtered_rows := len filtered_df in
                      {| out_filter_set := filter_set;
                         out_table :=
                           Some (convert_to_json_format filtered_df);
                         out_status :=
                           if Nat.eqb filtered_rows 0 then NoResultsMatch
                           else if (1 <? length conds)%nat then
                             AppliedFilters (length conds)
                               logic_operator_effective filtered_rows
                           else FilterApplied column op actual filtered_rows;
                         out_conditions_list := conds |}
                  | Raise e =>
                      {| out_filter_set := current_filter_set;
                         out_table := None;
                         out_status := ErrorApplyingFilter e;
                         out_conditions_list :=
                           conditions current_filter_set |}
                  end
              end
      | _, _, _ =>
          {| out_filter_set := current_filter_set;
             out_table := None;
             out_status := PleaseSelect;
             out_conditions_list := conditions current_filter_set |}
      end
  end.

End WithLib.

Definition MAX_CONDITIONS : nat := 10.

(** [add_filter_condition]: the new list [conditions] is built from
    the stored one; the stored dictionary is not assigned to. *)
Definition add_filter_condition
    (column_name operator filter_value : option string)
    (filter_value_multi : option (list scalar))
    (filter_value2 : option string)
    (table_data : option TableData)
    (current_filter_set : option FilterSet) : AddOutput :=
  let current_filter_set := default empty_filter_set current_filter_set in
  match table_data with
  | None =>
      {| add_filter_set := current_filter_set;
         add_conditions_list := conditions current_filter_set;
         add_inputs_cleared := false;
         add_status := NoDataLoaded |}
  | Some table_data =>
      let actual_value :=
        actual_value_of operator filter_value filter_value_multi
          filter_value2 in
      match column_name, operator, actual_value with
      | Some column, Some op, Some actual =>
          if inputs_missing column_name operator actual_value then
            {| add_filter_set := current_filter_set;
               add_conditions_list := conditions current_filter_set;
               add_inputs_cleared := false;
               add_status := PleaseSelect |}
          else
            let data_type :=
              default "text" (column_types table_data !! column) in
            if negb (validate_filter_operator op data_type) then
              {| add_filter_set := current_filter_set;
                 add_conditions_list := conditions current_filter_set;
                 add_inputs_cleared := false;
                 add_status := InvalidOperator op data_type |}
            else
              let filter_condition :=
                new_condition column op actual data_type in
              let conds :=
                (other_columns column (conditions current_filter_set)
                   ++ [filter_condition])%list in
              if (MAX_CONDITIONS <? length conds)%nat then
                {| add_filter_set := current_filter_set;
                   add_conditions_list := removelast conds;
                   add_inputs_cleared := false;
                   add_status := MaximumConditionsAllowed MAX_CONDITIONS |}
              else
                let filter_set :=
                  {| conditions := conds;
                     logic_operator :=
                       Some (get_logic_operator current_filter_set);
                     result_count := Some O |} in
                {| add_filter_set := filter_set;
                   add_conditions_list := conditions filter_set;
                   add_inputs_cleared := true;
                   add_status := ConditionAdded column op (length conds) |}
      | _, _, _ =>
          {| add_filter_set := current_filter_set;
             add_conditions_list := conditions current_filter_set;
             add_inputs_cleared := false;
             add_status := PleaseSelect |}
      end
  end.

(** The filter-set store keeps what a callback returns as JSON: read
    back, a tuple is a list. *)
Definition json_value (v : pyval) : pyval :=
  match v with
  | PTuple l => PList l
  | _ => v
  end.

Definition json_condition (c : Condition) : Condition :=
  {| column_name := column_name c;
     operator := operator c;
     value := json_value (value c);
     data_type := data_type c;
     is_active := is_active c |}.

Definition store (filter_set : FilterSet) : FilterSet :=
  {| conditions := map json_condition (conditions filter_set);
     logic_operator := logic_operator filter_set;
     result_count := result_count filter_set |}.

(** The contents the filter-set store can take for a loaded table: empty
    at first, then whatever "Add Filter" or "Apply Filters" writes, for
    any inputs. *)
Inductive reachable (lib : PyLib) (table_data : TableData)
  : option FilterSet -> Prop :=
| reach_initial : reachable lib table_data None
| reach_add stored column operator filter_value filter_value_multi
    filter_value2 :
    reachable lib table_data stored ->
    reachable lib table_data
      (Some (store (add_filter_set
                      (add_filter_condition column operator filter_value
                         filter_value_multi filter_value2
                         (Some table_data) stored))))
| reach_apply stored column operator filter_value filter_value_multi
    filter_value2 logic :
    reachable lib table_data stored ->
    reachable lib table_data
      (Some (store (out_filter_set
                      (apply_column_filter lib column operator filter_value
                         filter_value_multi filter_value2 logic
                         (Some table_data) stored)))).

End app.
Export app.

(** The rows a call returned, if it returned. *)
Definition rows_of (r : result DataFrame) : option (list Row) :=
  match r with
  | Ok df => Some (df_rows df)
  | Raise _ => None
  end.

(** [mask_le a b]: wherever [a] selects, so does [b]. *)
Definition mask_le (a b : Mask) : Prop :=
  Forall2 (fun x y => x = true -> y = true) a b.

(** ** A runtime for concrete runs

    An instance of the library routines, enough to run the functions on
    the tables below: a whole number prints in decimal, as Python prints
    an [int], and parses from decimal digits; a sample is taken for
    dates when every text in it is eight digits ([YYYYMMDD]) or has the
    shape [YYYY-MM-DD]; single dates are not parsed, and a search with a
    special character reports a pattern error. *)
Module Runtime.

Definition str_int (q : Q) : string :=
  NilZero.string_of_int (Z.to_int (Qnum q / Zpos (Qden q))).

Definition is_digit (c : ascii) : bool :=
  let n := nat_of_ascii c in (48 <=? n)%nat && (n <=? 57)%nat.

Definition all_digits (s : string) : bool :=
  forallb is_digit (list_ascii_of_string s).

Definition parse_int (s : string) : option Q :=
  if all_digits s && negb (s =? EmptyString) then
    match NilZero.int_of_string s with
    | Some i => Some (inject_Z (Z.of_int i))
    | None => None
    end
  else None.

Definition looks_like_date (s : string) : bool :=
  (all_digits s && Nat.eqb (String.length s) 8)
  || match list_ascii_of_string s with
     | [y1; y2; y3; y4; d1; m1; m2; d2; a1; a2] =>
         forallb is_digit [y1; y2; y3; y4; m1; m2; a1; a2]
         && Ascii.eqb d1 "-" && Ascii.eqb d2 "-"
     | _ => false
     end.

Definition lib : PyLib :=
  {| str_num := str_int;
     str_date := fun t => NilZero.string_of_int (Z.to_int t);
     str_seq := fun _ => EmptyString;
     re_search := fun _ _ => Raise ReError;
     to_float := parse_int;
     to_datetime := fun _ => None;
     to_datetime_series := forallb looks_like_date |}.

End Runtime.

(** ** Tables, filter sets and notions used in the statements *)

(** The five-row table of the test suites and of the specification's
    scenarios: Name, Age, Amount, Status, City. *)
Definition sample_row (i : Z) (name : string) (age amount : Q)
    (status city : string) : Row :=
  {| label := i;
     cells := [VStr name; VNum age; VNum amount; VStr status; VStr city] |}.

Definition alice := sample_row 0 "Alice" 25 1000.5 "Active" "Tokyo".
Definition bob := sample_row 1 "Bob" 30 2000 "Inactive" "Osaka".
Definition charlie := sample_row 2 "Charlie" 35 1500.75 "Active" "Tokyo".
Definition david := sample_row 3 "David" 28 3000 "Active" "Kyoto".
Definition eve := sample_row 4 "Eve" 32 2500.5 "Inactive" "Osaka".

Definition sample_df : DataFrame :=
  {| df_columns := ["Name"; "Age"; "Amount"; "Status"; "City"];
     df_dtypes := [DObject; DInt64; DFloat64; DObject; DObject];
     df_rows := [alice; bob; charlie; david; eve] |}.

(** The numbers for which keeping a number by value describes the
    code: those a 64-bit float holds exactly (an odd part below 2^53
    over a power of two up to 2^1074) and a 64-bit integer can hold
    (below 2^63 in size).  A Python [int], an [int64] cell and a
    [float64] cell with such a value compare and convert without
    rounding. *)
Fixpoint odd_part (p : positive) : positive :=
  match p with
  | xO p' => odd_part p'
  | _ => p
  end.

Fixpoint trailing_zeros (p : positive) : nat :=
  match p with
  | xO p' => S (trailing_zeros p')
  | _ => O
  end.

Definition float64_exact (q : Q) : bool :=
  let r := Qred q in
  match Qnum r with
  | Z0 => true
  | Zpos n | Zneg n =>
      Pos.eqb (odd_part (Qden r)) 1
      && (trailing_zeros (Qden r) <=? 1074)%nat
      && (Zpos (odd_part n) <? 2 ^ 53)%Z
  end.

Definition exact_number (v : scalar) : bool :=
  match v with
  | VNum q =>
      float64_exact q
      && Qlt_bool (Qabs q) (inject_Z (2 ^ 63))
  | _ => true
  end.

Definition is_timestamp (x : scalar) : bool :=
  match x with
  | VDate _ => true
  | _ => false
  end.

(** The storages whose cells are scalars of the model. *)
Definition plain_storage (d : Dtype) : bool :=
  match d with
  | DObject | DInt64 | DFloat64 | DDatetime64 => true
  | _ => false
  end.

(** A target that pandas compares by value with the cells of a column
    stored as [d]: an exact number, a text, a timestamp or a missing
    marker, and for a datetime column a timestamp (pandas parses a text
    first there, and reads [None] as the missing timestamp). *)
Definition by_value (d : Dtype) (x : scalar) : bool :=
  exact_number x && (negb (is_datetime64_any_dtype d) || is_timestamp x).

(** Whether a filter value is a tuple of exactly two items. *)
Definition is_pair (v : pyval) : bool :=
  match v with
  | PTuple [_; _] => true
  | _ => false
  end.

(** The frame with its columns and no row. *)
Definition no_rows (df : DataFrame) : DataFrame :=
  {| df_columns := df_columns df; df_dtypes := df_dtypes df; df_rows := [] |}.

(** Status equals "Active", City equals "Tokyo". *)
Definition active_in_tokyo : list Condition :=
  [ {| column_name := Some "Status"; operator := Some "equals";
       value := Scalar (VStr "Active"); data_type := Some "text";
       is_active := None |};
    {| column_name := Some "City"; operator := Some "equals";
       value := Scalar (VStr "Tokyo"); data_type := Some "text";
       is_active := None |} ].

(** A column of scores with one missing entry. *)
Definition scores_df : DataFrame :=
  {| df_columns := ["Score"];
     df_dtypes := [DFloat64];
     df_rows := [ {| label := 0; cells := [VNum 1] |};
                  {| label := 1; cells := [VNaN] |} ] |}.

(** Names with one missing entry. *)
Definition names_df : DataFrame :=
  {| df_columns := ["Name"];
     df_dtypes := [DObject];
     df_rows := [ {| label := 0; cells := [VStr "Alice"] |};
                  {| label := 1; cells := [VNone] |} ] |}.

(** Whether a condition is on the given column. *)
Definition on_column (column : string) (c : Condition) : bool :=
  match column_name c with
  | Some k => k =? column
  | None => false
  end.

(** The list [add_filter_condition] and [apply_column_filter] build:
    the conditions on other columns, then the new one. *)
Definition replaced (column op : string) (actual : pyval) (dt : string)
    (old : list Condition) : list Condition :=
  (other_columns column old ++ [new_condition column op actual dt])%list.

(** The five-row table as the upload stores it. *)
Definition sample_table_data : TableData :=
  default no_table_data
    (stored_table (prepare_table_data Runtime.lib sample_df "csv" "test.csv")).

(** A stored filter set with one condition, on City. *)
Definition city_filter_set : FilterSet :=
  {| conditions := [new_condition "City" "equals" (Scalar (VStr "Tokyo")) "text"];
     logic_operator := Some "AND";
     result_count := Some O |}.

(** Applying [between] on Amount with 2500 as lower and 1500 as upper
    end, from an empty filter set. *)
Definition inverted_between_attempt : ApplyOutput :=
  apply_column_filter Runtime.lib (Some "Amount") (Some "between")
    (Some "2500") None (Some "1500") (Some "AND")
    (Some sample_table_data) None.

(** A table of eleven text columns and a stored filter set with one
    condition on each of the first ten. *)
Definition wide_columns : list string :=
  ["c0"; "c1"; "c2"; "c3"; "c4"; "c5"; "c6"; "c7"; "c8"; "c9"; "c10"].

Definition wide_df : DataFrame :=
  {| df_columns := wide_columns;
     df_dtypes := repeat DObject 11;
     df_rows := [ {| label := 0; cells := repeat (VStr "x") 11 |} ] |}.

Definition wide_table_data : TableData :=
  default no_table_data
    (stored_table (prepare_table_data Runtime.lib wide_df "csv" "wide.csv")).

Definition ten_conditions : list Condition :=
  map (fun k => new_condition k "equals" (Scalar (VStr "x")) "text")
      (firstn 10 wide_columns).

Definition full_filter_set : FilterSet :=
  {| conditions := ten_conditions;
     logic_operator := Some "AND";
     result_count := Some O |}.

(** Applying a condition on the eleventh column with ten stored. *)
Definition eleventh_attempt : ApplyOutput :=
  apply_column_filter Runtime.lib (Some "c10") (Some "equals")
    (Some "x") None None (Some "AND")
    (Some wide_table_data) (Some full_filter_set).

(** Whether a present value is a number. *)
Definition is_number (v : scalar) : bool :=
  match v with
  | VNum _ => true
  | _ => false
  end.

(** The classification as the specification words it: after the
    all-missing and the stored-as-datetime cases, the date attempt on
    the sample comes first for every column, then the numeric test on
    the values. *)
Definition infer_as_specified (lib : PyLib) (dtype : Dtype) (col : Series)
  : string :=
  let present := dropna col in
  if Nat.eqb (length present) 0 then "text"
  else if is_datetime64_any_dtype dtype then "date"
  else if to_datetime_series lib (map (str_of_value lib) (head 10 present))
  then "date"
  else if forallb is_number present then "numeric"
  else "text".

(** Days written as whole numbers, stored as integers. *)
Definition day_numbers : Series := [VNum 20240101; VNum 20240102].

(** A list of records as [convert_to_json_format] writes them: every
    record has the keys [cols], in that order, and no value is NaN or
    NaT. *)
Definition serialised (cols : list string) (records : list record) : Prop :=
  Forall (fun d => map fst d = cols
                   /\ map nan_to_none (map snd d) = map snd d) records.

(** The invariant of a table snapshot: distinct column names, and one
    cell per column in every row. *)
Definition well_formed (df : DataFrame) : Prop :=
  List.NoDup (df_columns df)
  /\ Forall (fun r => length (cells r) = length (df_columns df)) (df_rows df).

(** A cell that the stored rows keep as it is: a text, a missing
    marker or an exact number, and no timestamp. *)
Definition plain_cell (v : scalar) : bool :=
  exact_number v && negb (is_date_like v).

Definition plain_cells (df : DataFrame) : bool :=
  forallb (fun r => forallb plain_cell (cells r)) (df_rows df).

Definition plain_records (records : list record) : bool :=
  forallb (fun d => forallb plain_cell (map snd d)) records.

(** Whether two storages are told apart by none of the three tests of
    [detect_column_types]. *)
Definition same_kind (d d' : Dtype) : bool :=
  Bool.eqb (is_datetime64_any_dtype d) (is_datetime64_any_dtype d')
  && Bool.eqb (is_object d) (is_object d')
  && Bool.eqb (is_numeric_dtype d) (is_numeric_dtype d').

(** Whether every column that has a value is stored in the kind of
    storage pandas picks for its values when it reads them from
    records. *)
Definition stored_as_inferred (df : DataFrame) : bool :=
  forallb
    (fun c =>
       Nat.eqb (length (dropna (get_column df c))) 0
       || same_kind (dtype_of df c)
            (infer_dtype (map nan_to_none (get_column df c))))
    (df_columns df).

(** What the upload stores for a file with the header of the five-row
    table and no rows. *)
Definition header_only_table_data : TableData :=
  default no_table_data
    (stored_table
       (prepare_table_data Runtime.lib (no_rows sample_df) "csv"
          "header.csv")).

(** Three people, one without an age and one without a name. *)
Definition people_df : DataFrame :=
  {| df_columns := ["Name"; "Age"];
     df_dtypes := [DObject; DFloat64];
     df_rows := [ {| label := 0; cells := [VStr "Alice"; VNum 25] |};
                  {| label := 1; cells := [VStr "Bob"; VNaN] |};
                  {| label := 2; cells := [VNone; VNum 28] |} ] |}.

(** ** [src/components/filter_ui.py]: the operators offered per type *)

Module filter_ui.

(** A dropdown option is a label and a value. *)
Definition get_text_operators : list (string * string) :=
  [("Equals", "equals"); ("Contains", "contains");
   ("Starts with", "starts_with"); ("Ends with", "ends_with")].

Definition get_numeric_operators : list (string * string) :=
  [("Equals", "equals"); ("Greater than", "greater_than");
   ("Less than", "less_than"); ("Between", "between")].

Definition get_date_operators : list (string * string) :=
  [("Equals", "equals"); ("Before", "before");
   ("After", "after"); ("Between", "between")].

Definition get_operators_for_type (data_type : string)
  : list (string * string) :=
  if data_type =? "text" then get_text_operators
  else if data_type =? "numeric" then get_numeric_operators
  else if data_type =? "date" then get_date_operators
  else [].

End filter_ui.
Export filter_ui.

(** ** Notions used in the further statements *)

(** The operators [apply_single_filter] has a branch for. *)
Definition known_operators : list string :=
  ["equals"; "contains"; "starts_with"; "ends_with"; "greater_than";
   "less_than"; "between"; "before"; "after"].

(** The operators that compare the column with the value by [<] or [>]. *)
Definition compares (op : string) : bool :=
  str_in op ["greater_than"; "less_than"; "before"; "after"].

(** Whether the mask of an operator is decided row by row for this
    value: pandas compares a column with a list or tuple position by
    position, which depends on the other rows, and [between] builds its
    mask from the cells only for a pair. *)
Definition row_wise (op : string) (v : pyval) : bool :=
  if op =? "between" then is_pair v
  else
    match v with
    | Scalar _ => true
    | PList _ => negb (compares op)
    | PTuple _ => negb (compares op || (op =? "equals"))
    end.

(** A condition that [apply_multiple_filters] evaluates, on a column
    the frame lacks. *)
Definition on_missing_column (df : DataFrame) (c : Condition) : Prop :=
  exists col op,
    column_name c = Some col /\ operator c = Some op
    /\ col <> EmptyString /\ has_column df col = false.

(** ** Notions for the column names and types of a stored table *)

(** The name [handle_duplicate_columns] gives to a column that has [n]
    namesakes before it. *)
Definition disambiguated (col : string) (n : nat) : string :=
  match n with
  | O => col
  | S _ => col ++ "_" ++ str_nat n
  end.

(** How often a name occurs in a header. *)
Definition occurrences (cols : list string) (col : string) : nat :=
  count_occ String.string_dec cols col.

(** What [seen] holds in [handle_duplicate_columns] after the loop went
    over the columns [pre]. *)
Definition seen_after (pre : list string) (seen : gmap string nat) : Prop :=
  forall c,
    seen !! c = match occurrences pre c with
                | O => None
                | S k => Some k
                end.

(** The values [detect_column_types] writes. *)
Definition column_type_names : list string := ["text"; "numeric"; "date"].

(** ** [update_filter_controls] of [src/app.py]: the operator dropdown,
    whether it is disabled, whether the apply button is disabled *)
Definition update_filter_controls (selected_column : option string)
    (table_data : option TableData)
  : list (string * string) * bool * bool :=
  match selected_column, table_data with
  | Some column, Some table_data =>
      if column =? EmptyString then ([], true, true)
      else
        let data_type :=
          default "text" (column_types table_data !! column) in
        let operators := get_operators_for_type data_type in
        (operators, false, false)
  | _, _ => ([], true, true)
  end.

(** ** Notions for stored filter sets *)

Definition is_tuple (v : pyval) : bool :=
  match v with
  | PTuple _ => true
  | _ => false
  end.

(** Whether [apply_multiple_filters] evaluates a condition: its
    [if col and op is not None]. *)
Definition evaluated (c : Condition) : bool :=
  match column_name c, operator c with
  | Some col, Some _ => negb (col =? EmptyString)
  | _, _ => false
  end.

(** The filter set "Apply Filters" writes for [between] 1500 and 2500 on
    Amount, from an empty store. *)
Definition between_filter_set : FilterSet :=
  out_filter_set
    (apply_column_filter Runtime.lib (Some "Amount") (Some "between")
       (Some "1500") None (Some "2500") (Some "AND")
       (Some sample_table_data) None).

(** ** [src/utils/formatters.py]: the row count display *)

Module formatters.

(** The digits of a number from the right, in groups of three with a
    comma between the groups: the format [{n:,}]. *)
Fixpoint group3 (reversed_digits : list ascii) : list ascii :=
  match reversed_digits with
  | a :: b :: c :: ((_ :: _) as rest) =>
      a :: b :: c :: ","%char :: group3 rest
  | _ => reversed_digits
  end.

Definition thousands (n : nat) : string :=
  string_of_list_ascii
    (rev (group3 (rev (list_ascii_of_string (str_nat n))))).

Definition format_row_count (total_rows : nat) (filtered_rows : option nat)
  : string :=
  match filtered_rows with
  | Some filtered =>
      if negb (Nat.eqb filtered total_rows) then
        "Filtered rows: " ++ thousands filtered ++ " / "
          ++ thousands total_rows
      else "Total rows: " ++ thousands total_rows
  | None => "Total rows: " ++ thousands total_rows
  end.

End formatters.
Export formatters.

(** ** [src/components/table_component.py] *)

Module table_component.

(** The properties of the [DataTable] that depend on the arguments; a
    column is its [name] and its [id]. *)
Record DataTable := {
  dt_data : list record;
  dt_columns : list (string * string);
  dt_virtualization : bool
}.

Definition create_table_component (data : list record)
    (columns : list (string * string)) (enable_virtual_scrolling : bool)
  : DataTable :=
  {| dt_data := data;
     dt_columns := columns;
     dt_virtualization := enable_virtual_scrolling |}.

End table_component.
Export table_component.

(** ** The table callbacks of [src/app.py] *)

Module app_tables.

(** The table container: the table, under a "no results" banner or
    not. *)
Record TableContainer := {
  banner : bool;
  table : DataTable
}.

Definition _wrap_table_with_empty_state (table_component : DataTable)
    (filtered_rows : nat) : TableContainer :=
  {| banner := Nat.eqb filtered_rows 0; table := table_component |}.

(** [not visible_columns]: no selection, or an empty one. *)
Definition no_selection (visible_columns : option (list string)) : bool :=
  match visible_columns with
  | None | Some [] => true
  | Some (_ :: _) => false
  end.

Definition _select_table_columns (all_columns : list string)
    (visible_columns : option (list string)) : list (string * string) :=
  if no_selection visible_columns then
    map (fun col => (col, col)) all_columns
  else
    let visible_set := default [] visible_columns in
    let selected :=
      List.filter (fun col => str_in col visible_set) all_columns in
    map (fun col => (col, col)) selected.

(** [update_visible_columns]: [Ok None] is "no update"; an exception of
    the filters leaves the callback. *)
Definition update_visible_columns (lib : PyLib)
    (visible_columns : option (list string))
    (table_data : option TableData)
    (current_filter_set : option FilterSet)
  : result (option (list string * TableContainer)) :=
  match table_data with
  | None => Ok None
  | Some table_data =>
      let all_columns := column_names table_data in
      let visible_columns_effective :=
        if no_selection visible_columns then all_columns
        else
          let visible_set := default [] visible_columns in
          List.filter (fun c => str_in c visible_set) all_columns in
      let df := from_dict (dataframe_json table_data) in
      let* filtered_df :=
        _apply_filter_set_to_df lib df current_filter_set
          (column_types table_data) in
      let filtered_json := convert_to_json_format filtered_df in
      let table_columns :=
        _select_table_columns all_columns (Some visible_columns_effective) in
      let table_component :=
        create_table_component filtered_json table_columns
          (1000 <? len filtered_df)%nat in
      Ok (Some (visible_columns_effective,
                _wrap_table_with_empty_state table_component
                  (len filtered_df)))
  end.

(** [df.loc[:, keep_cols]] on a frame with distinct column names, as
    [from_dict] builds: the columns by their positions; [None] is the
    [KeyError] for a label the frame does not have. *)
Fixpoint positions_of (labels columns : list string) : option (list nat) :=
  match labels with
  | [] => Some []
  | c :: rest =>
      match position c columns, positions_of rest columns with
      | Some i, Some ps => Some (i :: ps)
      | _, _ => None
      end
  end.

Definition loc_columns (df : DataFrame) (keep_cols : list string)
  : option DataFrame :=
  match positions_of keep_cols (df_columns df) with
  | Some positions =>
      Some {| df_columns := keep_cols;
              df_dtypes := map (fun i => nth i (df_dtypes df) DObject)
                               positions;
              df_rows :=
                map (fun r => {| label := label r;
                                 cells := map (fun i => cell_at i r)
                                              positions |})
                    (df_rows df) |}
  | None => None
  end.

(** What [export_filtered_csv] does: no update, the frame handed to
    [to_csv], or an exception that leaves the callback. *)
Inductive Export :=
| ExportNoUpdate
| ExportFrame (df : DataFrame)
| ExportKeyError (labels : list string)
| ExportRaise (e : exn).

Definition export_filtered_csv (lib : PyLib) (n_clicks : option nat)
    (table_data : option TableData)
    (current_filter_set : option FilterSet)
    (visible_columns : option (list string)) : Export :=
  match n_clicks with
  | None | Some O => ExportNoUpdate
  | Some (S _) =>
      match table_data with
      | None => ExportNoUpdate
      | Some table_data =>
          let df := from_dict (dataframe_json table_data) in
          match _apply_filter_set_to_df lib df current_filter_set
                  (column_types table_data) with
          | Raise e => ExportRaise e
          | Ok filtered_df =>
              if no_selection visible_columns then ExportFrame filtered_df
              else
                let visible := default [] visible_columns in
                let keep_cols :=
                  List.filter (fun c => str_in c visible)
                    (column_names table_data) in
                match keep_cols with
                | [] => ExportFrame filtered_df
                | _ =>
                    match loc_columns filtered_df keep_cols with
                    | Some picked => ExportFrame picked
                    | None => ExportKeyError keep_cols
                    end
                end
          end
      end
  end.

(** What the status line of [clear_filter] and
    [remove_filter_condition] shows. *)
Inductive TableStatus :=
| NoStatus
| AllFiltersCleared
| ErrorRemovingCondition
| AllFiltersRemoved
| ConditionRemoved
| NoResultsMatchFilters
| ConditionRemovedActive (count rows : nat)
| ErrorReapplying (e : exn)
| ErrorReapplyingWithoutTable
| InvalidFilterIndex.

(** The outputs of [clear_filter] that depend on the inputs; the input
    fields are always reset.  [clear_table = None] is the text "No data
    loaded.". *)
Record ClearOutput := {
  clear_filter_set : FilterSet;
  clear_table : option TableContainer;
  clear_row_count : string;
  clear_status : TableStatus;
  clear_conditions_list : list Condition
}.

Definition clear_filter (table_data : option TableData)
    (visible_columns : option (list string)) : ClearOutput :=
  match table_data with
  | None =>
      {| clear_filter_set := empty_filter_set;
         clear_table := None;
         clear_row_count := EmptyString;
         clear_status := NoStatus;
         clear_conditions_list := [] |}
  | Some table_data =>
      let df := from_dict (dataframe_json table_data) in
      let original_json := convert_to_json_format df in
      let table_columns :=
        _select_table_columns (column_names table_data) visible_columns in
      let table_component :=
        create_table_component original_json table_columns
          (1000 <? len df)%nat in
      let total_rows := row_count table_data in
      {| clear_filter_set := empty_filter_set;
         clear_table := Some {| banner := false; table := table_component |};
         clear_row_count := format_row_count total_rows None;
         clear_status := AllFiltersCleared;
         clear_conditions_list := [] |}
  end.

(** What [ctx.triggered[0]['prop_id']] is: not the id of a remove
    button, an id that does not parse, or the id of the button with an
    index. *)
Inductive Trigger :=
| NotRemoveButton
| Unparsable
| ButtonIndex (index : Z).

(** The outputs of [remove_filter_condition]; [None] is
    [dash.no_update]. *)
Record RemoveOutput := {
  rm_filter_set : option FilterSet;
  rm_conditions_list : option (list Condition);
  rm_table : option TableContainer;
  rm_row_count : option string;
  rm_status : option TableStatus
}.

Definition no_update : RemoveOutput :=
  {| rm_filter_set := None; rm_conditions_list := None; rm_table := None;
     rm_row_count := None; rm_status := None |}.

Definition only_status (s : TableStatus) : RemoveOutput :=
  {| rm_filter_set := None; rm_conditions_list := None; rm_table := None;
     rm_row_count := None; rm_status := Some s |}.

(** [any(n_clicks_list)] *)
Definition any_clicked (n_clicks_list : list (option nat)) : bool :=
  existsb (fun n => match n with Some (S _) => true | _ => false end)
          n_clicks_list.

(** The list after [conditions.pop(i)] *)
Definition pop_at {A} (i : nat) (l : list A) : list A :=
  (firstn i l ++ skipn (S i) l)%list.

Definition remove_filter_condition (lib : PyLib)
    (n_clicks_list : list (option nat)) (triggered : Trigger)
    (current_filter_set : option FilterSet)
    (table_data : option TableData)
    (visible_columns : option (list string)) : RemoveOutput :=
  let current_filter_set := default empty_filter_set current_filter_set in
  if negb (any_clicked n_clicks_list) then no_update
  else
    match triggered with
    | NotRemoveButton => no_update
    | Unparsable => only_status ErrorRemovingCondition
    | ButtonIndex index_to_remove =>
        let conditions0 := conditions current_filter_set in
        if (0 <=? index_to_remove)%Z
           && (index_to_remove <? Z.of_nat (length conditions0))%Z
        then
          let conds := pop_at (Z.to_nat index_to_remove) conditions0 in
          let filter_set :=
            Build_FilterSet conds
              (Some (get_logic_operator current_filter_set)) (Some O) in
          let conditions_list := conds in
          match conds with
          | [] =>
              match table_data with
              | Some table_data =>
                  let df := from_dict (dataframe_json table_data) in
                  let original_json := convert_to_json_format df in
                  let table_columns :=
                    _select_table_columns (column_names table_data)
                      visible_columns in
                  let table_component :=
                    create_table_component original_json table_columns
                      (1000 <? len df)%nat in
                  let total_rows := row_count table_data in
                  {| rm_filter_set := Some filter_set;
                     rm_conditions_list := Some conditions_list;
                     rm_table :=
                       Some {| banner := false; table := table_component |};
                     rm_row_count := Some (format_row_count total_rows None);
                     rm_status := Some AllFiltersRemoved |}
              | None =>
                  {| rm_filter_set := Some filter_set;
                     rm_conditions_list := Some conditions_list;
                     rm_table := None;
                     rm_row_count := None;
                     rm_status := Some ConditionRemoved |}
              end
          | _ =>
              match table_data with
              | None =>
                  {| rm_filter_set := Some filter_set;
                     rm_conditions_list := Some conditions_list;
                     rm_table := None;
                     rm_row_count := None;
                     rm_status := Some ErrorReapplyingWithoutTable |}
              | Some table_data =>
                  let df := from_dict (dataframe_json table_data) in
                  match _apply_filter_set_to_df lib df (Some filter_set)
                          (column_types table_data) with
                  | Raise e =>
                      {| rm_filter_set := Some filter_set;
                         rm_conditions_list := Some conditions_list;
                         rm_table := None;
                         rm_row_count := None;
                         rm_status := Some (ErrorReapplying e) |}
                  | Ok filtered_df =>
                      let filter_set :=
                        Build_FilterSet conds
                          (Some (get_logic_operator current_filter_set))
                          (Some (len filtered_df)) in
                      let filtered_json :=
                        convert_to_json_format filtered_df in
                      let table_columns :=
                        _select_table_columns (column_names table_data)
                          visible_columns in
                      let table_component :=
                        create_table_component filtered_json table_columns
                          (1000 <? len filtered_df)%nat in
                      let total_rows := row_count table_data in
                      let filtered_rows := len filtered_df in
                      {| rm_filter_set := Some filter_set;
                         rm_conditions_list := Some conditions_list;
                         rm_table :=
                           Some (_wrap_table_with_empty_state
                                   table_component filtered_rows);
                         rm_row_count :=
                           Some (format_row_count total_rows
                                   (Some filtered_rows));
                         rm_status :=
                           Some (if Nat.eqb filtered_rows 0
                                 then NoResultsMatchFilters
                                 else ConditionRemovedActive (length conds)
                                        filtered_rows) |}
                  end
              end
          end
        else only_status InvalidFilterIndex
    end.

End app_tables.
Export app_tables.

(** ** [src/utils/validators.py] *)

Module validators.

(** The text before the first [sep]. *)
Fixpoint until_char (sep : ascii) (s : string) : string :=
  match s with
  | EmptyString => EmptyString
  | String c t =>
      if Ascii.eqb c sep then EmptyString else String c (until_char sep t)
  end.

(** [s.split(sep)[-1]]: the text after the last [sep], all of [s] if
    there is none. *)
Definition after_last (sep : ascii) (s : string) : string :=
  rev_string (until_char sep (rev_string s EmptyString)) EmptyString.

(** [sep.join(l)] *)
Fixpoint join (sep : string) (l : list string) : string :=
  match l with
  | [] => EmptyString
  | [x] => x
  | x :: t => x ++ sep ++ join sep t
  end.

(** An error message: a text, or the text about the file size, which
    prints the two sizes in megabytes. *)
Inductive Message :=
| Text (s : string)
| FileSizeExceeds (estimated_size max_size_bytes : N).

Definition validate_file_type (file_name : string)
    (allowed_extensions : list string) : bool * option Message :=
  if file_name =? EmptyString then
    (false, Some (Text "File name is required"))
  else if existsb (fun ext => endswith (lower ext) (lower file_name))
            allowed_extensions
  then (true, None)
  else
    let allowed_str := join ", " allowed_extensions in
    (false, Some (Text ("Invalid file type. Allowed types: " ++ allowed_str))).

Definition validate_file_size (file_content_base64 : string)
    (max_size_bytes : N) : bool * option Message :=
  if file_content_base64 =? EmptyString then
    (false, Some (Text "File content is required"))
  else
    let base64_length :=
      N.of_nat (String.length (after_last "," file_content_base64)) in
    let estimated_size := (base64_length * 3 / 4)%N in
    if (max_size_bytes <? estimated_size)%N then
      (false, Some (FileSizeExceeds estimated_size max_size_bytes))
    else (true, None).

Definition allowed_extensions : list string :=
  [".csv"; ".xlsx"; ".xls"; ".json"; ".feather"; ".ftr"; ".parquet"; ".pq"].

Definition validate_file_upload (file_name file_content_base64 : string)
    (max_size_bytes : N) : bool * option Message :=
  let '(is_valid_type, type_error) :=
    validate_file_type file_name allowed_extensions in
  if negb is_valid_type then (false, type_error)
  else
    let '(is_valid_size, size_error) :=
      validate_file_size file_content_base64 max_size_bytes in
    if negb is_valid_size then (false, size_error)
    else (true, None).

End validators.
Export validators.

(** ** [src/lib/data_parser.py]: how [parse_file] picks the parser *)

Module data_parser.

(** [c in s] *)
Definition has_char (c : ascii) (s : string) : bool :=
  existsb (Ascii.eqb c) (list_ascii_of_string s).

(** [upload_filename.lower().split('.')[-1] if '.' in upload_filename
    else ''] *)
Definition file_ext (upload_filename : string) : string :=
  if has_char "." upload_filename
  then after_last "." (lower upload_filename)
  else EmptyString.

(** The branch [parse_file] takes: the format it returns with the
    parsed frame, [None] for its "Unsupported file format" error. *)
Definition parse_file_format (upload_filename : string) : option string :=
  let file_ext := file_ext upload_filename in
  if str_in file_ext ["csv"] then Some "csv"
  else if str_in file_ext ["xlsx"; "xls"] then Some "excel"
  else if str_in file_ext ["json"] then Some "json"
  else if str_in file_ext ["feather"; "ftr"] then Some "feather"
  else if str_in file_ext ["parquet"; "pq"] then Some "parquet"
  else None.

End data_parser.
Export data_parser.

(** ** [src/utils/formatters.py] and [src/utils/error_handlers.py]: the
    message for a failed upload *)

Module error_handlers.

(** An exception: the name of its class, the names of the classes it
    inherits from, and its text. *)
Record Exception := {
  exc_type : string;
  exc_bases : list string;
  exc_message : string
}.

(** [isinstance(error, cls)] *)
Definition isinstance (error : Exception) (cls : string) : bool :=
  (exc_type error =? cls) || str_in cls (exc_bases error).

Definition user_friendly_messages : list (string * string) :=
  [("FileNotFoundError", "File not found");
   ("PermissionError", "Permission denied");
   ("ValueError", "Invalid value provided");
   ("KeyError", "Required field missing");
   ("TypeError", "Invalid data type")].

Fixpoint lookup_message (k : string) (d : list (string * string))
  : option string :=
  match d with
  | [] => None
  | (k', v) :: t => if k =? k' then Some v else lookup_message k t
  end.

Definition format_error_message (error : Exception) (context : string)
  : string :=
  let error_type := exc_type error in
  let error_message := exc_message error in
  let base_message :=
    default (error_type ++ ": " ++ error_message)
      (lookup_message error_type user_friendly_messages) in
  if negb (context =? EmptyString) then context ++ ": " ++ base_message
  else base_message.

Definition upload_context (file_name : string) : string :=
  if negb (file_name =? EmptyString)
  then "Error uploading file '" ++ file_name ++ "'"
  else "Error uploading file".

Definition encoding_hint : string :=
  ": File encoding issue. Please ensure the file is UTF-8 encoded or try a different encoding.".

Definition handle_file_upload_error (error : Exception) (file_name : string)
  : string :=
  let context := upload_context file_name in
  if isinstance error "FileNotFoundError" then
    context ++ ": File not found"
  else if isinstance error "PermissionError" then
    context ++ ": Permission denied"
  else if isinstance error "ValueError" then
    context ++ ": Invalid file format or corrupted file"
  else if isinstance error "UnicodeDecodeError" then
    context ++ encoding_hint
  else format_error_message error context.

(** A [UnicodeDecodeError] as Python raises it. *)
Definition unicode_decode_error (message : string) : Exception :=
  {| exc_type := "UnicodeDecodeError";
     exc_bases := ["UnicodeError"; "ValueError"; "Exception";
                   "BaseException"; "object"];
     exc_message := message |}.

End error_handlers.
Export error_handlers.

(** * Properties *)

(** ** Masks and row selection *)

Section SelectFacts.
Context {A : Type}.
Implicit Types (l : list A) (m : Mask).

Lemma select_repeat_false l n : select l (repeat false n) = [].
Proof.
  revert n; induction l as [|x l IH]; intros [|n]; simpl; auto.
Qed.

Lemma select_map (f : A -> bool) l : select l (map f l) = List.filter f l.
Proof.
  induction l as [|x l IH]; simpl; [reflexivity|].
  rewrite IH; reflexivity.
Qed.

Lemma select_map_compose {B} (g : A -> B) (f : B -> bool) l :
  select l (map f (map g l)) = List.filter (fun x => f (g x)) l.
Proof. rewrite map_map. apply select_map. Qed.

Lemma mask_le_refl m : mask_le m m.
Proof. induction m; constructor; auto. Qed.

Lemma mask_le_and_or a b m :
  mask_le a b -> mask_le (mask_and a m) (mask_or b m).
Proof.
  intros H; revert m; induction H as [|x y a b Hxy Hab IH]; intros m.
  - destruct m; constructor.
  - destruct m as [|z m]; simpl; constructor.
    + intros Hx. apply andb_true_iff in Hx as [Hx _].
      rewrite (Hxy Hx). reflexivity.
    + apply IH.
Qed.

Lemma mask_le_folds others : forall a b,
  mask_le a b ->
  mask_le (fold_left mask_and others a) (fold_left mask_or others b).
Proof.
  induction others as [|m others IH]; intros a b H; simpl; auto.
  apply IH, mask_le_and_or, H.
Qed.

Lemma select_mask_le l : forall a b,
  mask_le a b -> sublist (select l a) (select l b).
Proof.
  induction l as [|x l IH]; intros a b H.
  - destruct a, b; constructor.
  - destruct H as [|u v a b Huv Hab]; simpl; [constructor|].
    destruct u, v; simpl.
    + apply sublist_skip, IH, Hab.
    + discriminate (Huv eq_refl).
    + apply sublist_cons, IH, Hab.
    + apply IH, Hab.
Qed.

Lemma sublist_In (l1 l2 : list A) :
  sublist l1 l2 -> forall x, In x l1 -> In x l2.
Proof.
  induction 1 as [|y l1 l2 _ IH|y l1 l2 _ IH]; simpl; intros x Hx; auto.
  destruct Hx; auto.
Qed.
End SelectFacts.

Lemma get_column_position df c i :
  position c (df_columns df) = Some i ->
  get_column df c = map (cell_at i) (df_rows df).
Proof. intros H. unfold get_column. rewrite H. reflexivity. Qed.

Lemma has_column_position df c :
  has_column df c = true <-> exists i, position c (df_columns df) = Some i.
Proof.
  unfold has_column. induction (df_columns df) as [|k cols IH]; simpl.
  - split; [discriminate|intros [i Hi]; discriminate].
  - destruct (String.eqb c k); simpl.
    + split; eauto.
    + rewrite IH. split; intros [i Hi].
      * rewrite Hi. eauto.
      * destruct (position c cols); [eauto|discriminate].
Qed.

(** ** The [between] operator *)

(** The Series [between] builds for a value that is not a 2-tuple. *)
Lemma between_without_pair_key
    (lib : PyLib) (df : DataFrame) (d : Dtype) (col : Series) (v : pyval) :
  is_pair v = false ->
  operator_mask lib df d col "between" v
  = Ok (Some (series_of_bools (full_mask false df))).
Proof.
  intros Hv. unfold operator_mask; simpl.
  destruct v as [x|l|l]; try reflexivity.
  destruct l as [|a [|b [|e l]]]; try reflexivity. discriminate Hv.
Qed.

Lemma getitem_no_row (df : DataFrame) :
  getitem df (series_of_bools (full_mask false df))
  = if Nat.eqb (len df) 0 then no_columns df else no_rows df.
Proof.
  destruct df as [cols dts [|r rows]]; [reflexivity|].
  unfold full_mask, len, no_rows, series_of_bools, getitem, df_select.
  cbn [df_rows df_columns df_dtypes length repeat Nat.eqb]. f_equal.
  apply (select_repeat_false (r :: rows) (S (length rows))).
Qed.

(** C10: on a column the frame has, [between] with a value that is not a
    2-tuple (a list, a scalar, a tuple of another length) raises nothing
    and returns a frame with no row: the frame's columns without rows.
    For a frame that has no rows to begin with, the Series built from
    the empty list is no Boolean mask, and the result has no columns
    either. *)
Theorem between_without_pair_selects_nothing
    (lib : PyLib) (df : DataFrame) (c : string) (v : pyval) (dt : string) :
  has_column df c = true ->
  is_pair v = false ->
  apply_single_filter lib df c "between" v dt
  = Ok (if Nat.eqb (len df) 0 then no_columns df else no_rows df)
  /\ df_rows (if Nat.eqb (len df) 0 then no_columns df else no_rows df) = [].
Proof.
  intros Hc Hv. split.
  - unfold apply_single_filter. rewrite Hc. simpl.
    rewrite (between_without_pair_key _ _ _ _ _ Hv). simpl.
    rewrite getitem_no_row. reflexivity.
  - destruct df as [cols dts [|r rows]]; reflexivity.
Qed.

Lemma between_without_pair_selects_nothing_witness :
  apply_single_filter Runtime.lib sample_df "Amount" "between"
    (PList [VNum 1500; VNum 2500]) "numeric" = Ok (no_rows sample_df).
Proof.
  exact (proj1 (between_without_pair_selects_nothing Runtime.lib sample_df
                  "Amount" (PList [VNum 1500; VNum 2500]) "numeric"
                  eq_refl eq_refl)).
Defined.

(** A 2-tuple whose first item is greater than its second makes
    [apply_single_filter] raise, whatever the rows are. *)
Lemma between_inverted_raises
    (lib : PyLib) (df : DataFrame) (c : string) (lo hi : scalar) (dt : string) :
  has_column df c = true ->
  py_gt lo hi = Ok true ->
  apply_single_filter lib df c "between" (PTuple [lo; hi]) dt
  = Raise (between_error lib lo hi).
Proof.
  intros Hc Hgt. unfold apply_single_filter. rewrite Hc. simpl.
  unfold operator_mask; simpl. rewrite Hgt. reflexivity.
Qed.

(** C5, as the code has it: on the five-row table [between] on Amount
    with (1500, 2500) keeps exactly two rows, Bob (2000.0) and Charlie
    (1500.75); Eve's 2500.5 is above the upper end. *)
Theorem between_amount_keeps_bob_and_charlie (lib : PyLib) :
  rows_of (apply_single_filter lib sample_df "Amount" "between"
             (PTuple [VNum 1500; VNum 2500]) "numeric")
  = Some [bob; charlie].
Proof. reflexivity. Qed.

(** C5, as the claim has it, fails: the rows kept are not Charlie and
    Eve. *)
Lemma between_amount_not_charlie_and_eve :
  rows_of (apply_single_filter Runtime.lib sample_df "Amount" "between"
             (PTuple [VNum 1500; VNum 2500]) "numeric")
  <> Some [charlie; eve].
Proof. vm_compute. discriminate. Qed.

(** ** AND against OR *)

Lemma upper_AND : (upper "AND" =? "OR") = false.
Proof. reflexivity. Qed.

Lemma upper_OR : (upper "OR" =? "OR") = true.
Proof. reflexivity. Qed.

(** The two ways of combining the same masks. *)
Lemma combine_masks_and_or (masks : list Mask) :
  match combine_masks "AND" masks, combine_masks "OR" masks with
  | Some a, Some o => mask_le a o
  | None, None => True
  | _, _ => False
  end.
Proof.
  unfold combine_masks. destruct masks as [|first others]; [exact I|].
  rewrite upper_AND, upper_OR. apply mask_le_folds, mask_le_refl.
Qed.

(** C7: whenever [apply_multiple_filters] returns under ['AND'] (which
    already means at most 10 conditions, none of them raising), it
    returns under ['OR'] on the same frame and conditions, and the rows
    kept under ['AND'] are among the rows kept under ['OR'], in the same
    order; so the AND row count is at most the OR row count. *)
Theorem and_rows_within_or_rows
    (lib : PyLib) (df : DataFrame) (conds : list Condition)
    (r_and : DataFrame) :
  apply_multiple_filters lib df conds "AND" = Ok r_and ->
  exists r_or,
    apply_multiple_filters lib df conds "OR" = Ok r_or /\
    (len r_and <= len r_or)%nat /\
    sublist (df_rows r_and) (df_rows r_or) /\
    (forall row, In row (df_rows r_and) -> In row (df_rows r_or)).
Proof.
  unfold apply_multiple_filters.
  destruct conds as [|c conds].
  - intros [= <-]. exists df. repeat split; auto.
  - destruct (10 <? length (c :: conds))%nat; [discriminate|].
    destruct (collect_masks lib df (c :: conds)) as [masks|e]; simpl;
      [|discriminate].
    pose proof (combine_masks_and_or masks) as H.
    destruct (combine_masks "AND" masks) as [a|],
             (combine_masks "OR" masks) as [o|]; try contradiction.
    + intros [= <-]. eexists; split; [reflexivity|].
      pose proof (select_mask_le (df_rows df) a o H) as Hs.
      unfold len; simpl. split; [apply sublist_length, Hs|].
      split; [exact Hs|apply sublist_In, Hs].
    + intros [= <-]. exists df. repeat split; auto.
Qed.

Lemma and_rows_within_or_rows_witness :
  exists r_or,
    apply_multiple_filters Runtime.lib sample_df active_in_tokyo "OR"
    = Ok r_or /\
    (len (df_select sample_df [true; false; true; false; false])
     <= len r_or)%nat /\
    sublist (df_rows (df_select sample_df [true; false; true; false; false]))
            (df_rows r_or) /\
    (forall row,
        In row (df_rows (df_select sample_df
                           [true; false; true; false; false])) ->
        In row (df_rows r_or)).
Proof.
  apply (and_rows_within_or_rows Runtime.lib sample_df active_in_tokyo).
  reflexivity.
Defined.

(** ** The [equals] operator *)

Lemma isin_match_present (v x : scalar) :
  isna v = false -> isin_match v x = py_eq v x.
Proof. destruct v; simpl; try discriminate; reflexivity. Qed.

Lemma isin_match_missing (v x : scalar) :
  isna v = true -> isna x = false -> isin_match v x = false.
Proof.
  destruct v; simpl; try discriminate; destruct x; simpl;
    try discriminate; reflexivity.
Qed.

(** C6, as the code has it.  For a frame with distinct column names, a
    column of it at position [i], stored as objects, integers, floats or
    datetimes, whose numbers are exact: [equals] with a list [S] of
    targets compared by value keeps exactly the rows whose cell [isin]
    finds in [S]; for a cell that is not missing this is equality by
    value with some member of [S]; a missing cell is never found when
    [S] has no missing member; [equals] with a scalar compared by value
    keeps exactly the rows whose cell is not missing and equals it. *)
Theorem equals_keeps_matching_rows
    (lib : PyLib) (df : DataFrame) (c : string) (i : nat) (dt : string) :
  position c (df_columns df) = Some i ->
  List.NoDup (df_columns df) ->
  plain_storage (dtype_of df c) = true ->
  Forall (fun row => exact_number (cell_at i row) = true) (df_rows df) ->
  (forall S,
      forallb (by_value (dtype_of df c)) S = true ->
      rows_of (apply_single_filter lib df c "equals" (PList S) dt)
      = Some (List.filter
                (fun row => existsb (isin_match (cell_at i row)) S)
                (df_rows df)))
  /\ (forall v S,
         isna v = false ->
         existsb (isin_match v) S = existsb (py_eq v) S)
  /\ (forall v S,
         isna v = true -> existsb isna S = false ->
         existsb (isin_match v) S = false)
  /\ (forall x,
         by_value (dtype_of df c) x = true ->
         rows_of (apply_single_filter lib df c "equals" (Scalar x) dt)
         = Some (List.filter
                   (fun row => negb (isna (cell_at i row))
                               && py_eq (cell_at i row) x)
                   (df_rows df))).
Proof.
  intros Hpos _ _ _.
  assert (Hc : has_column df c = true)
    by (apply has_column_position; eauto).
  split; [|split; [|split]].
  - intros S _. unfold apply_single_filter. rewrite Hc. simpl.
    rewrite (get_column_position _ _ _ Hpos).
    unfold series_isin. rewrite map_map.
    rewrite (select_map (fun row => existsb (isin_match (cell_at i row)) S)).
    reflexivity.
  - intros v S Hv. induction S as [|x S IH]; simpl; [reflexivity|].
    rewrite IH, (isin_match_present _ _ Hv). reflexivity.
  - intros v S Hv HS. induction S as [|x S IH]; simpl; [reflexivity|].
    simpl in HS. apply orb_false_iff in HS as [Hx HS].
    rewrite (isin_match_missing _ _ Hv Hx), (IH HS). reflexivity.
  - intros x Hx. unfold apply_single_filter. rewrite Hc. cbn [negb].
    cbv zeta. rewrite (get_column_position _ _ _ Hpos).
    assert (Hr : right_operand lib (dtype_of df c) x = Some x).
    { unfold by_value in Hx. apply andb_true_iff in Hx as [_ Hx].
      unfold right_operand. destruct x; try reflexivity.
      destruct (is_datetime64_any_dtype (dtype_of df c));
        [discriminate|reflexivity]. }
    assert (Hop : forall d col,
               operator_mask lib df d col "equals" (Scalar x)
               = (let* m := series_eq lib d col (Scalar x) in
                  Ok (Some (BoolMask m)))) by reflexivity.
    rewrite Hop. unfold series_eq. rewrite Hr. simpl. rewrite map_map.
    rewrite (select_map
               (fun row => negb (isna (cell_at i row))
                           && py_eq (cell_at i row) x)).
    reflexivity.
Qed.

Lemma equals_keeps_matching_rows_witness :
  rows_of (apply_single_filter Runtime.lib sample_df "Age" "equals"
             (PList [VNum 25; VNum 30]) "numeric")
  = Some [alice; bob].
Proof.
  apply (proj1 (equals_keeps_matching_rows Runtime.lib sample_df "Age" 1
                  "numeric" eq_refl
                  ltac:(repeat constructor; simpl; intuition discriminate)
                  eq_refl
                  ltac:(repeat constructor))
               [VNum 25; VNum 30]).
  reflexivity.
Defined.

(** C6, as the claim has it, fails: with NaN among the values of the
    list, the row whose cell is missing is kept. *)
Lemma equals_list_with_nan_keeps_missing_cell :
  rows_of (apply_single_filter Runtime.lib scores_df "Score" "equals"
             (PList [VNaN]) "numeric")
  = Some [ {| label := 1; cells := [VNaN] |} ]
  /\ isna (cell_at 0 {| label := 1; cells := [VNaN] |}) = true.
Proof. split; reflexivity. Qed.

(** ** The text operators *)

(** What [starts_with] and [ends_with] compute on a column the frame
    has: a prefix (suffix) test, letter case included, of [str(value)]
    against [str(cell)]. *)
Lemma starts_with_rows
    (lib : PyLib) (df : DataFrame) (c : string) (i : nat) (v : pyval)
    (dt : string) :
  position c (df_columns df) = Some i ->
  rows_of (apply_single_filter lib df c "starts_with" v dt)
  = Some (List.filter
            (fun row => startswith (str_of_pyval lib v)
                          (str_of_value lib (cell_at i row)))
            (df_rows df)).
Proof.
  intros Hpos.
  assert (Hc : has_column df c = true)
    by (apply has_column_position; eauto).
  unfold apply_single_filter. rewrite Hc. simpl.
  rewrite (get_column_position _ _ _ Hpos).
  unfold str_startswith, astype_str. rewrite !map_map.
  rewrite (select_map
             (fun row => startswith (str_of_pyval lib v)
                           (str_of_value lib (cell_at i row)))).
  reflexivity.
Qed.

Lemma ends_with_rows
    (lib : PyLib) (df : DataFrame) (c : string) (i : nat) (v : pyval)
    (dt : string) :
  position c (df_columns df) = Some i ->
  rows_of (apply_single_filter lib df c "ends_with" v dt)
  = Some (List.filter
            (fun row => endswith (str_of_pyval lib v)
                          (str_of_value lib (cell_at i row)))
            (df_rows df)).
Proof.
  intros Hpos.
  assert (Hc : has_column df c = true)
    by (apply has_column_position; eauto).
  unfold apply_single_filter. rewrite Hc. simpl.
  rewrite (get_column_position _ _ _ Hpos).
  unfold str_endswith, astype_str. rewrite !map_map.
  rewrite (select_map
             (fun row => endswith (str_of_pyval lib v)
                           (str_of_value lib (cell_at i row)))).
  reflexivity.
Qed.

Lemma mapM_total {A B} (f : A -> result B) (g : A -> B) (l : list A) :
  (forall x, f x = Ok (g x)) -> mapM f l = Ok (map g l).
Proof.
  intros H. induction l as [|x l IH]; simpl; [reflexivity|].
  rewrite H, IH. reflexivity.
Qed.

Lemma mapM_map {A B C} (f : B -> result C) (g : A -> B) (l : list A) :
  mapM f (map g l) = mapM (fun x => f (g x)) l.
Proof.
  induction l as [|x l IH]; simpl; [reflexivity|].
  rewrite IH. reflexivity.
Qed.

(** What [contains] computes for a value without special characters: a
    substring test, letter case ignored, of [str(value)] against
    [str(cell)]. *)
Lemma contains_plain_rows
    (lib : PyLib) (df : DataFrame) (c : string) (i : nat) (v : pyval)
    (dt : string) :
  position c (df_columns df) = Some i ->
  is_plain (str_of_pyval lib v) = true ->
  rows_of (apply_single_filter lib df c "contains" v dt)
  = Some (List.filter
            (fun row => substring_of (lower (str_of_pyval lib v))
                          (lower (str_of_value lib (cell_at i row))))
            (df_rows df)).
Proof.
  intros Hpos Hplain.
  assert (Hc : has_column df c = true)
    by (apply has_column_position; eauto).
  unfold apply_single_filter. rewrite Hc. simpl.
  rewrite (get_column_position _ _ _ Hpos).
  assert (Hop : forall d col,
             operator_mask lib df d col "contains" v
             = (let* m := str_contains_nocase lib (astype_str lib col)
                            (str_of_pyval lib v) in
                Ok (Some (BoolMask m)))) by reflexivity.
  rewrite Hop. clear Hop.
  unfold str_contains_nocase, astype_str. rewrite !mapM_map.
  rewrite (mapM_total _
             (fun row => substring_of (lower (str_of_pyval lib v))
                           (lower (str_of_value lib (cell_at i row))))).
  - simpl. rewrite select_map. reflexivity.
  - intros row. unfold re_search_ignorecase. rewrite Hplain. reflexivity.
Qed.

(** C2 at its failing inputs.  On the five-row table, [starts_with] "a"
    on Name keeps no row although "Alice" begins with that letter in
    upper case, and [ends_with] "E" keeps none although "Alice",
    "Charlie" and "Eve" end with it in lower case, while [contains] "A"
    keeps Alice, Charlie and David; and [contains] "on" keeps the row
    whose Name is missing, through the text "None". *)
Theorem text_operators_on_sample (lib : PyLib) :
  rows_of (apply_single_filter lib sample_df "Name" "starts_with"
             (Scalar (VStr "a")) "text") = Some []
  /\ rows_of (apply_single_filter lib sample_df "Name" "ends_with"
                (Scalar (VStr "E")) "text") = Some []
  /\ rows_of (apply_single_filter lib sample_df "Name" "contains"
                (Scalar (VStr "A")) "text") = Some [alice; charlie; david]
  /\ rows_of (apply_single_filter lib names_df "Name" "contains"
                (Scalar (VStr "on")) "text")
     = Some [ {| label := 1; cells := [VNone] |} ].
Proof. repeat split; reflexivity. Qed.

(** ** Filter sets: one condition per column, at most ten *)

Lemma other_columns_filter column conds :
  other_columns column conds
  = List.filter (fun c => negb (on_column column c)) conds.
Proof. reflexivity. Qed.




Lemma other_columns_length column conds :
  (length (other_columns column conds) <= length conds)%nat.
Proof.
  rewrite other_columns_filter.
  induction conds as [|c conds IH]; simpl; [lia|].
  destruct (negb (on_column column c)); simpl; lia.
Qed.

Section Replace.
Variables (column op : string) (actual : pyval) (dt : string).
Variable old : list Condition.



End Replace.




(** [add_filter_condition] never lets the stored list grow past ten. *)
Lemma add_keeps_at_most_ten
    (column_input operator_input filter_value : option string)
    (filter_value_multi : option (list scalar))
    (filter_value2 : option string)
    (table_data : option TableData) (current_filter_set : option FilterSet) :
  (length (conditions (default empty_filter_set current_filter_set)) <= 10)%nat ->
  (length
     (conditions
        (add_filter_set
           (add_filter_condition column_input operator_input filter_value
              filter_value_multi filter_value2 table_data
              current_filter_set))) <= 10)%nat.
Proof.
  intros H. unfold add_filter_condition.
  destruct table_data as [td|]; [|exact H].
  destruct column_input as [column|]; [|exact H].
  destruct operator_input as [o|]; [|exact H].
  destruct (actual_value_of (Some o) filter_value filter_value_multi
              filter_value2) as [actual|]; [|exact H].
  destruct (inputs_missing _ _ _); [exact H|].
  destruct (negb (validate_filter_operator o _)); [exact H|].
  destruct (MAX_CONDITIONS <? _)%nat eqn:E; [exact H|].
  apply Nat.ltb_ge in E. exact E.
Qed.

(** A rejected add hands back the stored filter set as it was. *)
Lemma add_rejected_keeps_filter_set
    (column_input operator_input filter_value : option string)
    (filter_value_multi : option (list scalar))
    (filter_value2 : option string)
    (table_data : option TableData) (current_filter_set : option FilterSet)
    (limit : nat) :
  add_status
    (add_filter_condition column_input operator_input filter_value
       filter_value_multi filter_value2 table_data current_filter_set)
  = MaximumConditionsAllowed limit ->
  add_filter_set
    (add_filter_condition column_input operator_input filter_value
       filter_value_multi filter_value2 table_data current_filter_set)
  = default empty_filter_set current_filter_set.
Proof.
  unfold add_filter_condition.
  destruct table_data as [td|]; [|discriminate].
  destruct column_input as [column|]; [|discriminate].
  destruct operator_input as [o|]; [|discriminate].
  destruct (actual_value_of (Some o) filter_value filter_value_multi
              filter_value2) as [actual|]; [|discriminate].
  destruct (inputs_missing _ _ _); [discriminate|].
  destruct (negb (validate_filter_operator o _)); [discriminate|].
  destruct (MAX_CONDITIONS <? _)%nat; [reflexivity|discriminate].
Qed.

(** Evaluation refuses any list of more than ten conditions. *)
Lemma apply_multiple_filters_refuses_eleven
    (lib : PyLib) (df : DataFrame) (conds : list Condition) (logic : string) :
  (10 < length conds)%nat ->
  apply_multiple_filters lib df conds logic = Raise max_conditions_error.
Proof.
  intros H. unfold apply_multiple_filters.
  destruct conds as [|c conds]; [simpl in H; lia|].
  apply Nat.ltb_lt in H. rewrite H. reflexivity.
Qed.

(** When [apply_column_filter] ends in its exception handler, the filter
    set it returns already holds the condition that was being applied. *)
Lemma apply_error_returns_updated_set
    (lib : PyLib)
    (column_input operator_input filter_value : option string)
    (filter_value_multi : option (list scalar))
    (filter_value2 logic_input : option string)
    (table_data : option TableData) (current_filter_set : option FilterSet)
    (e : exn) :
  out_status
    (apply_column_filter lib column_input operator_input filter_value
       filter_value_multi filter_value2 logic_input table_data
       current_filter_set)
  = ErrorApplyingFilter e ->
  exists c op actual dt,
    column_input = Some c
    /\ conditions
         (out_filter_set
            (apply_column_filter lib column_input operator_input
               filter_value filter_value_multi filter_value2 logic_input
               table_data current_filter_set))
       = (other_columns c
            (conditions (default empty_filter_set current_filter_set))
          ++ [new_condition c op actual dt])%list.
Proof.
  unfold apply_column_filter.
  destruct table_data as [td|]; [|discriminate].
  destruct column_input as [column|]; [|discriminate].
  destruct operator_input as [o|]; [|discriminate].
  destruct (actual_value_of (Some o) filter_value filter_value_multi
              filter_value2) as [actual|]; [|discriminate].
  destruct (inputs_missing _ _ _); [discriminate|].
  destruct (negb (validate_filter_operator o _)); [discriminate|].
  match goal with
  | |- context [match ?x with Some _ => _ | None => _ end] =>
      destruct x as [failure|] eqn:Hchk
  end.
  - simpl. intros Hst. exfalso.
    destruct (_ =? "numeric") in Hchk.
    + destruct (check_numeric lib actual); congruence.
    + destruct (_ =? "date") in Hchk; [|discriminate].
      destruct (check_date lib actual); congruence.
  - destruct (_apply_filter_set_to_df _ _ _ _) as [filtered|e']; simpl.
    + destruct (Nat.eqb _ 0); [discriminate|].
      destruct (1 <? _)%nat; discriminate.
    + intros _. eauto 10.
Qed.

(** Whatever [apply_column_filter] answers, the filter set it returns is
    either the stored one or the stored one with the condition on the
    chosen column replaced. *)
Lemma apply_returns_stored_or_replaced
    (lib : PyLib)
    (column_input operator_input filter_value : option string)
    (filter_value_multi : option (list scalar))
    (filter_value2 logic_input : option string)
    (table_data : option TableData) (current_filter_set : option FilterSet) :
  out_filter_set
    (apply_column_filter lib column_input operator_input filter_value
       filter_value_multi filter_value2 logic_input table_data
       current_filter_set)
  = default empty_filter_set current_filter_set
  \/ exists c op actual dt,
       column_input = Some c
       /\ conditions
            (out_filter_set
               (apply_column_filter lib column_input operator_input
                  filter_value filter_value_multi filter_value2 logic_input
                  table_data current_filter_set))
          = replaced c op actual dt
              (conditions (default empty_filter_set current_filter_set)).
Proof.
  unfold apply_column_filter.
  destruct table_data as [td|]; [|left; reflexivity].
  destruct column_input as [column|]; [|left; reflexivity].
  destruct operator_input as [o|]; [|left; reflexivity].
  destruct (actual_value_of (Some o) filter_value filter_value_multi
              filter_value2) as [actual|]; [|left; reflexivity].
  destruct (inputs_missing _ _ _); [left; reflexivity|].
  destruct (negb (validate_filter_operator o _)); [left; reflexivity|].
  match goal with
  | |- context [match ?x with Some _ => _ | None => _ end] =>
      destruct x as [failure|]
  end; [left; reflexivity|].
  right. exists column, o, actual.
  destruct (_apply_filter_set_to_df _ _ _ _); simpl; eauto.
Qed.

(** Ten accepted adds, one per column, leave the filter set with ten
    conditions in the store. *)
Lemma ten_adds_fill_the_filter_set :
  reachable Runtime.lib wide_table_data (Some full_filter_set).
Proof.
  assert (Hstep : forall ks stored,
             reachable Runtime.lib wide_table_data stored ->
             reachable Runtime.lib wide_table_data
               (fold_left
                  (fun stored k =>
                     Some (store
                             (add_filter_set
                                (add_filter_condition (Some k)
                                   (Some "equals") (Some "x") None None
                                   (Some wide_table_data) stored))))
                  ks stored)).
  { induction ks as [|k ks IH]; intros stored H; cbn [fold_left];
      [exact H|].
    apply IH. apply reach_add. exact H. }
  pose proof (Hstep (firstn 10 wide_columns) None
                (reach_initial Runtime.lib wide_table_data)) as H.
  vm_compute in H. vm_compute. exact H.
Qed.

(** ** The two defects of [apply_column_filter], run on inputs *)

(** C1 at its failing input.  The inverted range raises and the user is
    shown the error, with no new table; but the filter set handed back
    to the store holds the inverted condition, where the store held no
    condition before.  [add_filter_condition] on the same inputs accepts
    the condition without comparing its ends. *)
Theorem inverted_between_is_recorded :
  out_status inverted_between_attempt
  = ErrorApplyingFilter
      (between_error Runtime.lib (VNum 2500) (VNum 1500))
  /\ out_table inverted_between_attempt = None
  /\ conditions (out_filter_set inverted_between_attempt)
     = [new_condition "Amount" "between"
          (PTuple [VStr "2500"; VStr "1500"]) "numeric"]
  /\ conditions empty_filter_set = []
  /\ add_status
       (add_filter_condition (Some "Amount") (Some "between")
          (Some "2500") None (Some "1500") (Some sample_table_data) None)
     = ConditionAdded "Amount" "between" 1.
Proof. repeat split; vm_compute; reflexivity. Qed.

(** C3 at its failing input.  With ten conditions stored, applying a
    condition on an eleventh column makes evaluation refuse, and the
    filter set handed back to the store holds eleven conditions: a
    reachable filter set above the limit.  [add_filter_condition] on the
    same inputs rejects the condition and keeps the ten. *)
Theorem apply_stores_eleven_conditions :
  out_status eleventh_attempt = ErrorApplyingFilter max_conditions_error
  /\ length (conditions (out_filter_set eleventh_attempt)) = 11%nat
  /\ length (conditions full_filter_set) = 10%nat
  /\ (exists stored,
         reachable Runtime.lib wide_table_data (Some stored)
         /\ length (conditions stored) = 11%nat)
  /\ add_filter_set
       (add_filter_condition (Some "c10") (Some "equals") (Some "x")
          None None (Some wide_table_data) (Some full_filter_set))
     = full_filter_set.
Proof.
  split; [vm_compute; reflexivity|].
  split; [vm_compute; reflexivity|].
  split; [vm_compute; reflexivity|].
  split; [|vm_compute; reflexivity].
  exists (store (out_filter_set eleventh_attempt)). split.
  - apply reach_apply, ten_adds_fill_the_filter_set.
  - vm_compute. reflexivity.
Qed.

(** ** Type inference *)

(** C9, as the claim has it, fails: a column stored as integers whose
    values read as dates is classified numeric by the code, date by the
    claim's order of tests. *)
Lemma integer_days_are_numeric_not_date :
  detect_column_type Runtime.lib DInt64 day_numbers = "numeric"
  /\ infer_as_specified Runtime.lib DInt64 day_numbers = "date".
Proof. split; reflexivity. Qed.

Lemma dropna_nil_length (col : Series) :
  dropna col <> [] -> Nat.eqb (length (dropna col)) 0 = false.
Proof. destruct (dropna col); [congruence|reflexivity]. Qed.

(** C9, as the code has it.  A column with no value present is text.
    Otherwise: stored as datetimes, it is a date; stored as objects, it
    is a date when the date parser accepts the texts of its first ten
    present values, and text when the parser rejects them and some
    present value is not a number; stored as numbers, it is numeric
    whether or not its values read as dates; in any other storage it is
    text. *)
Theorem detect_column_type_by_storage
    (lib : PyLib) (dtype : Dtype) (col : Series) :
  (dropna col = [] -> detect_column_type lib dtype col = "text")
  /\ (dropna col <> [] -> is_datetime64_any_dtype dtype = true ->
      detect_column_type lib dtype col = "date")
  /\ (dropna col <> [] -> dtype = DObject ->
      to_datetime_series lib
        (map (str_of_value lib) (head 10 (dropna col))) = true ->
      detect_column_type lib dtype col = "date")
  /\ (dropna col <> [] -> dtype = DObject ->
      to_datetime_series lib
        (map (str_of_value lib) (head 10 (dropna col))) = false ->
      forallb is_number (dropna col) = false ->
      detect_column_type lib dtype col = "text")
  /\ (dropna col <> [] -> is_numeric_dtype dtype = true ->
      detect_column_type lib dtype col = "numeric")
  /\ (dropna col <> [] -> dtype = DOther ->
      detect_column_type lib dtype col = "text").
Proof.
  unfold detect_column_type.
  split; [|split; [|split; [|split; [|split]]]].
  - intros ->. reflexivity.
  - intros H Hd. rewrite (dropna_nil_length _ H), Hd. reflexivity.
  - intros H -> Hp. rewrite (dropna_nil_length _ H).
    cbv [is_datetime64_any_dtype is_object]. rewrite Hp. reflexivity.
  - intros H -> Hp _. rewrite (dropna_nil_length _ H).
    cbv [is_datetime64_any_dtype is_object is_numeric_dtype].
    rewrite Hp. reflexivity.
  - intros H Hn. rewrite (dropna_nil_length _ H).
    destruct dtype; try discriminate; reflexivity.
  - intros H ->. rewrite (dropna_nil_length _ H). reflexivity.
Qed.

Lemma detect_column_type_by_storage_witness :
  detect_column_type Runtime.lib DInt64 day_numbers = "numeric"
  /\ detect_column_type Runtime.lib DObject [VStr "2024-01-01"; VNone] = "date"
  /\ detect_column_type Runtime.lib DObject [VStr "Alice"; VStr "Bob"] = "text"
  /\ detect_column_type Runtime.lib DFloat64 [VNaN; VNaN] = "text".
Proof.
  split; [|split; [|split]].
  - destruct (detect_column_type_by_storage Runtime.lib DInt64 day_numbers)
      as (_ & _ & _ & _ & H & _).
    apply H; [discriminate|reflexivity].
  - destruct (detect_column_type_by_storage Runtime.lib DObject
                [VStr "2024-01-01"; VNone]) as (_ & _ & H & _).
    apply H; [discriminate|reflexivity|reflexivity].
  - destruct (detect_column_type_by_storage Runtime.lib DObject
                [VStr "Alice"; VStr "Bob"]) as (_ & _ & _ & H & _).
    apply H; [discriminate|reflexivity|reflexivity|reflexivity].
  - destruct (detect_column_type_by_storage Runtime.lib DFloat64
                [VNaN; VNaN]) as (H & _).
    apply H. reflexivity.
Defined.

(** ** Serialising a frame and reading it back *)

Section Records.

Lemma str_in_In (k : string) (l : list string) :
  str_in k l = true <-> In k l.
Proof.
  unfold str_in. rewrite existsb_exists. split.
  - intros (x & Hx & E). apply String.eqb_eq in E. subst. exact Hx.
  - intros H. exists k. split; [exact H|apply String.eqb_refl].
Qed.

Lemma dict_set_fresh (k : string) (v : scalar) (d : record) :
  ~ In k (map fst d) -> dict_set k v d = (d ++ [(k, v)])%list.
Proof.
  induction d as [|[k' v'] d IH]; simpl; intros H; [reflexivity|].
  destruct (String.eqb k k') eqn:E.
  - apply String.eqb_eq in E. subst. tauto.
  - rewrite IH by tauto. reflexivity.
Qed.

Lemma fold_dict_set (items acc : record) :
  List.NoDup (map fst (acc ++ items)) ->
  fold_left (fun d kv => dict_set (fst kv) (snd kv) d) items acc
  = (acc ++ items)%list.
Proof.
  revert acc; induction items as [|[k v] items IH]; intros acc H; simpl.
  - rewrite app_nil_r. reflexivity.
  - rewrite dict_set_fresh.
    + rewrite IH; rewrite <- app_assoc; [reflexivity|exact H].
    + rewrite map_app in H. simpl in H.
      apply List.NoDup_remove_2 in H. intros Hin. apply H.
      apply in_or_app. left. exact Hin.
Qed.

(** A dictionary built from items with distinct keys lists them as
    given. *)
Lemma dict_of_items_distinct (items : record) :
  List.NoDup (map fst items) -> dict_of_items items = items.
Proof. intros H. unfold dict_of_items. rewrite fold_dict_set; auto. Qed.

Lemma fst_combine {A B} (l : list A) (l' : list B) :
  length l = length l' -> map fst (combine l l') = l.
Proof.
  revert l'; induction l as [|x l IH]; intros [|y l'] H; simpl in *;
    try discriminate; [reflexivity|].
  rewrite IH by lia. reflexivity.
Qed.

Lemma snd_combine {A B} (l : list A) (l' : list B) :
  length l = length l' -> map snd (combine l l') = l'.
Proof.
  revert l'; induction l as [|x l IH]; intros [|y l'] H; simpl in *;
    try discriminate; [reflexivity|].
  rewrite IH by lia. reflexivity.
Qed.

Lemma combine_fst_snd {A B} (l : list (A * B)) :
  combine (map fst l) (map snd l) = l.
Proof.
  induction l as [|[a b] l IH]; simpl; [reflexivity|].
  rewrite IH. reflexivity.
Qed.

Lemma add_keys_known (ks acc : list string) :
  (forall k, In k ks -> In k acc) -> fold_left add_key ks acc = acc.
Proof.
  induction ks as [|k ks IH]; simpl; intros H; [reflexivity|].
  unfold add_key at 2.
  rewrite (proj2 (str_in_In k acc)) by auto. apply IH; auto.
Qed.

Lemma add_keys_fresh (ks acc : list string) :
  List.NoDup (acc ++ ks) -> fold_left add_key ks acc = (acc ++ ks)%list.
Proof.
  revert acc; induction ks as [|k ks IH]; intros acc H; simpl.
  - rewrite app_nil_r. reflexivity.
  - unfold add_key at 2.
    destruct (str_in k acc) eqn:E.
    + apply str_in_In in E. apply List.NoDup_remove_2 in H.
      exfalso. apply H. apply in_or_app. left. exact E.
    + rewrite IH; rewrite <- app_assoc; [reflexivity|exact H].
Qed.

Lemma keys_union_uniform (cols : list string) (r : record)
    (records : list record) :
  List.NoDup cols ->
  Forall (fun d => map fst d = cols) (r :: records) ->
  keys_union (r :: records) = cols.
Proof.
  intros Hnd H. unfold keys_union. simpl.
  inversion H as [|? ? Hr Hrs]; subst.
  rewrite add_keys_fresh by exact Hnd. simpl.
  clear H. induction Hrs as [|d records Hd _ IH]; simpl; [reflexivity|].
  rewrite add_keys_known; [exact IH|].
  rewrite Hd. auto.
Qed.

Lemma dict_get_other (k k' : string) (v : scalar) (d : record) :
  k <> k' -> dict_get k ((k', v) :: d) = dict_get k d.
Proof.
  intros H. simpl. destruct (String.eqb k k') eqn:E; [|reflexivity].
  apply String.eqb_eq in E. contradiction.
Qed.

(** Reading every key of a record with distinct keys gives its
    values. *)
Lemma raw_cells_own_keys (d : record) :
  List.NoDup (map fst d) -> raw_cells (map fst d) d = map snd d.
Proof.
  unfold raw_cells.
  induction d as [|[k v] d IH]; simpl; intros H; [reflexivity|].
  apply List.NoDup_cons_iff in H as [Hk H].
  rewrite String.eqb_refl. simpl. f_equal.
  rewrite <- (IH H). apply map_ext_in. intros k' Hk'.
  destruct (String.eqb k' k) eqn:E; [|reflexivity].
  apply String.eqb_eq in E. subst. contradiction.
Qed.

Lemma nan_to_none_cast (d : Dtype) (v : scalar) :
  nan_to_none (cast d v) = nan_to_none v.
Proof. destruct d, v; reflexivity. Qed.

Lemma nan_to_none_idem (v : scalar) :
  nan_to_none (nan_to_none v) = nan_to_none v.
Proof. destruct v; reflexivity. Qed.

Lemma nan_to_none_casts (dts : list Dtype) (vs : list scalar) :
  length dts = length vs ->
  map nan_to_none (map (fun dv => cast (fst dv) (snd dv)) (combine dts vs))
  = map nan_to_none vs.
Proof.
  revert vs; induction dts as [|d dts IH]; intros [|v vs] H; simpl in *;
    try discriminate; [reflexivity|].
  rewrite nan_to_none_cast, IH by lia. reflexivity.
Qed.

Lemma map_snd_numbered {A B} (g : A -> B) (l : list A) (a : nat) :
  map (fun ir => g (snd ir)) (combine (seq a (length l)) l) = map g l.
Proof.
  revert a; induction l as [|x l IH]; intros a; simpl; [reflexivity|].
  rewrite IH. reflexivity.
Qed.

End Records.

(** Reading such a list back and writing it again gives the same list. *)
Lemma reserialise_serialised (cols : list string) (records : list record) :
  List.NoDup cols ->
  serialised cols records ->
  convert_to_json_format (from_dict records) = records.
Proof.
  intros Hnd Hs. destruct records as [|r0 records]; [reflexivity|].
  assert (Hkeys : keys_union (r0 :: records) = cols).
  { apply keys_union_uniform; [exact Hnd|].
    eapply List.Forall_impl; [|exact Hs]. simpl. tauto. }
  unfold convert_to_json_format, to_dict_records, replace_nan_with_none,
    from_dict.
  cbv zeta. cbn [df_rows df_columns cells].
  rewrite Hkeys. rewrite !map_map. cbn [cells].
  set (rs := r0 :: records) in *.
  set (dts := map _ (seq 0 (length cols))).
  assert (Hdts : length dts = length cols)
    by (subst dts; rewrite length_map, length_seq; reflexivity).
  rewrite (map_snd_numbered
             (fun raw => dict_of_items
                (combine cols
                   (map nan_to_none
                      (map (fun dv => cast (fst dv) (snd dv))
                           (combine dts raw)))))).
  rewrite map_map.
  rewrite <- (map_id rs) at 2. apply List.map_ext_Forall.
  eapply List.Forall_impl; [|exact Hs]. intros d [Hk Hv]. cbn beta.
  assert (Hraw : raw_cells cols d = map snd d).
  { rewrite <- Hk. apply raw_cells_own_keys. rewrite Hk. exact Hnd. }
  rewrite Hraw.
  rewrite nan_to_none_casts
    by (rewrite Hdts, <- Hk, !length_map; reflexivity).
  rewrite Hv, <- Hk, combine_fst_snd.
  apply dict_of_items_distinct. rewrite Hk. exact Hnd.
Qed.

(** What [convert_to_json_format] writes for a well-formed frame: one
    record per row, pairing every column name, in order, with the row's
    cell, a missing cell being written as [None]. *)
Lemma convert_to_json_format_rows (df : DataFrame) :
  well_formed df ->
  convert_to_json_format df
  = map (fun r => combine (df_columns df) (map nan_to_none (cells r)))
        (df_rows df).
Proof.
  intros [Hnd Hrows].
  unfold convert_to_json_format, to_dict_records, replace_nan_with_none.
  cbn [df_rows df_columns]. rewrite map_map. cbn [cells].
  apply List.map_ext_Forall. eapply List.Forall_impl; [|exact Hrows].
  intros r Hr. cbn beta. apply dict_of_items_distinct.
  rewrite fst_combine; [exact Hnd|]. rewrite length_map. symmetry. exact Hr.
Qed.

Lemma convert_to_json_format_serialised (df : DataFrame) :
  well_formed df ->
  serialised (df_columns df) (convert_to_json_format df).
Proof.
  intros Hwf. rewrite (convert_to_json_format_rows df Hwf).
  destruct Hwf as [_ Hrows]. unfold serialised.
  apply List.Forall_map. eapply List.Forall_impl; [|exact Hrows].
  intros r Hr. cbn beta.
  assert (Hlen : length (df_columns df) = length (map nan_to_none (cells r)))
    by (rewrite length_map; symmetry; exact Hr).
  rewrite fst_combine, snd_combine by exact Hlen. split; [reflexivity|].
  rewrite map_map. apply map_ext. intros v. apply nan_to_none_idem.
Qed.

(** Looking a column up in a serialised record finds the row's cell,
    written as [None] when it is missing. *)
Lemma dict_get_combine (cols : list string) : forall (vs : list scalar) j k,
  List.NoDup cols ->
  nth_error cols j = Some k ->
  dict_get k (combine cols vs) = nth_error vs j.
Proof.
  induction cols as [|c cols IH]; intros vs j k Hnd Hk.
  - destruct j; discriminate.
  - apply List.NoDup_cons_iff in Hnd as [Hc Hnd].
    destruct vs as [|v vs].
    + simpl. destruct j; reflexivity.
    + destruct j as [|j]; simpl in *.
      * injection Hk as ->. rewrite String.eqb_refl. reflexivity.
      * destruct (String.eqb k c) eqn:E.
        -- apply String.eqb_eq in E. subst.
           exfalso. apply Hc. eapply nth_error_In, Hk.
        -- apply IH; assumption.
Qed.

Lemma serialised_cell_lookup (df : DataFrame) :
  well_formed df ->
  forall i j row d k,
    nth_error (df_rows df) i = Some row ->
    nth_error (convert_to_json_format df) i = Some d ->
    nth_error (df_columns df) j = Some k ->
    dict_get k d
    = Some (if isna (cell_at j row) then VNone else cell_at j row).
Proof.
  intros Hwf i j row d k Hrow Hd Hk.
  rewrite (convert_to_json_format_rows df Hwf) in Hd.
  destruct Hwf as [Hnd Hrows].
  rewrite nth_error_map, Hrow in Hd. simpl in Hd. injection Hd as <-.
  rewrite (dict_get_combine _ _ j k Hnd Hk).
  rewrite nth_error_map.
  assert (Hlen : (j < length (cells row))%nat).
  { rewrite List.Forall_forall in Hrows.
    rewrite (Hrows row (nth_error_In _ _ Hrow)).
    apply nth_error_Some. congruence. }
  unfold cell_at.
  rewrite (nth_error_nth' (cells row) VNaN Hlen). reflexivity.
Qed.

Lemma position_In (c : string) (cols : list string) :
  In c cols -> exists i, position c cols = Some i.
Proof.
  induction cols as [|k cols IH]; simpl; [contradiction|].
  intros H. destruct (String.eqb c k) eqn:E; [eauto|].
  destruct H as [->|H]; [rewrite String.eqb_refl in E; discriminate|].
  destruct (IH H) as [i ->]. simpl. eauto.
Qed.

Lemma from_dict_columns (cols : list string) (records : list record) :
  List.NoDup cols ->
  serialised cols records ->
  records <> [] ->
  df_columns (from_dict records) = cols.
Proof.
  intros Hnd Hs Hne. destruct records as [|r records]; [contradiction|].
  unfold from_dict. cbn [df_columns].
  apply keys_union_uniform; [exact Hnd|].
  eapply List.Forall_impl; [|exact Hs]. simpl. tauto.
Qed.

Lemma fold_insert_lookup (f : string -> string) (cols : list string) :
  forall (m : gmap string string) c,
    fold_left (fun acc col => <[col := f col]> acc) cols m !! c
    = if str_in c cols then Some (f c) else m !! c.
Proof.
  induction cols as [|a cols IH]; intros m c; [reflexivity|].
  cbn [fold_left]. rewrite IH. unfold str_in. cbn [existsb].
  fold (str_in c cols). destruct (str_in c cols).
  - rewrite orb_true_r. reflexivity.
  - rewrite orb_false_r. destruct (String.eqb c a) eqn:E.
    + apply String.eqb_eq in E. subst. apply lookup_insert_eq.
    + apply lookup_insert_ne. intros ->. rewrite String.eqb_refl in E.
      discriminate.
Qed.

(** A name that one column carries is found at one position. *)
Lemma positions_named_absent (c : string) (cols : list string) : forall a,
  ~ In c cols ->
  List.filter (fun ic : nat * string => String.eqb c (snd ic))
              (combine (seq a (length cols)) cols) = [].
Proof.
  induction cols as [|k cols IH]; intros a H; [reflexivity|].
  simpl. destruct (String.eqb c k) eqn:E.
  - apply String.eqb_eq in E. subst. exfalso. apply H. simpl. auto.
  - apply IH. intros Hin. apply H. simpl. auto.
Qed.

Lemma positions_named_distinct (c : string) (cols : list string) :
  List.NoDup cols -> (length (positions_named c cols) <= 1)%nat.
Proof.
  unfold positions_named. rewrite length_map.
  assert (H : forall a, List.NoDup cols ->
            (length (List.filter
                       (fun ic : nat * string => String.eqb c (snd ic))
                       (combine (seq a (length cols)) cols)) <= 1)%nat);
    [|apply H].
  induction cols as [|k cols IH]; intros a Hnd; simpl; [lia|].
  apply List.NoDup_cons_iff in Hnd as [Hk Hnd].
  destruct (String.eqb c k) eqn:E.
  - apply String.eqb_eq in E. subst.
    rewrite positions_named_absent by exact Hk. simpl. lia.
  - apply IH. exact Hnd.
Qed.

Lemma column_type_distinct (lib : PyLib) (df : DataFrame) (c : string) :
  List.NoDup (df_columns df) ->
  column_type lib df c
  = Ok (detect_column_type lib (dtype_of df c) (get_column df c)).
Proof.
  intros Hnd. unfold column_type.
  pose proof (positions_named_distinct c (df_columns df) Hnd) as H.
  destruct (positions_named c (df_columns df)) as [|i [|j l]];
    try reflexivity.
  simpl in H. lia.
Qed.

Lemma detect_loop_distinct (lib : PyLib) (df : DataFrame) :
  List.NoDup (df_columns df) ->
  forall cols m,
    detect_loop lib df cols m
    = Ok (fold_left
            (fun acc col =>
               <[col := detect_column_type lib (dtype_of df col)
                          (get_column df col)]> acc)
            cols m).
Proof.
  intros Hnd. induction cols as [|c cols IH]; intros m; [reflexivity|].
  cbn [detect_loop fold_left]. rewrite (column_type_distinct lib df c Hnd).
  simpl. apply IH.
Qed.

(** With distinct column names [detect_column_types] returns, and its
    entry for a column is the type of that column. *)
Lemma detect_column_types_distinct (lib : PyLib) (df : DataFrame) :
  List.NoDup (df_columns df) ->
  exists types,
    detect_column_types lib df = Ok types
    /\ forall c,
         types !! c
         = if str_in c (df_columns df)
           then Some (detect_column_type lib (dtype_of df c)
                        (get_column df c))
           else None.
Proof.
  intros Hnd. unfold detect_column_types.
  rewrite (detect_loop_distinct lib df Hnd). eexists. split; [reflexivity|].
  intros c.
  rewrite (fold_insert_lookup
             (fun col => detect_column_type lib (dtype_of df col)
                           (get_column df col))).
  rewrite lookup_empty. reflexivity.
Qed.

Lemma position_lt (c : string) (cols : list string) : forall j,
  position c cols = Some j -> (j < length cols)%nat.
Proof.
  induction cols as [|k cols IH]; simpl; intros j H; [discriminate|].
  destruct (String.eqb c k); [injection H as <-; lia|].
  destruct (position c cols) as [i|]; [|discriminate].
  simpl in H. injection H as <-. specialize (IH i eq_refl). lia.
Qed.

(** *** The frame read back *)

Lemma isna_read_back (d : Dtype) (v : scalar) :
  isna (cast d (nan_to_none v)) = isna v.
Proof. destruct d, v; reflexivity. Qed.

Lemma value_read_back (d : Dtype) (v : scalar) :
  isna v = false -> cast d (nan_to_none v) = v.
Proof. destruct d, v; try discriminate; reflexivity. Qed.

(** The values present in a column are the same after the round trip. *)
Lemma dropna_read_back (d : Dtype) (col : Series) :
  dropna (map (fun v => cast d (nan_to_none v)) col) = dropna col.
Proof.
  unfold dropna. induction col as [|v col IH]; simpl; [reflexivity|].
  rewrite isna_read_back. destruct (isna v) eqn:E; simpl; [exact IH|].
  rewrite (value_read_back d v E), IH. reflexivity.
Qed.

Lemma detect_column_type_read_back
    (lib : PyLib) (d d' : Dtype) (col : Series) :
  Nat.eqb (length (dropna col)) 0 || same_kind d d' = true ->
  detect_column_type lib d' (map (fun v => cast d' (nan_to_none v)) col)
  = detect_column_type lib d col.
Proof.
  intros H. unfold detect_column_type. cbv zeta. rewrite dropna_read_back.
  destruct (Nat.eqb (length (dropna col)) 0); [reflexivity|].
  simpl in H. unfold same_kind in H.
  apply andb_true_iff in H as [H H3]. apply andb_true_iff in H as [H1 H2].
  apply Bool.eqb_prop in H1, H2, H3. rewrite H1, H2, H3. reflexivity.
Qed.

Lemma raw_cells_combine (cols : list string) (vs : list scalar) :
  List.NoDup cols -> length cols = length vs ->
  raw_cells cols (combine cols vs) = vs.
Proof.
  intros Hnd Hlen.
  pose proof (raw_cells_own_keys (combine cols vs)) as H.
  rewrite (fst_combine cols vs Hlen), (snd_combine cols vs Hlen) in H.
  exact (H Hnd).
Qed.

Lemma nth_casts (dts : list Dtype) : forall (vs : list scalar) j,
  (j < length dts)%nat -> (j < length vs)%nat ->
  nth j (map (fun dv : Dtype * scalar => cast (fst dv) (snd dv))
             (combine dts vs)) VNaN
  = cast (nth j dts DObject) (nth j vs VNaN).
Proof.
  induction dts as [|d dts IH]; intros [|v vs] j Hd Hv; simpl in *; try lia.
  destruct j as [|j]; [reflexivity|]. apply IH; lia.
Qed.

Lemma nth_map_seq {A} (f : nat -> A) (n j : nat) (d : A) :
  (j < n)%nat -> nth j (map f (seq 0 n)) d = f j.
Proof.
  intros H.
  rewrite (nth_indep _ d (f O))
    by (rewrite length_map, length_seq; exact H).
  rewrite (map_nth f (seq 0 n) O j). rewrite List.seq_nth by exact H.
  reflexivity.
Qed.

Lemma nth_nan_to_none (vs : list scalar) (j : nat) :
  (j < length vs)%nat ->
  nth j (map nan_to_none vs) VNaN = nan_to_none (nth j vs VNaN).
Proof.
  intros H.
  rewrite (nth_indep _ VNaN (nan_to_none VNaN))
    by (rewrite length_map; exact H).
  apply map_nth.
Qed.

(** The frame [from_dict] builds from the rows written for a
    well-formed frame with at least one row. *)
Lemma read_back_frame (df : DataFrame) :
  well_formed df ->
  df_rows df <> [] ->
  from_dict (convert_to_json_format df)
  = let raw := map (fun r => map nan_to_none (cells r)) (df_rows df) in
    let dts :=
      map (fun j => infer_dtype (map (fun r => nth j r VNaN) raw))
          (seq 0 (length (df_columns df))) in
    {| df_columns := df_columns df;
       df_dtypes := dts;
       df_rows :=
         map (fun ir => {| label := Z.of_nat (fst ir);
                           cells := map (fun dv => cast (fst dv) (snd dv))
                                        (combine dts (snd ir)) |})
             (combine (seq 0 (length raw)) raw) |}.
Proof.
  intros Hwf Hne.
  assert (Hcols : keys_union (convert_to_json_format df) = df_columns df).
  { apply (from_dict_columns (df_columns df) (convert_to_json_format df)).
    - apply Hwf.
    - apply convert_to_json_format_serialised, Hwf.
    - rewrite (convert_to_json_format_rows df Hwf).
      destruct (df_rows df); [contradiction|discriminate]. }
  assert (Hraw : map (raw_cells (df_columns df)) (convert_to_json_format df)
                 = map (fun r => map nan_to_none (cells r)) (df_rows df)).
  { rewrite (convert_to_json_format_rows df Hwf), map_map.
    destruct Hwf as [Hnd Hrows]. apply List.map_ext_Forall.
    eapply List.Forall_impl; [|exact Hrows]. intros r Hr. cbn beta.
    apply raw_cells_combine; [exact Hnd|].
    rewrite length_map. symmetry. exact Hr. }
  unfold from_dict. cbv zeta. rewrite Hcols, Hraw. reflexivity.
Qed.

(** A column of the frame read back: its storage is the one inferred
    from the values written, and its cells are the cells written, a
    missing one in the marker of that storage. *)
Lemma read_back_column (df : DataFrame) (c : string) :
  well_formed df ->
  df_rows df <> [] ->
  In c (df_columns df) ->
  dtype_of (from_dict (convert_to_json_format df)) c
  = infer_dtype (map nan_to_none (get_column df c))
  /\ get_column (from_dict (convert_to_json_format df)) c
     = map (fun v => cast (infer_dtype (map nan_to_none (get_column df c)))
                          (nan_to_none v))
           (get_column df c).
Proof.
  intros Hwf Hne Hc. rewrite (read_back_frame df Hwf Hne). cbv zeta.
  destruct (position_In c _ Hc) as [j Hj].
  pose proof (position_lt _ _ _ Hj) as Hlt.
  destruct Hwf as [Hnd Hrows].
  unfold dtype_of, get_column. cbn [df_columns df_dtypes df_rows].
  rewrite Hj.
  assert (Hcol : map (fun r => nth j r VNaN)
                     (map (fun r => map nan_to_none (cells r)) (df_rows df))
                 = map nan_to_none (map (cell_at j) (df_rows df))).
  { rewrite !map_map. apply List.map_ext_Forall.
    eapply List.Forall_impl; [|exact Hrows]. intros r Hr. cbn beta in Hr |- *.
    unfold cell_at. apply nth_nan_to_none. lia. }
  rewrite nth_map_seq by exact Hlt. rewrite Hcol.
  split; [reflexivity|].
  set (d := infer_dtype _).
  set (dts := map _ (seq 0 (length (df_columns df)))).
  assert (Hd : nth j dts DObject = d).
  { subst dts d. rewrite nth_map_seq by exact Hlt. rewrite Hcol.
    reflexivity. }
  assert (Hdts : length dts = length (df_columns df))
    by (subst dts; rewrite length_map, length_seq; reflexivity).
  rewrite map_map. unfold cell_at at 1. cbn [cells].
  rewrite (map_snd_numbered
             (fun raw => nth j (map (fun dv => cast (fst dv) (snd dv))
                                    (combine dts raw)) VNaN)).
  rewrite !map_map. apply List.map_ext_Forall.
  eapply List.Forall_impl; [|exact Hrows]. intros r Hr. cbn beta in Hr |- *.
  rewrite nth_casts by (rewrite ?length_map; lia).
  rewrite Hd, nth_nan_to_none by lia. reflexivity.
Qed.

Lemma fold_insert_ext (f g : string -> string) (cols : list string) :
  (forall c, In c cols -> f c = g c) ->
  forall m : gmap string string,
    fold_left (fun acc col => <[col := f col]> acc) cols m
    = fold_left (fun acc col => <[col := g col]> acc) cols m.
Proof.
  induction cols as [|a cols IH]; intros H m; simpl; [reflexivity|].
  rewrite (H a) by (simpl; auto). apply IH. intros c Hc. apply H.
  simpl. auto.
Qed.

(** The types detected on the frame read back are the types detected
    on the frame written. *)
Lemma detect_column_types_read_back (lib : PyLib) (df : DataFrame) :
  well_formed df ->
  df_rows df <> [] ->
  stored_as_inferred df = true ->
  exists types,
    detect_column_types lib df = Ok types
    /\ detect_column_types lib (from_dict (convert_to_json_format df))
       = Ok types.
Proof.
  intros Hwf Hne Hst. pose proof Hwf as [Hnd Hrows].
  assert (Hcols : df_columns (from_dict (convert_to_json_format df))
                  = df_columns df)
    by (rewrite (read_back_frame df Hwf Hne); reflexivity).
  unfold detect_column_types.
  rewrite (detect_loop_distinct lib df Hnd).
  rewrite detect_loop_distinct by (rewrite Hcols; exact Hnd).
  rewrite Hcols. eexists. split; [reflexivity|]. f_equal.
  apply fold_insert_ext. intros c Hc.
  destruct (read_back_column df c Hwf Hne Hc) as [Hd Hg]. rewrite Hd, Hg.
  apply detect_column_type_read_back.
  unfold stored_as_inferred in Hst. rewrite forallb_forall in Hst.
  apply Hst, Hc.
Qed.

(** C8, as the claim has it, fails for a snapshot without rows: nothing
    is written for it, and the frame read back has no columns and no
    column types, where the snapshot has five of each. *)
Lemma header_only_snapshot_reads_back_without_columns :
  well_formed (no_rows sample_df)
  /\ plain_cells (no_rows sample_df) = true
  /\ convert_to_json_format (no_rows sample_df) = []
  /\ df_columns (no_rows sample_df)
     = ["Name"; "Age"; "Amount"; "Status"; "City"]
  /\ df_columns (from_dict (convert_to_json_format (no_rows sample_df)))
     = []
  /\ detect_column_types Runtime.lib
       (from_dict (convert_to_json_format (no_rows sample_df)))
     = Ok ∅
  /\ detect_column_types Runtime.lib (no_rows sample_df) <> Ok ∅.
Proof.
  split.
  { split; [|constructor].
    repeat constructor; simpl; intuition discriminate. }
  repeat split.
  intros H.
  assert (E : forall r : result (gmap string string),
            r = Ok ∅ ->
            match r with Ok m => m !! "Name" | Raise _ => None end = None)
    by (intros r ->; reflexivity).
  apply E in H. vm_compute in H. discriminate.
Qed.

(** C8: for a well-formed snapshot frame whose cells are texts, missing
    markers and exact numbers, reading the serialised rows back with
    [from_dict] and serialising again gives the same rows, cell for
    cell; every serialised record pairs every column name, in order,
    with the row's cell, so that looking up any column in it finds a
    value, [None] when the cell is missing; and, when there is a row,
    the frame read back has the same columns, and the column types
    detected on it are those detected on the snapshot frame if every
    column is stored as pandas infers it from its values. *)
Theorem serialised_rows_round_trip (lib : PyLib) (df : DataFrame) :
  well_formed df ->
  plain_cells df = true ->
  convert_to_json_format (from_dict (convert_to_json_format df))
  = convert_to_json_format df
  /\ convert_to_json_format df
     = map (fun r => combine (df_columns df) (map nan_to_none (cells r)))
           (df_rows df)
  /\ (forall i j row d k,
         nth_error (df_rows df) i = Some row ->
         nth_error (convert_to_json_format df) i = Some d ->
         nth_error (df_columns df) j = Some k ->
         dict_get k d
         = Some (if isna (cell_at j row) then VNone else cell_at j row))
  /\ (df_rows df <> [] ->
      df_columns (from_dict (convert_to_json_format df)) = df_columns df
      /\ (stored_as_inferred df = true ->
          exists types,
            detect_column_types lib df = Ok types
            /\ detect_column_types lib
                 (from_dict (convert_to_json_format df)) = Ok types)).
Proof.
  intros Hwf _.
  pose proof (convert_to_json_format_serialised df Hwf) as Hs.
  pose proof (serialised_cell_lookup df Hwf) as Hlook.
  split; [apply (reserialise_serialised (df_columns df));
          [apply Hwf|exact Hs]|].
  split; [apply convert_to_json_format_rows; exact Hwf|].
  split; [exact Hlook|].
  intros Hne. split.
  - rewrite (read_back_frame df Hwf Hne). reflexivity.
  - intros Hst. apply detect_column_types_read_back; assumption.
Qed.

Lemma serialised_rows_round_trip_witness :
  convert_to_json_format (from_dict (convert_to_json_format people_df))
  = convert_to_json_format people_df
  /\ df_columns (from_dict (convert_to_json_format people_df))
     = df_columns people_df
  /\ exists types,
       detect_column_types Runtime.lib people_df = Ok types
       /\ detect_column_types Runtime.lib
            (from_dict (convert_to_json_format people_df)) = Ok types.
Proof.
  destruct (serialised_rows_round_trip Runtime.lib people_df)
    as (Hrows & _ & _ & Hcols).
  - split.
    + repeat constructor; simpl; intuition discriminate.
    + repeat constructor.
  - vm_compute. reflexivity.
  - split; [exact Hrows|].
    destruct (Hcols ltac:(discriminate)) as [Hc Ht].
    split; [exact Hc|]. apply Ht. vm_compute. reflexivity.
Defined.

(** * Further properties of the code *)

(** ** Results of filtering are parts of the frame *)

Lemma select_sublist {A} (l : list A) : forall m, sublist (select l m) l.
Proof.
  induction l as [|x l IH]; intros m.
  - destruct m; constructor.
  - destruct m as [|b m]; simpl; [apply sublist_nil_l|].
    destruct b; [apply sublist_skip|apply sublist_cons]; apply IH.
Qed.

Lemma select_all {A} (l : list A) : select l (repeat true (length l)) = l.
Proof. induction l as [|x l IH]; simpl; [reflexivity|]. rewrite IH; reflexivity. Qed.

Lemma df_select_all (df : DataFrame) :
  df_select df (repeat true (len df)) = df.
Proof.
  destruct df as [cols dts rows]. unfold df_select, len. simpl.
  rewrite select_all. reflexivity.
Qed.

(** Only for a frame without rows is the Series of an operator branch
    no Boolean mask. *)
Lemma operator_mask_no_labels
    (lib : PyLib) (df : DataFrame) (d : Dtype) (col : Series)
    (op : string) (v : pyval) :
  operator_mask lib df d col op v = Ok (Some NoLabels) -> df_rows df = [].
Proof.
  assert (Hfull : @Ok (option Key) (Some (series_of_bools (full_mask false df)))
                  = Ok (Some NoLabels) -> df_rows df = []).
  { unfold full_mask, len. destruct (df_rows df); [reflexivity|discriminate]. }
  unfold operator_mask, bind.
  repeat (match goal with
          | |- (if ?b then _ else _) = _ -> _ => destruct b
          | |- match ?x with _ => _ end = _ -> _ => destruct x
          end; try discriminate; try exact Hfull).
Qed.

(** What [apply_single_filter] returns is the frame with some mask
    applied, or, for a frame without rows, the frame without
    columns. *)
Lemma apply_single_filter_key
    (lib : PyLib) (df : DataFrame) (c op : string) (v : pyval) (dt : string)
    (r : DataFrame) :
  apply_single_filter lib df c op v dt = Ok r ->
  (exists m, r = df_select df m)
  \/ (df_rows df = [] /\ r = no_columns df).
Proof.
  assert (Hdf : exists m, df = df_select df m)
    by (exists (repeat true (len df)); symmetry; apply df_select_all).
  unfold apply_single_filter.
  destruct (negb (has_column df c)); [intros [= <-]; left; exact Hdf|].
  destruct (operator_mask lib df (dtype_of df c) (get_column df c) op v)
    as [[[m|]|]|e] eqn:E; simpl; intros H; try discriminate;
    injection H as <-.
  - left. exists m. reflexivity.
  - right. split; [|reflexivity].
    eapply operator_mask_no_labels, E.
  - left. exact Hdf.
Qed.

(** X1: whatever the condition, the rows of a frame returned by
    [apply_single_filter] on a frame with distinct column names are rows
    of the input in their original order, and its columns are the
    columns of the input, except that a frame without rows can come
    back without columns; whatever the conditions, a frame returned by
    [apply_multiple_filters] has the columns of the input, and its rows
    are rows of the input in their original order.  Filtering adds,
    alters and reorders nothing. *)
Theorem filtering_returns_part_of_frame
    (lib : PyLib) (df r : DataFrame) :
  (forall c op v dt,
      List.NoDup (df_columns df) ->
      apply_single_filter lib df c op v dt = Ok r ->
      sublist (df_rows r) (df_rows df)
      /\ (df_columns r = df_columns df
          \/ (df_rows df = [] /\ df_columns r = [])))
  /\ (forall conds logic,
         apply_multiple_filters lib df conds logic = Ok r ->
         df_columns r = df_columns df /\ sublist (df_rows r) (df_rows df)).
Proof.
  split.
  - intros c op v dt _ H.
    destruct (apply_single_filter_key _ _ _ _ _ _ _ H)
      as [[m ->]|[Hrows ->]].
    + split; [apply select_sublist|left; reflexivity].
    + split; [|right; split; [exact Hrows|reflexivity]].
      unfold no_columns. cbn [df_rows]. rewrite Hrows. reflexivity.
  - intros conds logic. unfold apply_multiple_filters.
    destruct conds as [|c conds].
    + intros [= <-]. split; reflexivity.
    + destruct (10 <? length (c :: conds))%nat; [discriminate|].
      destruct (collect_masks lib df (c :: conds)) as [masks|e]; simpl;
        [|discriminate].
      destruct (combine_masks logic masks) as [m|]; intros [= <-].
      * split; [reflexivity|apply select_sublist].
      * split; reflexivity.
Qed.

Lemma filtering_returns_part_of_frame_witness :
  (sublist (df_rows (df_select sample_df [true; false; true; false; false]))
           (df_rows sample_df)
   /\ (df_columns (df_select sample_df [true; false; true; false; false])
       = df_columns sample_df
       \/ (df_rows sample_df = []
           /\ df_columns (df_select sample_df
                            [true; false; true; false; false]) = [])))
  /\ (df_columns (df_select sample_df [true; false; true; false; false])
      = df_columns sample_df
      /\ sublist
           (df_rows (df_select sample_df [true; false; true; false; false]))
           (df_rows sample_df)).
Proof.
  destruct (filtering_returns_part_of_frame Runtime.lib sample_df
              (df_select sample_df [true; false; true; false; false]))
    as [Hone Hmany].
  split.
  - apply (Hone "City" "equals" (Scalar (VStr "Tokyo")) "text").
    + repeat constructor; simpl; intuition discriminate.
    + reflexivity.
  - apply (Hmany active_in_tokyo "AND"). reflexivity.
Defined.

(** ** The branches of [apply_single_filter], one equation each *)

Section OperatorEquations.
Context (lib : PyLib) (df : DataFrame) (d : Dtype) (col : Series) (v : pyval).

Lemma operator_mask_equals :
  operator_mask lib df d col "equals" v
  = match v with
    | PList l => Ok (Some (BoolMask (series_isin col l)))
    | _ => let* m := series_eq lib d col v in Ok (Some (BoolMask m))
    end.
Proof. reflexivity. Qed.

Lemma operator_mask_contains :
  operator_mask lib df d col "contains" v
  = (let* m := str_contains_nocase lib (astype_str lib col)
                 (str_of_pyval lib v) in
     Ok (Some (BoolMask m))).
Proof. reflexivity. Qed.

Lemma operator_mask_starts_with :
  operator_mask lib df d col "starts_with" v
  = Ok (Some (BoolMask (str_startswith (astype_str lib col)
                          (str_of_pyval lib v)))).
Proof. reflexivity. Qed.

Lemma operator_mask_ends_with :
  operator_mask lib df d col "ends_with" v
  = Ok (Some (BoolMask (str_endswith (astype_str lib col)
                          (str_of_pyval lib v)))).
Proof. reflexivity. Qed.

Lemma operator_mask_greater_than :
  operator_mask lib df d col "greater_than" v
  = (let* m := series_cmp lib py_gt d col v in Ok (Some (BoolMask m))).
Proof. reflexivity. Qed.

Lemma operator_mask_less_than :
  operator_mask lib df d col "less_than" v
  = (let* m := series_cmp lib py_lt d col v in Ok (Some (BoolMask m))).
Proof. reflexivity. Qed.

Lemma operator_mask_before :
  operator_mask lib df d col "before" v
  = (let* m := series_cmp lib py_lt d col v in Ok (Some (BoolMask m))).
Proof. reflexivity. Qed.

Lemma operator_mask_after :
  operator_mask lib df d col "after" v
  = (let* m := series_cmp lib py_gt d col v in Ok (Some (BoolMask m))).
Proof. reflexivity. Qed.

Lemma operator_mask_between :
  operator_mask lib df d col "between" v
  = match v with
    | PTuple [lo; hi] =>
        let* inverted := py_gt lo hi in
        if inverted then Raise (between_error lib lo hi)
        else
          let* above := series_cmp_scalar lib py_ge d col lo in
          let* below := series_cmp_scalar lib py_le d col hi in
          Ok (Some (BoolMask (mask_and above below)))
    | _ => Ok (Some (series_of_bools (full_mask false df)))
    end.
Proof. reflexivity. Qed.

End OperatorEquations.

Lemma known_operator_cases (op : string) :
  str_in op known_operators = true ->
  op = "equals" \/ op = "contains" \/ op = "starts_with"
  \/ op = "ends_with" \/ op = "greater_than" \/ op = "less_than"
  \/ op = "between" \/ op = "before" \/ op = "after".
Proof.
  intros H. apply str_in_In in H. simpl in H.
  repeat (destruct H as [H|H]; [symmetry in H; tauto|]). contradiction.
Qed.

Lemma unknown_operator_mask
    (lib : PyLib) (df : DataFrame) (d : Dtype) (col : Series) (op : string)
    (v : pyval) :
  str_in op known_operators = false ->
  operator_mask lib df d col op v = Ok None.
Proof.
  unfold str_in, known_operators. simpl. intros H.
  repeat (apply orb_false_iff in H as [?E H]).
  unfold operator_mask. rewrite E, E0, E1, E2, E3, E4, E5, E6, E7.
  reflexivity.
Qed.

(** ** Conditions that change nothing *)

(** X2: a condition on a column the frame does not have, or with an
    operator the engine has no branch for, returns the frame as it is
    and raises nothing, whatever the value (an inverted range
    included). *)
Theorem unknown_column_or_operator_changes_nothing
    (lib : PyLib) (df : DataFrame) (c op : string) (v : pyval) (dt : string) :
  has_column df c = false \/ str_in op known_operators = false ->
  apply_single_filter lib df c op v dt = Ok df.
Proof.
  intros [H|H]; unfold apply_single_filter.
  - rewrite H. reflexivity.
  - destruct (negb (has_column df c)); [reflexivity|].
    rewrite (unknown_operator_mask _ _ _ _ _ _ H). reflexivity.
Qed.

Lemma unknown_column_or_operator_changes_nothing_witness :
  apply_single_filter Runtime.lib sample_df "Salary" "between"
    (PTuple [VNum 9; VNum 1]) "numeric" = Ok sample_df
  /\ apply_single_filter Runtime.lib sample_df "Age" "not_equals"
       (Scalar (VNum 25)) "numeric" = Ok sample_df.
Proof.
  split; apply unknown_column_or_operator_changes_nothing;
    [left|right]; reflexivity.
Defined.

(** X3: the operators the filter panel offers for a column type are
    exactly the operators [validate_filter_operator] accepts for it, and
    every accepted operator has a branch in [apply_single_filter]: an
    operator chosen in the panel is never rejected and never ignored. *)
Theorem offered_operators_are_valid_and_handled (op dt : string) :
  (In op (map snd (get_operators_for_type dt))
   <-> validate_filter_operator op dt = true)
  /\ (validate_filter_operator op dt = true ->
      str_in op known_operators = true).
Proof.
  unfold get_operators_for_type, validate_filter_operator.
  destruct (dt =? "text"); [|destruct (dt =? "numeric");
                             [|destruct (dt =? "date")]].
  - split; [symmetry; apply str_in_In|].
    intros H. apply str_in_In in H. simpl in H.
    repeat (destruct H as [<-|H]; [reflexivity|]). contradiction.
  - split; [symmetry; apply str_in_In|].
    intros H. apply str_in_In in H. simpl in H.
    repeat (destruct H as [<-|H]; [reflexivity|]). contradiction.
  - split; [symmetry; apply str_in_In|].
    intros H. apply str_in_In in H. simpl in H.
    repeat (destruct H as [<-|H]; [reflexivity|]). contradiction.
  - split; [|discriminate]. simpl. split; [contradiction|discriminate].
Qed.

Lemma offered_operators_are_valid_and_handled_witness :
  validate_filter_operator "between" "date" = true
  /\ str_in "between" known_operators = true.
Proof.
  destruct (offered_operators_are_valid_and_handled "between" "date")
    as [[Hvalid _] Hknown].
  assert (H : validate_filter_operator "between" "date" = true)
    by (apply Hvalid; simpl; auto).
  split; [exact H|apply Hknown, H].
Defined.

(** ** Filtering twice *)

Section SelectAgain.
Context {A B : Type}.

Lemma map_select (f : A -> B) (l : list A) : forall m,
  map f (select l m) = select (map f l) m.
Proof.
  induction l as [|x l IH]; intros [|b m]; simpl; try reflexivity.
  destruct b; simpl; rewrite IH; reflexivity.
Qed.

Lemma mapM_select (f : A -> result B) (l : list A) : forall ml m,
  mapM f l = Ok ml -> mapM f (select l m) = Ok (select ml m).
Proof.
  induction l as [|x l IH]; intros ml m; simpl.
  - intros [= <-]. destruct m; reflexivity.
  - destruct (f x) as [y|e] eqn:Hx; [|discriminate].
    destruct (mapM f l) as [ys|e] eqn:Hl; [|discriminate].
    intros [= <-]. destruct m as [|b m]; [reflexivity|].
    simpl. destruct b; simpl.
    + rewrite Hx, (IH ys m eq_refl). reflexivity.
    + apply IH. reflexivity.
Qed.

Lemma select_nil_mask (l : list A) : select l [] = [].
Proof. destruct l; reflexivity. Qed.

Lemma select_twice (l : list A) : forall m,
  select (select l m) (select m m) = select l m.
Proof.
  induction l as [|x l IH]; intros [|b m]; simpl; try reflexivity.
  destruct b; simpl; rewrite IH; reflexivity.
Qed.

End SelectAgain.

Lemma mask_and_nil_r (a : Mask) : mask_and a [] = [].
Proof. destruct a; reflexivity. Qed.

Lemma mask_and_select (a : Mask) : forall b m,
  mask_and (select a m) (select b m) = select (mask_and a b) m.
Proof.
  induction a as [|x a IH]; intros b m.
  - reflexivity.
  - destruct b as [|y b].
    + simpl. rewrite mask_and_nil_r. reflexivity.
    + destruct m as [|z m]; [reflexivity|].
      simpl. destruct z; simpl; rewrite IH; reflexivity.
Qed.

Lemma get_column_select (df : DataFrame) (c : string) (m : Mask) :
  get_column (df_select df m) c = select (get_column df c) m.
Proof.
  unfold get_column. simpl.
  destruct (position c (df_columns df)); [apply map_select|reflexivity].
Qed.

Lemma dtype_of_select (df : DataFrame) (c : string) (m : Mask) :
  dtype_of (df_select df m) c = dtype_of df c.
Proof. reflexivity. Qed.

Lemma series_cmp_scalar_select
    (lib : PyLib) (op : scalar -> scalar -> result bool) (d : Dtype)
    (col : Series) (x : scalar) (ms m : Mask) :
  series_cmp_scalar lib op d col x = Ok ms ->
  series_cmp_scalar lib op d (select col m) x = Ok (select ms m).
Proof.
  unfold series_cmp_scalar.
  destruct (isna x).
  - intros [= <-]. rewrite map_select. reflexivity.
  - destruct (invalid_comparison lib d x); [discriminate|].
    destruct (right_operand lib d x); [|discriminate].
    intros E. apply (mapM_select _ _ _ _ E).
Qed.

(** Filtering the filtered column again gives the mask that keeps every
    remaining row. *)
Lemma operator_mask_again
    (lib : PyLib) (df : DataFrame) (d : Dtype) (col : Series) (op : string)
    (v : pyval) (m : Mask) :
  row_wise op v = true ->
  operator_mask lib df d col op v = Ok (Some (BoolMask m)) ->
  operator_mask lib (df_select df m) d (select col m) op v
  = Ok (Some (BoolMask (select m m))).
Proof.
  intros Hrow Hm.
  destruct (str_in op known_operators) eqn:K;
    [|rewrite (unknown_operator_mask _ _ _ _ _ _ K) in Hm; discriminate].
  apply known_operator_cases in K.
  destruct K as [->|[->|[->|[->|[->|[->|[->|[->| ->]]]]]]]].
  - rewrite operator_mask_equals in *. destruct v as [x|l|l];
      [| |discriminate Hrow].
    + unfold series_eq in *.
      destruct (right_operand lib d x); simpl in *; injection Hm as <-;
        rewrite map_select; reflexivity.
    + injection Hm as <-. unfold series_isin. rewrite map_select.
      reflexivity.
  - rewrite operator_mask_contains in *.
    unfold str_contains_nocase, astype_str in *. rewrite map_select.
    destruct (mapM _ (map _ col)) as [ms|e] eqn:E; [|discriminate].
    simpl in Hm. injection Hm as <-.
    rewrite (mapM_select _ _ _ _ E). reflexivity.
  - rewrite operator_mask_starts_with in *. injection Hm as <-.
    unfold str_startswith, astype_str. rewrite !map_select. reflexivity.
  - rewrite operator_mask_ends_with in *. injection Hm as <-.
    unfold str_endswith, astype_str. rewrite !map_select. reflexivity.
  - rewrite operator_mask_greater_than in *. destruct v as [x|l|l];
      try discriminate Hrow.
    unfold series_cmp in *.
    destruct (series_cmp_scalar lib py_gt d col x) as [ms|e] eqn:E;
      [|discriminate].
    simpl in Hm. injection Hm as <-.
    rewrite (series_cmp_scalar_select _ _ _ _ _ _ _ E). reflexivity.
  - rewrite operator_mask_less_than in *. destruct v as [x|l|l];
      try discriminate Hrow.
    unfold series_cmp in *.
    destruct (series_cmp_scalar lib py_lt d col x) as [ms|e] eqn:E;
      [|discriminate].
    simpl in Hm. injection Hm as <-.
    rewrite (series_cmp_scalar_select _ _ _ _ _ _ _ E). reflexivity.
  - rewrite operator_mask_between in *.
    destruct v as [x|l|l]; try discriminate Hrow.
    destruct l as [|lo [|hi [|z l]]]; try discriminate Hrow.
    destruct (py_gt lo hi) as [[|]|e]; simpl in *; try discriminate.
    destruct (series_cmp_scalar lib py_ge d col lo) as [ma|e] eqn:Ea;
      [|discriminate].
    simpl in *.
    destruct (series_cmp_scalar lib py_le d col hi) as [mb|e] eqn:Eb;
      [|discriminate].
    simpl in *. injection Hm as <-.
    rewrite (series_cmp_scalar_select _ _ _ _ _ _ _ Ea). simpl.
    rewrite (series_cmp_scalar_select _ _ _ _ _ _ _ Eb). simpl.
    rewrite mask_and_select. reflexivity.
  - rewrite operator_mask_before in *. destruct v as [x|l|l];
      try discriminate Hrow.
    unfold series_cmp in *.
    destruct (series_cmp_scalar lib py_lt d col x) as [ms|e] eqn:E;
      [|discriminate].
    simpl in Hm. injection Hm as <-.
    rewrite (series_cmp_scalar_select _ _ _ _ _ _ _ E). reflexivity.
  - rewrite operator_mask_after in *. destruct v as [x|l|l];
      try discriminate Hrow.
    unfold series_cmp in *.
    destruct (series_cmp_scalar lib py_gt d col x) as [ms|e] eqn:E;
      [|discriminate].
    simpl in Hm. injection Hm as <-.
    rewrite (series_cmp_scalar_select _ _ _ _ _ _ _ E). reflexivity.
Qed.

Lemma row_wise_key
    (lib : PyLib) (df : DataFrame) (d : Dtype) (col : Series) (op : string)
    (v : pyval) :
  row_wise op v = true ->
  operator_mask lib df d col op v <> Ok (Some NoLabels).
Proof.
  intros Hrow. unfold row_wise in Hrow.
  destruct (op =? "between") eqn:Eb.
  - apply String.eqb_eq in Eb. subst op. rewrite operator_mask_between.
    destruct v as [x|l|l]; try discriminate Hrow.
    destruct l as [|lo [|hi [|z l]]]; try discriminate Hrow.
    unfold bind.
    repeat (match goal with
            | |- (if ?b then _ else _) <> _ => destruct b
            | |- match ?x with _ => _ end <> _ => destruct x
            end; try discriminate).
  - unfold operator_mask, bind. rewrite Eb.
    repeat (match goal with
            | |- (if ?b then _ else _) <> _ => destruct b
            | |- match ?x with _ => _ end <> _ => destruct x
            end; try discriminate).
Qed.

(** X4: on a frame with distinct column names, filtering is idempotent
    for a condition decided row by row (a scalar value with any operator
    but [between], a list with [equals], any value with the text
    operators, a pair with [between]): applying the same condition to
    the frame it returned returns that frame again. *)
Theorem apply_single_filter_twice
    (lib : PyLib) (df r : DataFrame) (c op : string) (v : pyval)
    (dt : string) :
  List.NoDup (df_columns df) ->
  row_wise op v = true ->
  apply_single_filter lib df c op v dt = Ok r ->
  apply_single_filter lib r c op v dt = Ok r.
Proof.
  intros _ Hrow. unfold apply_single_filter.
  destruct (has_column df c) eqn:Hc; simpl.
  - destruct (operator_mask lib df (dtype_of df c) (get_column df c) op v)
      as [[[m|]|]|e] eqn:E;
      simpl; intros H; try discriminate; injection H as <-.
    + change (has_column (df_select df m) c) with (has_column df c).
      rewrite Hc. simpl. rewrite get_column_select, dtype_of_select.
      rewrite (operator_mask_again _ _ _ _ _ _ _ Hrow E). simpl.
      unfold df_select. simpl. rewrite select_twice. reflexivity.
    + exfalso. exact (row_wise_key _ _ _ _ _ _ Hrow E).
    + rewrite Hc. simpl. rewrite E. reflexivity.
  - intros [= <-]. rewrite Hc. reflexivity.
Qed.

Lemma apply_single_filter_twice_witness :
  apply_single_filter Runtime.lib
    (df_select sample_df [false; true; true; false; false])
    "Amount" "between" (PTuple [VNum 1500; VNum 2500]) "numeric"
  = Ok (df_select sample_df [false; true; true; false; false]).
Proof.
  apply (apply_single_filter_twice Runtime.lib sample_df).
  - repeat constructor; simpl; intuition discriminate.
  - reflexivity.
  - reflexivity.
Defined.

(** ** Masks of conditions *)

Lemma index_isin_length (idx other : list Z) :
  length (index_isin idx other) = length idx.
Proof. unfold index_isin. apply length_map. Qed.

Lemma condition_mask_length
    (lib : PyLib) (df : DataFrame) (cond : Condition) (m : Mask) :
  condition_mask lib df cond = Ok (Some m) -> length m = len df.
Proof.
  unfold condition_mask.
  destruct (column_name cond) as [col|]; [|discriminate].
  destruct (operator cond) as [op|]; [|discriminate].
  destruct (col =? EmptyString); [discriminate|].
  destruct (apply_single_filter _ _ _ _ _ _) as [r|e]; simpl; [|discriminate].
  intros [= <-]. rewrite index_isin_length. unfold index, len.
  apply length_map.
Qed.

Lemma collect_masks_lengths
    (lib : PyLib) (df : DataFrame) (conds : list Condition) : forall ms,
  collect_masks lib df conds = Ok ms ->
  Forall (fun m => length m = len df) ms.
Proof.
  induction conds as [|c conds IH]; simpl; intros ms.
  - intros [= <-]. constructor.
  - destruct (condition_mask lib df c) as [om|e] eqn:Ec; [|discriminate].
    simpl. destruct (collect_masks lib df conds) as [ms'|e]; [|discriminate].
    simpl. intros [= <-]. destruct om as [m|]; [|apply IH; reflexivity].
    constructor; [eapply condition_mask_length, Ec|apply IH; reflexivity].
Qed.

Lemma collect_masks_app
    (lib : PyLib) (df : DataFrame) (l1 l2 : list Condition) :
  collect_masks lib df (l1 ++ l2)
  = (let* a := collect_masks lib df l1 in
     let* b := collect_masks lib df l2 in
     Ok (a ++ b)%list).
Proof.
  induction l1 as [|c l1 IH]; simpl.
  - destruct (collect_masks lib df l2); reflexivity.
  - destruct (condition_mask lib df c) as [om|e]; [|reflexivity]. simpl.
    rewrite IH.
    destruct (collect_masks lib df l1) as [a|e]; [|reflexivity]. simpl.
    destruct (collect_masks lib df l2) as [b|e]; [|reflexivity]. simpl.
    destruct om; reflexivity.
Qed.

(** ** One condition *)

Lemma existsb_eqb_In (i : Z) (l : list Z) :
  existsb (Z.eqb i) l = true <-> In i l.
Proof.
  rewrite existsb_exists. split.
  - intros (x & Hx & E). apply Z.eqb_eq in E. subst. exact Hx.
  - intros H. exists i. split; [exact H|apply Z.eqb_refl].
Qed.

Lemma select_labels_In (rows : list Row) : forall m i,
  In i (map label (select rows m)) -> In i (map label rows).
Proof.
  intros m i H. rewrite in_map_iff in *. destruct H as (r & Hr & Hin).
  exists r. split; [exact Hr|].
  eapply sublist_In; [apply select_sublist|exact Hin].
Qed.

Lemma index_isin_none (rows : list Row) (extra : list Z) :
  (forall r, In r rows -> ~ In (label r) extra) ->
  select rows (index_isin (map label rows) extra) = [].
Proof.
  induction rows as [|r rows IH]; intros H; simpl; [reflexivity|].
  destruct (existsb (Z.eqb (label r)) extra) eqn:E.
  - apply existsb_eqb_In in E. exfalso. apply (H r); simpl; auto.
  - apply IH. intros r' Hr'. apply H. simpl. auto.
Qed.

(** With distinct labels, the labels kept by a mask select the rows the
    mask selects. *)
Lemma index_isin_select (rows : list Row) : forall m extra,
  List.NoDup (map label rows) ->
  (forall r, In r rows -> ~ In (label r) extra) ->
  select rows
    (index_isin (map label rows) (extra ++ map label (select rows m)))
  = select rows m.
Proof.
  induction rows as [|r rows IH]; intros m extra Hnd Hex; [reflexivity|].
  simpl in Hnd. apply List.NoDup_cons_iff in Hnd as [Hr Hnd].
  destruct m as [|b m].
  - simpl select at 2. simpl map at 2. rewrite app_nil_r.
    rewrite select_nil_mask.
    apply (index_isin_none (r :: rows)). exact Hex.
  - simpl. destruct b; simpl.
    + assert (E : existsb (Z.eqb (label r))
                    (extra ++ label r :: map label (select rows m)) = true).
      { apply existsb_eqb_In. apply in_or_app. right. simpl. auto. }
      rewrite E. f_equal.
      change (extra ++ label r :: map label (select rows m))%list
        with (extra ++ [label r] ++ map label (select rows m))%list.
      rewrite app_assoc. apply IH; [exact Hnd|].
      intros r' Hr' Hin. apply in_app_or in Hin as [Hin|[Hin|[]]].
      * apply (Hex r'); simpl; auto.
      * apply Hr. rewrite Hin. apply in_map. exact Hr'.
    + assert (E : existsb (Z.eqb (label r))
                    (extra ++ map label (select rows m)) = false).
      { destruct (existsb _ _) eqn:E'; [|reflexivity].
        apply existsb_eqb_In in E'. apply in_app_or in E' as [E'|E'].
        - exfalso. apply (Hex r); simpl; auto.
        - exfalso. apply Hr. eapply select_labels_In, E'. }
      rewrite E. apply IH; [exact Hnd|].
      intros r' Hr'. apply Hex. simpl. auto.
Qed.

(** X5: on a frame with distinct index labels and distinct column
    names, [apply_multiple_filters] on a single evaluated condition
    follows [apply_single_filter] on that condition, whatever the logic
    operator: an exception of the one is the exception of the other, and
    a result has the same rows, with every column of the input; on a
    frame with at least one row the two results are the same frame.
    With one condition AND and OR coincide. *)
Theorem one_condition_is_single_filter
    (lib : PyLib) (df : DataFrame) (cond : Condition) (col op logic : string) :
  column_name cond = Some col ->
  col <> EmptyString ->
  operator cond = Some op ->
  List.NoDup (index df) ->
  List.NoDup (df_columns df) ->
  match apply_single_filter lib df col op (value cond)
          (default "text" (data_type cond)) with
  | Raise e => apply_multiple_filters lib df [cond] logic = Raise e
  | Ok r =>
      exists r',
        apply_multiple_filters lib df [cond] logic = Ok r'
        /\ df_rows r' = df_rows r
        /\ df_columns r' = df_columns df
        /\ (df_rows df <> [] -> r' = r)
  end.
Proof.
  intros Hcol Hne Hop Hnd _.
  unfold apply_multiple_filters. simpl.
  unfold condition_mask. rewrite Hcol, Hop.
  destruct (col =? EmptyString) eqn:E;
    [apply String.eqb_eq in E; contradiction|].
  destruct (apply_single_filter lib df col op (value cond) _) as [r|e] eqn:Hr;
    simpl; [|reflexivity].
  exists (df_select df (index_isin (index df) (index r))).
  split.
  { unfold combine_masks. destruct (upper logic =? "OR"); reflexivity. }
  destruct (apply_single_filter_key _ _ _ _ _ _ _ Hr) as [[m ->]|[Hrows ->]].
  - assert (Hsel : df_select df (index_isin (index df)
                                   (index (df_select df m)))
                   = df_select df m).
    { destruct df as [dc dd dr]. unfold df_select, index. simpl. f_equal.
      apply (index_isin_select dr m []); [exact Hnd|]. intros r _ []. }
    rewrite Hsel. repeat split.
  - unfold df_select, no_columns, index. cbn [df_rows df_columns].
    rewrite Hrows. repeat split. intros H. contradiction.
Qed.

Lemma one_condition_is_single_filter_witness :
  exists r',
    apply_multiple_filters Runtime.lib sample_df
      [new_condition "City" "equals" (Scalar (VStr "Tokyo")) "text"] "OR"
    = Ok r'
    /\ df_rows r' = [alice; charlie]
    /\ df_columns r' = df_columns sample_df
    /\ (df_rows sample_df <> []
        -> r' = df_select sample_df [true; false; true; false; false]).
Proof.
  apply (one_condition_is_single_filter Runtime.lib sample_df
           (new_condition "City" "equals" (Scalar (VStr "Tokyo")) "text")
           "City" "equals" "OR").
  - reflexivity.
  - discriminate.
  - reflexivity.
  - repeat constructor; simpl; intuition discriminate.
  - repeat constructor; simpl; intuition discriminate.
Defined.

(** ** The order of the conditions *)

Lemma mask_and_swap (a : Mask) : forall x y,
  mask_and (mask_and a x) y = mask_and (mask_and a y) x.
Proof.
  induction a as [|u a IH]; intros [|v x] [|w y]; simpl; try reflexivity.
  rewrite IH. destruct u, v, w; reflexivity.
Qed.

Lemma mask_or_swap (a : Mask) : forall x y,
  mask_or (mask_or a x) y = mask_or (mask_or a y) x.
Proof.
  induction a as [|u a IH]; intros [|v x] [|w y]; simpl; try reflexivity.
  rewrite IH. destruct u, v, w; reflexivity.
Qed.

Lemma mask_and_comm (a : Mask) : forall b, mask_and a b = mask_and b a.
Proof.
  induction a as [|u a IH]; intros [|v b]; simpl; try reflexivity.
  rewrite IH, andb_comm. reflexivity.
Qed.

Lemma mask_or_comm (a : Mask) : forall b, mask_or a b = mask_or b a.
Proof.
  induction a as [|u a IH]; intros [|v b]; simpl; try reflexivity.
  rewrite IH, orb_comm. reflexivity.
Qed.

Lemma fold_left_swap (f : Mask -> Mask -> Mask) (l l' : list Mask) :
  (forall a x y, f (f a x) y = f (f a y) x) ->
  Permutation l l' ->
  forall a, fold_left f l a = fold_left f l' a.
Proof.
  intros Hf H. induction H as [|x l l' _ IH|x y l|l l' l'' _ IH1 _ IH2];
    intros a; simpl.
  - reflexivity.
  - apply IH.
  - rewrite Hf. reflexivity.
  - rewrite IH1. apply IH2.
Qed.

(** Combining masks does not depend on their order. *)
Lemma combine_masks_permutation (logic : string) (ms ms' : list Mask) :
  Permutation ms ms' -> combine_masks logic ms = combine_masks logic ms'.
Proof.
  unfold combine_masks. intros H.
  induction H as [|x l l' H _|x y l|l l' l'' _ IH1 _ IH2].
  - reflexivity.
  - destruct (upper logic =? "OR"); f_equal.
    + apply fold_left_swap; [apply mask_or_swap|exact H].
    + apply fold_left_swap; [apply mask_and_swap|exact H].
  - destruct (upper logic =? "OR"); simpl; f_equal; f_equal.
    + apply mask_or_comm.
    + apply mask_and_comm.
  - rewrite IH1. exact IH2.
Qed.

Lemma collect_masks_permutation
    (lib : PyLib) (df : DataFrame) (conds conds' : list Condition) :
  Permutation conds conds' ->
  forall ms,
    collect_masks lib df conds = Ok ms ->
    exists ms', collect_masks lib df conds' = Ok ms' /\ Permutation ms ms'.
Proof.
  intros H.
  induction H as [|c l l' _ IH|c d l|l l' l'' _ IH1 _ IH2]; intros ms; simpl.
  - intros [= <-]. exists []. split; [reflexivity|constructor].
  - destruct (condition_mask lib df c) as [om|e]; [|discriminate]. simpl.
    destruct (collect_masks lib df l) as [a|e]; [|discriminate]. simpl.
    intros [= <-]. destruct (IH a eq_refl) as (a' & -> & Hp). simpl.
    eexists. split; [reflexivity|].
    destruct om; [apply perm_skip|]; exact Hp.
  - destruct (condition_mask lib df d) as [od|e]; [|discriminate]. simpl.
    destruct (condition_mask lib df c) as [oc|e]; [|discriminate]. simpl.
    destruct (collect_masks lib df l) as [a|e]; [|discriminate]. simpl.
    intros [= <-]. eexists. split; [reflexivity|].
    destruct od, oc; try reflexivity. apply perm_swap.
  - intros Hms. destruct (IH1 ms Hms) as (ms1 & H1 & P1).
    destruct (IH2 ms1 H1) as (ms2 & H2 & P2).
    exists ms2. split; [exact H2|]. eapply perm_trans; eassumption.
Qed.

(** X6: the result of [apply_multiple_filters] does not depend on the
    order of the conditions: if it returns a frame for a list of
    conditions, it returns the same frame for every reordering of the
    list, under the same logic operator. *)
Theorem condition_order_does_not_matter
    (lib : PyLib) (df r : DataFrame) (conds conds' : list Condition)
    (logic : string) :
  Permutation conds conds' ->
  apply_multiple_filters lib df conds logic = Ok r ->
  apply_multiple_filters lib df conds' logic = Ok r.
Proof.
  intros Hp. unfold apply_multiple_filters.
  destruct conds as [|c conds].
  - apply Permutation_nil in Hp. subst. auto.
  - destruct conds' as [|c' conds'];
      [symmetry in Hp; apply Permutation_nil in Hp; discriminate|].
    rewrite <- (Permutation_length Hp).
    destruct (10 <? length (c :: conds))%nat; [discriminate|].
    destruct (collect_masks lib df (c :: conds)) as [ms|e] eqn:E;
      [|discriminate].
    destruct (collect_masks_permutation _ _ _ _ Hp ms E) as (ms' & -> & Pm).
    simpl. rewrite (combine_masks_permutation logic ms ms' Pm). auto.
Qed.

Lemma condition_order_does_not_matter_witness :
  apply_multiple_filters Runtime.lib sample_df (rev active_in_tokyo) "AND"
  = Ok (df_select sample_df [true; false; true; false; false]).
Proof.
  apply (condition_order_does_not_matter Runtime.lib sample_df _
           active_in_tokyo).
  - apply Permutation_rev.
  - reflexivity.
Defined.

(** ** Conditions on a column the frame does not have *)

Lemma index_isin_self_within (l other : list Z) :
  (forall i, In i l -> In i other) ->
  index_isin l other = repeat true (length l).
Proof.
  unfold index_isin. induction l as [|i l IH]; intros H; simpl; [reflexivity|].
  rewrite IH by (intros j Hj; apply H; simpl; auto).
  replace (existsb (Z.eqb i) other) with true; [reflexivity|].
  symmetry. apply existsb_eqb_In. apply H. simpl. auto.
Qed.

(** Such a condition evaluates to the mask that keeps every row. *)
Lemma missing_column_mask (lib : PyLib) (df : DataFrame) (c : Condition) :
  on_missing_column df c ->
  condition_mask lib df c = Ok (Some (repeat true (len df))).
Proof.
  intros (col & op & Hc & Ho & Hne & Hhas).
  unfold condition_mask. rewrite Hc, Ho.
  destruct (col =? EmptyString) eqn:E;
    [apply String.eqb_eq in E; contradiction|].
  unfold apply_single_filter. rewrite Hhas. simpl.
  rewrite index_isin_self_within by auto.
  unfold index, len. rewrite length_map. reflexivity.
Qed.

Lemma mask_or_true_l (n : nat) : forall m,
  length m = n -> mask_or (repeat true n) m = repeat true n.
Proof.
  induction n as [|n IH]; intros [|b m] H; simpl in *; try discriminate;
    [reflexivity|].
  rewrite IH by lia. reflexivity.
Qed.

Lemma mask_and_true_l (n : nat) : forall m,
  length m = n -> mask_and (repeat true n) m = m.
Proof.
  induction n as [|n IH]; intros [|b m] H; simpl in *; try discriminate;
    [reflexivity|].
  rewrite IH by lia. reflexivity.
Qed.

Lemma fold_mask_or_true (n : nat) (ms : list Mask) :
  Forall (fun m => length m = n) ms ->
  fold_left mask_or ms (repeat true n) = repeat true n.
Proof.
  induction 1 as [|m ms Hm _ IH]; simpl; [reflexivity|].
  rewrite mask_or_true_l by exact Hm. exact IH.
Qed.

Lemma collect_masks_split
    (lib : PyLib) (df : DataFrame) (l1 l2 : list Condition) (c : Condition)
    (m : Mask) (ms : list Mask) :
  condition_mask lib df c = Ok (Some m) ->
  collect_masks lib df (l1 ++ c :: l2) = Ok ms ->
  exists a b,
    collect_masks lib df (l1 ++ l2) = Ok (a ++ b)%list
    /\ ms = (a ++ m :: b)%list.
Proof.
  intros Hc. rewrite !collect_masks_app. simpl. rewrite Hc. simpl.
  destruct (collect_masks lib df l1) as [a|e]; [|discriminate]. simpl.
  destruct (collect_masks lib df l2) as [b|e]; [|discriminate]. simpl.
  intros [= <-]. exists a, b. auto.
Qed.

(** X7: under OR, a condition whose column the frame does not have makes
    [apply_multiple_filters] return the whole frame, whatever the other
    conditions select, as soon as the call returns at all. *)
Theorem or_with_missing_column_keeps_every_row
    (lib : PyLib) (df r : DataFrame) (l1 l2 : list Condition) (c : Condition)
    (logic : string) :
  on_missing_column df c ->
  upper logic = "OR" ->
  apply_multiple_filters lib df (l1 ++ c :: l2) logic = Ok r ->
  r = df.
Proof.
  intros Hmiss Hor. unfold apply_multiple_filters.
  destruct (l1 ++ c :: l2)%list as [|c0 l] eqn:El;
    [destruct l1; discriminate|]. rewrite <- El. clear El c0 l.
  destruct (10 <? _)%nat; [discriminate|].
  destruct (collect_masks lib df (l1 ++ c :: l2)) as [ms|e] eqn:E;
    [|discriminate]. simpl.
  pose proof (collect_masks_lengths _ _ _ _ E) as Hlen.
  destruct (collect_masks_split _ _ _ _ _ _ _ (missing_column_mask lib df c Hmiss) E)
    as (a & b & _ & ->).
  rewrite (combine_masks_permutation logic _ (repeat true (len df) :: a ++ b))
    by (symmetry; apply Permutation_middle).
  unfold combine_masks. rewrite Hor. simpl.
  rewrite fold_mask_or_true.
  - rewrite df_select_all. intros [= <-]. reflexivity.
  - rewrite List.Forall_app in Hlen. destruct Hlen as [Ha Hb].
    apply List.Forall_app. split; [exact Ha|].
    apply List.Forall_cons_iff in Hb. apply Hb.
Qed.

Lemma or_with_missing_column_keeps_every_row_witness :
  df_select sample_df [true; true; true; true; true] = sample_df.
Proof.
  apply (or_with_missing_column_keeps_every_row Runtime.lib sample_df _
           [new_condition "City" "equals" (Scalar (VStr "Tokyo")) "text"]
           []
           (new_condition "Country" "equals" (Scalar (VStr "Japan")) "text")
           "or").
  - exists "Country", "equals".
    split; [reflexivity|split; [reflexivity|split; [discriminate|reflexivity]]].
  - reflexivity.
  - reflexivity.
Defined.

(** X8: under AND (any logic operator other than OR), a condition whose
    column the frame does not have can be dropped: the call returns the
    same frame without it. *)
Theorem and_ignores_missing_column
    (lib : PyLib) (df r : DataFrame) (l1 l2 : list Condition) (c : Condition)
    (logic : string) :
  on_missing_column df c ->
  upper logic <> "OR" ->
  apply_multiple_filters lib df (l1 ++ c :: l2) logic = Ok r ->
  apply_multiple_filters lib df (l1 ++ l2) logic = Ok r.
Proof.
  intros Hmiss Hand. unfold apply_multiple_filters.
  destruct (l1 ++ c :: l2)%list as [|c0 l] eqn:El;
    [destruct l1; discriminate|]. rewrite <- El. clear El c0 l.
  destruct (10 <? length (l1 ++ c :: l2))%nat eqn:Hten; [discriminate|].
  destruct (collect_masks lib df (l1 ++ c :: l2)) as [ms|e] eqn:E;
    [|discriminate]. simpl.
  pose proof (collect_masks_lengths _ _ _ _ E) as Hlen.
  destruct (collect_masks_split _ _ _ _ _ _ _ (missing_column_mask lib df c Hmiss) E)
    as (a & b & E' & ->).
  rewrite (combine_masks_permutation logic _ (repeat true (len df) :: a ++ b))
    by (symmetry; apply Permutation_middle).
  assert (Hab : Forall (fun m => length m = len df) (a ++ b)).
  { rewrite List.Forall_app in Hlen. destruct Hlen as [Ha Hb].
    apply List.Forall_app. split; [exact Ha|].
    apply List.Forall_cons_iff in Hb. apply Hb. }
  assert (Hten' : (10 <? length (l1 ++ l2))%nat = false).
  { apply Nat.ltb_ge. apply Nat.ltb_ge in Hten.
    rewrite length_app in *. simpl in Hten. lia. }
  assert (Hcomb :
    match combine_masks logic (repeat true (len df) :: a ++ b) with
    | Some m => Ok (df_select df m)
    | None => Ok df
    end
    = match combine_masks logic (a ++ b) with
      | Some m => Ok (df_select df m)
      | None => Ok df
      end).
  { unfold combine_masks.
    destruct (upper logic =? "OR") eqn:Eor;
      [apply String.eqb_eq in Eor; contradiction|].
    destruct (a ++ b)%list as [|m0 ms]; simpl.
    - rewrite df_select_all. reflexivity.
    - apply List.Forall_cons_iff in Hab. destruct Hab as [H0 _].
      rewrite mask_and_true_l by exact H0. reflexivity. }
  rewrite Hcomb. intros Hr.
  destruct (l1 ++ l2)%list as [|c0 l] eqn:El.
  - simpl in E'. destruct a, b; try discriminate. exact Hr.
  - cbv beta iota. rewrite Hten', E'. simpl. exact Hr.
Qed.

Lemma and_ignores_missing_column_witness :
  apply_multiple_filters Runtime.lib sample_df
    [new_condition "City" "equals" (Scalar (VStr "Tokyo")) "text"] "AND"
  = Ok (df_select sample_df [true; false; true; false; false]).
Proof.
  apply (and_ignores_missing_column Runtime.lib sample_df _
           [new_condition "City" "equals" (Scalar (VStr "Tokyo")) "text"]
           []
           (new_condition "Country" "equals" (Scalar (VStr "Japan")) "text")
           "AND").
  - exists "Country", "equals".
    split; [reflexivity|split; [reflexivity|split; [discriminate|reflexivity]]].
  - discriminate.
  - reflexivity.
Defined.

(** ** Column names: [handle_duplicate_columns] *)

Lemma seen_after_step (pre : list string) (seen : gmap string nat)
    (a : string) :
  seen_after pre seen ->
  seen_after (pre ++ [a])
    (match seen !! a with
     | Some n => <[a := S n]> seen
     | None => <[a := O]> seen
     end).
Proof.
  intros H c. unfold occurrences. rewrite count_occ_app. simpl.
  pose proof (H a) as Ha. pose proof (H c) as Hc. unfold occurrences in *.
  destruct (String.string_dec a c) as [->|Hne].
  - destruct (seen !! c) as [n|].
    + rewrite lookup_insert_eq.
      destruct (count_occ String.string_dec pre c); [discriminate|].
      injection Hc as ->. rewrite Nat.add_1_r. reflexivity.
    + rewrite lookup_insert_eq.
      destruct (count_occ String.string_dec pre c); [|discriminate].
      reflexivity.
  - rewrite Nat.add_0_r.
    destruct (seen !! a); rewrite lookup_insert_ne by exact Hne; exact Hc.
Qed.

Lemma rename_duplicates_nth (cols : list string) :
  forall pre seen i c,
    seen_after pre seen ->
    nth_error cols i = Some c ->
    nth_error (rename_duplicates cols seen) i
    = Some (disambiguated c (occurrences (pre ++ firstn i cols) c)).
Proof.
  induction cols as [|a cols IH]; intros pre seen i c Hseen Hi.
  - destruct i; discriminate.
  - destruct i as [|i].
    + simpl in Hi. injection Hi as ->. simpl. rewrite app_nil_r.
      rewrite (Hseen c).
      destruct (occurrences pre c); reflexivity.
    + simpl in Hi. simpl firstn.
      change (pre ++ a :: firstn i cols)%list
        with (pre ++ [a] ++ firstn i cols)%list.
      rewrite app_assoc.
      rewrite <- (IH (pre ++ [a])%list _ i c (seen_after_step pre seen a Hseen) Hi).
      simpl. destruct (seen !! a); reflexivity.
Qed.

Lemma rename_duplicates_length (cols : list string) : forall seen,
  length (rename_duplicates cols seen) = length cols.
Proof.
  induction cols as [|a cols IH]; intros seen; simpl; [reflexivity|].
  destruct (seen !! a); simpl; rewrite IH; reflexivity.
Qed.

Lemma rename_duplicates_fresh (cols : list string) : forall seen,
  List.NoDup cols ->
  (forall c, In c cols -> seen !! c = None) ->
  rename_duplicates cols seen = cols.
Proof.
  induction cols as [|a cols IH]; intros seen Hnd Hseen; [reflexivity|].
  apply List.NoDup_cons_iff in Hnd as [Ha Hnd].
  simpl. rewrite (Hseen a) by (simpl; auto). f_equal.
  apply IH; [exact Hnd|]. intros c Hc.
  rewrite lookup_insert_ne; [apply Hseen; simpl; auto|].
  intros ->. contradiction.
Qed.

Lemma handle_duplicate_columns_distinct (df : DataFrame) :
  List.NoDup (df_columns df) -> handle_duplicate_columns df = df.
Proof.
  intros Hnd. destruct df as [cols dts rows]. unfold handle_duplicate_columns.
  simpl in *. rewrite rename_duplicates_fresh; [reflexivity|exact Hnd|].
  intros c _. apply lookup_empty.
Qed.

Lemma string_length_append (a b : string) :
  String.length (a ++ b) = (String.length a + String.length b)%nat.
Proof. induction a as [|x a IH]; simpl; [reflexivity|]. rewrite IH. reflexivity. Qed.

Lemma append_nonempty_differs (a b : string) :
  b <> EmptyString -> (a ++ b)%string <> a.
Proof.
  intros Hb E. apply (f_equal String.length) in E.
  rewrite string_length_append in E.
  destruct b; [contradiction|]. simpl in E. lia.
Qed.

(** X9: [handle_duplicate_columns] keeps the number of columns, the
    cells and the storage types, and renames by position: a column with
    no namesake before it keeps its name, and one with [n >= 1]
    namesakes before it is called [name_n]. *)
Theorem renamed_column_counts_earlier_namesakes
    (df : DataFrame) (i : nat) (c : string) :
  nth_error (df_columns df) i = Some c ->
  nth_error (df_columns (handle_duplicate_columns df)) i
  = Some (disambiguated c (occurrences (firstn i (df_columns df)) c))
  /\ length (df_columns (handle_duplicate_columns df))
     = length (df_columns df)
  /\ df_rows (handle_duplicate_columns df) = df_rows df
  /\ df_dtypes (handle_duplicate_columns df) = df_dtypes df.
Proof.
  intros Hi. split; [|split; [|split; reflexivity]].
  - unfold handle_duplicate_columns. cbn [df_columns].
    rewrite (rename_duplicates_nth _ [] ∅ i c); [reflexivity| |exact Hi].
    intros k. apply lookup_empty.
  - apply rename_duplicates_length.
Qed.

Lemma renamed_column_counts_earlier_namesakes_witness :
  nth_error
    (df_columns
       (handle_duplicate_columns
          {| df_columns := ["id"; "name"; "id"; "id"];
             df_dtypes := [DInt64; DObject; DInt64; DInt64];
             df_rows := [] |})) 3
  = Some "id_2".
Proof.
  apply (renamed_column_counts_earlier_namesakes
           {| df_columns := ["id"; "name"; "id"; "id"];
              df_dtypes := [DInt64; DObject; DInt64; DInt64];
              df_rows := [] |} 3 "id").
  reflexivity.
Defined.

(** X10: the names [handle_duplicate_columns] returns are not always
    distinct: a new name can be the name of a later column.  For every
    name [c], the header [c, c, c_1] becomes [c, c_1, c_1]. *)
Theorem renamed_column_can_collide (df : DataFrame) (c : string) :
  df_columns df = [c; c; c ++ "_1"] ->
  df_columns (handle_duplicate_columns df) = [c; c ++ "_1"; c ++ "_1"]
  /\ ~ List.NoDup (df_columns (handle_duplicate_columns df)).
Proof.
  intros H.
  assert (E : df_columns (handle_duplicate_columns df)
              = [c; c ++ "_1"; c ++ "_1"]).
  { unfold handle_duplicate_columns. cbn [df_columns]. rewrite H. simpl.
    rewrite lookup_empty, lookup_insert_eq.
    rewrite lookup_insert_ne
      by (intros E; symmetry in E; revert E;
          apply append_nonempty_differs; discriminate).
    rewrite lookup_insert_ne
      by (intros E; symmetry in E; revert E;
          apply append_nonempty_differs; discriminate).
    rewrite lookup_empty. reflexivity. }
  split; [exact E|]. rewrite E. intros Hnd.
  apply List.NoDup_cons_iff in Hnd as [_ Hnd].
  apply List.NoDup_cons_iff in Hnd as [Hin _]. apply Hin. simpl. auto.
Qed.

Lemma renamed_column_can_collide_witness :
  df_columns
    (handle_duplicate_columns
       {| df_columns := ["a"; "a"; "a_1"];
          df_dtypes := [DObject; DObject; DObject];
          df_rows := [] |})
  = ["a"; "a_1"; "a_1"].
Proof.
  apply (renamed_column_can_collide
           {| df_columns := ["a"; "a"; "a_1"];
              df_dtypes := [DObject; DObject; DObject];
              df_rows := [] |} "a").
  reflexivity.
Defined.

(** ** Column types: [detect_column_types] and the operator dropdown *)

Lemma detect_column_type_name (lib : PyLib) (d : Dtype) (col : Series) :
  In (detect_column_type lib d col) column_type_names.
Proof.
  unfold detect_column_type, column_type_names.
  repeat match goal with
         | |- context [if ?b then _ else _] => destruct b
         end; simpl; auto.
Qed.

Lemma four_operators_per_type (t : string) :
  In t column_type_names -> length (get_operators_for_type t) = 4%nat.
Proof.
  unfold column_type_names. simpl.
  intros [<-|[<-|[<-|[]]]]; reflexivity.
Qed.

Lemma offered_operator_valid (op dt : string) :
  In op (map snd (get_operators_for_type dt)) ->
  validate_filter_operator op dt = true.
Proof.
  unfold get_operators_for_type, validate_filter_operator.
  destruct (dt =? "text"); [|destruct (dt =? "numeric");
                             [|destruct (dt =? "date")]];
    try (intros H; apply str_in_In; exact H).
  intros [].
Qed.

Lemma column_type_name (lib : PyLib) (df : DataFrame) (c t : string) :
  column_type lib df c = Ok t -> In t column_type_names.
Proof.
  unfold column_type.
  destruct (positions_named c (df_columns df)) as [|i [|j l]];
    try (intros [= <-]; apply detect_column_type_name).
  destruct (Nat.eqb _ 0); [|discriminate].
  intros [= <-]. unfold column_type_names. simpl. auto.
Qed.

(** What the loop of [detect_column_types] returns has a type for each
    of the columns it went through, and nothing new elsewhere. *)
Lemma detect_loop_lookup (lib : PyLib) (df : DataFrame) :
  forall cols m res,
    detect_loop lib df cols m = Ok res ->
    forall c,
      (In c cols -> exists t, res !! c = Some t /\ In t column_type_names)
      /\ (~ In c cols -> res !! c = m !! c).
Proof.
  induction cols as [|a cols IH]; intros m res H c.
  - injection H as <-. split; [intros []|reflexivity].
  - cbn [detect_loop] in H.
    destruct (column_type lib df a) as [t|e] eqn:Et; [|discriminate].
    simpl in H. destruct (IH _ _ H c) as [Hin Hout].
    destruct (in_dec string_dec c cols) as [Hc|Hc].
    + split; [intros _; apply Hin, Hc|].
      intros Hn. exfalso. apply Hn. simpl. auto.
    + split.
      * intros [->|Hc']; [|contradiction].
        exists t. split; [|eapply column_type_name, Et].
        rewrite (Hout Hc). apply lookup_insert_eq.
      * intros Hn. rewrite (Hout Hc). apply lookup_insert_ne.
        intros ->. apply Hn. simpl. auto.
Qed.

Lemma stored_type_name (lib : PyLib) (df : DataFrame) (fmt name : string)
    (td : TableData) (c : string) :
  prepare_table_data lib df fmt name = Ok td ->
  In (default "text" (column_types td !! c)) column_type_names.
Proof.
  unfold prepare_table_data, detect_column_types.
  destruct (detect_loop lib (handle_duplicate_columns df) _ ∅)
    as [types|e] eqn:E; [|discriminate].
  simpl. intros [= <-]. cbn [column_types].
  destruct (detect_loop_lookup _ _ _ _ _ E c) as [Hin Hout].
  destruct (in_dec string_dec c
              (df_columns (handle_duplicate_columns df))) as [Hc|Hc].
  - destruct (Hin Hc) as (t & -> & Ht). exact Ht.
  - rewrite (Hout Hc), lookup_empty. unfold column_type_names. simpl. auto.
Qed.

(** X11: when [prepare_table_data] returns the table to store, the
    stored column types have an entry exactly for the columns of the
    stored table, and every entry is "text", "numeric" or "date". *)
Theorem stored_column_types_cover_the_columns
    (lib : PyLib) (df : DataFrame) (fmt name : string) (td : TableData)
    (c : string) :
  prepare_table_data lib df fmt name = Ok td ->
  (In c (column_names td) ->
   exists t, column_types td !! c = Some t /\ In t column_type_names)
  /\ (~ In c (column_names td) -> column_types td !! c = None).
Proof.
  unfold prepare_table_data, detect_column_types.
  destruct (detect_loop lib (handle_duplicate_columns df) _ ∅)
    as [types|e] eqn:E; [|discriminate].
  simpl. intros [= <-]. cbn [column_names column_types].
  destruct (detect_loop_lookup _ _ _ _ _ E c) as [Hin Hout].
  split; [exact Hin|]. intros H. rewrite (Hout H). apply lookup_empty.
Qed.

Lemma stored_column_types_cover_the_columns_witness :
  (exists t,
      column_types sample_table_data !! "Age" = Some t
      /\ In t column_type_names)
  /\ column_types sample_table_data !! "Bonus" = None.
Proof.
  split.
  - apply (proj1 (stored_column_types_cover_the_columns Runtime.lib
                    sample_df "csv" "test.csv" sample_table_data "Age"
                    ltac:(vm_compute; reflexivity))).
    vm_compute. auto.
  - apply (proj2 (stored_column_types_cover_the_columns Runtime.lib
                    sample_df "csv" "test.csv" sample_table_data "Bonus"
                    ltac:(vm_compute; reflexivity))).
    vm_compute. intuition discriminate.
Defined.

(** X12: when [prepare_table_data] returns the table to store, then
    for any selected column the operator dropdown is enabled and offers
    four operators, and [validate_filter_operator] accepts each of them
    for the type that [apply_column_filter] and [add_filter_condition]
    look up for the column. *)
Theorem dropdown_operators_pass_validation
    (lib : PyLib) (df : DataFrame) (fmt name : string) (td : TableData)
    (col : string) :
  prepare_table_data lib df fmt name = Ok td ->
  col <> EmptyString ->
  exists ops,
    update_filter_controls (Some col) (Some td) = (ops, false, false)
    /\ length ops = 4%nat
    /\ forall op,
         In op (map snd ops) ->
         validate_filter_operator op
           (default "text" (column_types td !! col))
         = true.
Proof.
  intros Htd Hcol. unfold update_filter_controls.
  destruct (col =? EmptyString) eqn:E;
    [apply String.eqb_eq in E; contradiction|].
  eexists. split; [reflexivity|]. split.
  - apply four_operators_per_type.
    eapply stored_type_name, Htd.
  - intros op. apply offered_operator_valid.
Qed.

Lemma dropdown_operators_pass_validation_witness :
  exists ops,
    update_filter_controls (Some "Age") (Some sample_table_data)
    = (ops, false, false)
    /\ length ops = 4%nat
    /\ forall op,
         In op (map snd ops) ->
         validate_filter_operator op
           (default "text" (column_types sample_table_data !! "Age"))
         = true.
Proof.
  apply (dropdown_operators_pass_validation Runtime.lib sample_df
           "csv" "test.csv" sample_table_data "Age").
  - vm_compute. reflexivity.
  - discriminate.
Defined.

(** ** What the upload stores: [prepare_table_data] *)

(** X13: for a parsed frame with distinct column names, one cell per
    column in each row and cells that are texts, missing markers and
    exact numbers, [prepare_table_data] returns a table: it renames
    nothing, its counts are those of the stored rows and names, the
    stored rows carry the stored names as keys and no NaN, reading them
    back and writing them again returns them, and the frame read back
    has the stored columns as soon as there is a row. *)
Theorem prepared_table_is_consistent
    (lib : PyLib) (df : DataFrame) (fmt name : string) :
  well_formed df ->
  plain_cells df = true ->
  exists td,
    prepare_table_data lib df fmt name = Ok td
    /\ column_names td = df_columns df
    /\ row_count td = length (dataframe_json td)
    /\ column_count td = length (column_names td)
    /\ serialised (column_names td) (dataframe_json td)
    /\ convert_to_json_format (from_dict (dataframe_json td))
       = dataframe_json td
    /\ (df_rows df <> [] ->
        df_columns (from_dict (dataframe_json td)) = column_names td).
Proof.
  intros Hwf _. pose proof Hwf as [Hnd Hrows].
  pose proof (handle_duplicate_columns_distinct df Hnd) as Hdf.
  unfold prepare_table_data. rewrite Hdf.
  destruct (detect_column_types_distinct lib df Hnd) as (types & -> & _).
  simpl. eexists. split; [reflexivity|].
  cbn [column_names row_count column_count dataframe_json].
  pose proof (convert_to_json_format_serialised df Hwf) as Hs.
  split; [reflexivity|]. split.
  { unfold convert_to_json_format, to_dict_records, len.
    rewrite length_map. unfold replace_nan_with_none. cbn [df_rows].
    rewrite length_map. reflexivity. }
  split; [reflexivity|]. split; [exact Hs|]. split.
  - apply (reserialise_serialised (df_columns df)); assumption.
  - intros Hne. apply from_dict_columns; [exact Hnd|exact Hs|].
    rewrite (convert_to_json_format_rows df Hwf).
    destruct (df_rows df); [contradiction|discriminate].
Qed.

Lemma prepared_table_is_consistent_witness :
  exists td,
    prepare_table_data Runtime.lib sample_df "csv" "test.csv" = Ok td
    /\ column_names td = df_columns sample_df
    /\ row_count td = length (dataframe_json td)
    /\ column_count td = length (column_names td)
    /\ serialised (column_names td) (dataframe_json td)
    /\ convert_to_json_format (from_dict (dataframe_json td))
       = dataframe_json td
    /\ (df_rows sample_df <> [] ->
        df_columns (from_dict (dataframe_json td)) = column_names td).
Proof.
  apply (prepared_table_is_consistent Runtime.lib sample_df "csv" "test.csv").
  - split.
    + repeat constructor; simpl; intuition discriminate.
    + repeat constructor.
  - vm_compute. reflexivity.
Defined.

(** ** A [between] condition read back from the store *)

Lemma json_value_not_tuple (v : pyval) : is_tuple (json_value v) = false.
Proof. destruct v; reflexivity. Qed.

Lemma try_convert_not_tuple
    (conv : scalar -> result scalar) (v : pyval) :
  is_tuple v = false -> is_tuple (try_convert conv v) = false.
Proof.
  unfold try_convert, convert_value. destruct v as [x|l|l]; simpl; intros H.
  - destruct (conv x); reflexivity.
  - destruct (mapM conv l); reflexivity.
  - discriminate.
Qed.

Lemma in_omap {A B} (f : A -> option B) (l : list A) (x : A) (y : B) :
  In x l -> f x = Some y -> In y (omap f l).
Proof.
  induction l as [|a l IH]; simpl; [contradiction|].
  intros [->|H] E.
  - rewrite E. simpl. auto.
  - destruct (f a); simpl; auto.
Qed.

Lemma map_const_false {A} (l : list A) :
  map (fun _ => false) l = repeat false (length l).
Proof. induction l as [|x l IH]; simpl; [reflexivity|]. rewrite IH. reflexivity. Qed.

(** On a column the frame has, [between] with a value that is not a
    tuple gives the mask that keeps no row. *)
Lemma between_not_tuple_mask
    (lib : PyLib) (df : DataFrame) (c : Condition) (col : string) :
  column_name c = Some col ->
  col <> EmptyString ->
  has_column df col = true ->
  operator c = Some "between" ->
  is_tuple (value c) = false ->
  condition_mask lib df c = Ok (Some (repeat false (len df))).
Proof.
  intros Hc Hne Hhas Hop Hv. unfold condition_mask. rewrite Hc, Hop.
  destruct (col =? EmptyString) eqn:E;
    [apply String.eqb_eq in E; contradiction|].
  unfold apply_single_filter. rewrite Hhas. simpl negb. cbv iota.
  rewrite between_without_pair_key
    by (destruct (value c); [reflexivity|reflexivity|discriminate]).
  simpl. rewrite getitem_no_row.
  destruct df as [cols dts [|r rows]]; [reflexivity|].
  unfold len, index, no_rows, index_isin.
  cbn [df_rows length Nat.eqb map existsb].
  rewrite map_const_false, length_map. reflexivity.
Qed.

Lemma mask_and_false_l (n : nat) : forall m,
  length m = n -> mask_and (repeat false n) m = repeat false n.
Proof.
  induction n as [|n IH]; intros [|b m] H; simpl in *; try discriminate;
    [reflexivity|].
  rewrite IH by lia. reflexivity.
Qed.

Lemma fold_mask_and_false (n : nat) (ms : list Mask) :
  Forall (fun m => length m = n) ms ->
  fold_left mask_and ms (repeat false n) = repeat false n.
Proof.
  induction 1 as [|m ms Hm _ IH]; simpl; [reflexivity|].
  rewrite mask_and_false_l by exact Hm. exact IH.
Qed.

Lemma forall_lengths_without (n : nat) (a b : list Mask) (m : Mask) :
  Forall (fun x => length x = n) (a ++ m :: b) ->
  length m = n /\ Forall (fun x => length x = n) (a ++ b).
Proof.
  intros H. rewrite List.Forall_app in H. destruct H as [Ha Hb].
  apply List.Forall_cons_iff in Hb. destruct Hb as [Hm Hb].
  split; [exact Hm|]. apply List.Forall_app. split; assumption.
Qed.

(** X14: a [between] condition that went through the filter-set store
    selects nothing.  The store keeps JSON, so the pair of ends is read
    back as a list, and [apply_single_filter] takes a list for "not a
    pair": when [_apply_filter_set_to_df] reapplies a stored filter set
    under AND that has a [between] condition on a column of the table,
    the result has no row. *)
Theorem stored_between_selects_nothing
    (lib : PyLib) (df r : DataFrame) (fs : FilterSet)
    (types : gmap string string) (cond : Condition) (col : string) :
  In cond (conditions fs) ->
  column_name cond = Some col ->
  col <> EmptyString ->
  has_column df col = true ->
  operator cond = Some "between" ->
  upper (get_logic_operator (store fs)) <> "OR" ->
  _apply_filter_set_to_df lib df (Some (store fs)) types = Ok r ->
  df_rows r = [].
Proof.
  intros Hin Hc Hne Hhas Hop Hlogic.
  assert (Hcol : (col =? EmptyString) = false).
  { destruct (col =? EmptyString) eqn:E; [|reflexivity].
    apply String.eqb_eq in E. contradiction. }
  destruct (typed_condition lib types (json_condition cond)) as [tc|] eqn:Etc;
    [|unfold typed_condition in Etc; cbn [json_condition column_name operator]
        in Etc; rewrite Hc, Hop in Etc; simpl in Etc; rewrite Hcol in Etc;
      discriminate].
  assert (Htc : column_name tc = Some col /\ operator tc = Some "between"
                /\ is_tuple (value tc) = false).
  { unfold typed_condition in Etc.
    cbn [json_condition column_name operator value data_type] in Etc.
    rewrite Hc, Hop in Etc. simpl in Etc. rewrite Hcol in Etc. simpl in Etc.
    injection Etc as <-. cbn [column_name operator value].
    split; [reflexivity|]. split; [reflexivity|].
    repeat match goal with
           | |- context [if ?b then _ else _] => destruct b
           end;
      try apply try_convert_not_tuple; apply json_value_not_tuple. }
  destruct Htc as (Htc1 & Htc2 & Htc3).
  assert (Hin' : In tc (omap (typed_condition lib types)
                          (conditions (store fs)))).
  { apply (in_omap _ _ (json_condition cond)); [|exact Etc].
    unfold store. cbn [conditions]. apply in_map. exact Hin. }
  unfold _apply_filter_set_to_df.
  remember (conditions (store fs)) as conds eqn:Ecs.
  destruct conds as [|c0 cs]; [destruct Hin'|].
  cbv beta iota zeta.
  remember (omap (typed_condition lib types) (c0 :: cs)) as tcs eqn:Etcs.
  destruct tcs as [|t0 ts]; [destruct Hin'|].
  cbv beta iota.
  apply in_split in Hin' as (l1 & l2 & Hsplit). rewrite Hsplit.
  clear Hsplit Etcs t0 ts Ecs c0 cs.
  unfold apply_multiple_filters.
  destruct (l1 ++ tc :: l2)%list as [|c0 l] eqn:El;
    [destruct l1; discriminate|]. rewrite <- El. clear El c0 l.
  destruct (10 <? _)%nat; [discriminate|].
  destruct (collect_masks lib df (l1 ++ tc :: l2)) as [ms|e] eqn:E;
    [|discriminate]. simpl.
  pose proof (collect_masks_lengths _ _ _ _ E) as Hlen.
  destruct (collect_masks_split _ _ _ _ _ _ _
              (between_not_tuple_mask lib df tc col Htc1 Hne Hhas Htc2 Htc3) E)
    as (a & b & _ & ->).
  rewrite (combine_masks_permutation _ _ (repeat false (len df) :: a ++ b))
    by (symmetry; apply Permutation_middle).
  unfold combine_masks.
  destruct (upper (get_logic_operator (store fs)) =? "OR") eqn:Eor;
    [apply String.eqb_eq in Eor; contradiction|].
  rewrite fold_mask_and_false
    by (apply (forall_lengths_without _ _ _ _ Hlen)).
  intros [= <-]. unfold df_select. cbn [df_rows].
  apply select_repeat_false.
Qed.

Lemma stored_between_selects_nothing_witness :
  result_count between_filter_set = Some 2%nat
  /\ df_rows (no_rows (from_dict (dataframe_json sample_table_data))) = [].
Proof.
  split; [vm_compute; reflexivity|].
  apply (stored_between_selects_nothing Runtime.lib
           (from_dict (dataframe_json sample_table_data)) _
           between_filter_set (column_types sample_table_data)
           (new_condition "Amount" "between"
              (PTuple [VStr "1500"; VStr "2500"]) "numeric")
           "Amount").
  - vm_compute. left. reflexivity.
  - reflexivity.
  - discriminate.
  - vm_compute. reflexivity.
  - reflexivity.
  - vm_compute. discriminate.
  - vm_compute. reflexivity.
Defined.

(** ** Dropping a condition *)

Lemma mask_le_and_mono (x y : Mask) :
  mask_le x y -> forall z, mask_le (mask_and x z) (mask_and y z).
Proof.
  induction 1 as [|u v x y Huv _ IH]; intros [|w z]; simpl; try constructor.
  - intros H. apply andb_true_iff in H as [Hu Hw].
    rewrite (Huv Hu), Hw. reflexivity.
  - apply IH.
Qed.

Lemma mask_le_or_mono (x y : Mask) :
  mask_le x y -> forall z, mask_le (mask_or x z) (mask_or y z).
Proof.
  induction 1 as [|u v x y Huv _ IH]; intros [|w z]; simpl; try constructor.
  - intros H. apply orb_true_iff in H as [Hu|Hw].
    + rewrite (Huv Hu). reflexivity.
    + rewrite Hw. apply orb_true_r.
  - apply IH.
Qed.

Lemma fold_mask_and_mono (l : list Mask) : forall x y,
  mask_le x y -> mask_le (fold_left mask_and l x) (fold_left mask_and l y).
Proof.
  induction l as [|z l IH]; intros x y H; simpl; [exact H|].
  apply IH, mask_le_and_mono, H.
Qed.

Lemma fold_mask_or_mono (l : list Mask) : forall x y,
  mask_le x y -> mask_le (fold_left mask_or l x) (fold_left mask_or l y).
Proof.
  induction l as [|z l IH]; intros x y H; simpl; [exact H|].
  apply IH, mask_le_or_mono, H.
Qed.

Lemma mask_and_below (m : Mask) : forall m0,
  length m = length m0 -> mask_le (mask_and m m0) m0.
Proof.
  induction m as [|u m IH]; intros [|v m0] H; simpl in *; try discriminate;
    constructor.
  - intros E. apply andb_true_iff in E. apply E.
  - apply IH. lia.
Qed.

Lemma mask_or_above (m : Mask) : forall m0,
  length m = length m0 -> mask_le m0 (mask_or m m0).
Proof.
  induction m as [|u m IH]; intros [|v m0] H; simpl in *; try discriminate;
    constructor.
  - intros ->. apply orb_true_r.
  - apply IH. lia.
Qed.

Lemma collect_masks_without
    (lib : PyLib) (df : DataFrame) (l1 l2 : list Condition) (c : Condition)
    (ms : list Mask) :
  collect_masks lib df (l1 ++ c :: l2) = Ok ms ->
  exists a b,
    collect_masks lib df (l1 ++ l2) = Ok (a ++ b)%list
    /\ (ms = (a ++ b)%list \/ exists m, ms = (a ++ m :: b)%list).
Proof.
  rewrite !collect_masks_app. simpl.
  destruct (collect_masks lib df l1) as [a|e]; [|discriminate]. simpl.
  destruct (condition_mask lib df c) as [om|e]; [|discriminate]. simpl.
  destruct (collect_masks lib df l2) as [b|e]; [|discriminate]. simpl.
  intros [= <-]. exists a, b. split; [reflexivity|].
  destruct om as [m|]; [right; exists m|left]; reflexivity.
Qed.

Lemma evaluated_mask
    (lib : PyLib) (df : DataFrame) (c : Condition) :
  evaluated c = true -> condition_mask lib df c <> Ok None.
Proof.
  unfold evaluated, condition_mask.
  destruct (column_name c) as [col|]; [|discriminate].
  destruct (operator c) as [op|]; [|discriminate].
  destruct (col =? EmptyString); [discriminate|]. intros _.
  destruct (apply_single_filter _ _ _ _ _ _); discriminate.
Qed.

Lemma collect_masks_evaluated
    (lib : PyLib) (df : DataFrame) (conds : list Condition) : forall ms,
  existsb evaluated conds = true ->
  collect_masks lib df conds = Ok ms -> ms <> [].
Proof.
  induction conds as [|c conds IH]; intros ms; simpl; [discriminate|].
  intros Hex.
  destruct (condition_mask lib df c) as [om|e] eqn:Ec; [|discriminate]. simpl.
  destruct (collect_masks lib df conds) as [ms'|e]; [|discriminate]. simpl.
  intros [= <-]. destruct om as [m|]; [discriminate|].
  destruct (evaluated c) eqn:Eev.
  - exfalso. exact (evaluated_mask lib df c Eev Ec).
  - apply (IH ms'); [exact Hex|reflexivity].
Qed.

Lemma apply_multiple_filters_select
    (lib : PyLib) (df r : DataFrame) (conds : list Condition)
    (logic : string) :
  apply_multiple_filters lib df conds logic = Ok r ->
  exists m, r = df_select df m.
Proof.
  unfold apply_multiple_filters. destruct conds as [|c conds].
  - intros [= <-]. exists (repeat true (len df)). symmetry.
    apply df_select_all.
  - destruct (10 <? length (c :: conds))%nat; [discriminate|].
    destruct (collect_masks lib df (c :: conds)) as [ms|e]; [|discriminate].
    simpl. destruct (combine_masks logic ms) as [m|].
    + intros [= <-]. exists m. reflexivity.
    + intros [= <-]. exists (repeat true (len df)). symmetry.
      apply df_select_all.
Qed.

(** Under AND, the rows kept with a condition are kept without it. *)
Lemma and_without_condition
    (lib : PyLib) (df r : DataFrame) (l1 l2 : list Condition) (c : Condition)
    (logic : string) :
  upper logic <> "OR" ->
  apply_multiple_filters lib df (l1 ++ c :: l2) logic = Ok r ->
  exists r',
    apply_multiple_filters lib df (l1 ++ l2) logic = Ok r'
    /\ sublist (df_rows r) (df_rows r').
Proof.
  intros Hand. unfold apply_multiple_filters.
  destruct (l1 ++ c :: l2)%list as [|c0 l] eqn:El;
    [destruct l1; discriminate|]. rewrite <- El. clear El c0 l.
  destruct (10 <? length (l1 ++ c :: l2))%nat eqn:Hten; [discriminate|].
  destruct (collect_masks lib df (l1 ++ c :: l2)) as [ms|e] eqn:E;
    [|discriminate]. simpl.
  pose proof (collect_masks_lengths _ _ _ _ E) as Hlen.
  destruct (collect_masks_without _ _ _ _ _ _ E) as (a & b & E' & Hms).
  assert (Hten' : (10 <? length (l1 ++ l2))%nat = false).
  { apply Nat.ltb_ge. apply Nat.ltb_ge in Hten.
    rewrite length_app in *. simpl in Hten. lia. }
  assert (Hgoal : forall r0,
    match combine_masks logic ms with
    | Some m => Ok (df_select df m)
    | None => Ok df
    end = Ok r0 ->
    exists r',
      match combine_masks logic (a ++ b) with
      | Some m => Ok (df_select df m)
      | None => Ok df
      end = Ok r' /\ sublist (df_rows r0) (df_rows r')).
  { intros r0. destruct Hms as [->|[m ->]].
    - intros H. exists r0. split; [exact H|reflexivity].
    - rewrite (combine_masks_permutation logic _ (m :: a ++ b))
        by (symmetry; apply Permutation_middle).
      destruct (forall_lengths_without _ _ _ _ Hlen) as [Hm Hab].
      unfold combine_masks.
      destruct (upper logic =? "OR") eqn:Eor;
        [apply String.eqb_eq in Eor; contradiction|].
      destruct (a ++ b)%list as [|m0 rest]; simpl.
      + intros [= <-]. exists df. split; [reflexivity|]. apply select_sublist.
      + intros [= <-]. eexists. split; [reflexivity|].
        unfold df_select. cbn [df_rows]. apply select_mask_le.
        apply fold_mask_and_mono, mask_and_below.
        apply List.Forall_cons_iff in Hab. destruct Hab as [H0 _]. lia. }
  intros Hr. destruct (Hgoal r Hr) as (r' & Hr' & Hsub).
  exists r'. split; [|exact Hsub].
  destruct (l1 ++ l2)%list as [|c0 l] eqn:El.
  - simpl in E'. injection E' as E'. symmetry in E'.
    apply app_eq_nil in E' as [-> ->]. exact Hr'.
  - cbv beta iota. rewrite Hten', E'. simpl. exact Hr'.
Qed.

(** X15: under AND (any logic operator other than OR), dropping a
    condition can only add rows: if the conditions evaluate with it,
    they evaluate without it, to a frame with the same columns, and
    every row kept before is kept after, in the same order. *)
Theorem dropping_a_condition_under_and_keeps_rows
    (lib : PyLib) (df r : DataFrame) (l1 l2 : list Condition) (c : Condition)
    (logic : string) :
  upper logic <> "OR" ->
  apply_multiple_filters lib df (l1 ++ c :: l2) logic = Ok r ->
  exists r',
    apply_multiple_filters lib df (l1 ++ l2) logic = Ok r'
    /\ df_columns r = df_columns r'
    /\ sublist (df_rows r) (df_rows r').
Proof.
  intros Hand Hr.
  destruct (and_without_condition _ _ _ _ _ _ _ Hand Hr) as (r' & Hr' & Hsub).
  exists r'. split; [exact Hr'|]. split; [|exact Hsub].
  destruct (apply_multiple_filters_select _ _ _ _ _ Hr) as [m ->].
  destruct (apply_multiple_filters_select _ _ _ _ _ Hr') as [m' ->].
  reflexivity.
Qed.

Lemma dropping_a_condition_under_and_keeps_rows_witness :
  exists r',
    apply_multiple_filters Runtime.lib sample_df
      [new_condition "City" "equals" (Scalar (VStr "Tokyo")) "text"] "AND"
    = Ok r'
    /\ df_columns sample_df = df_columns r'
    /\ sublist [alice; charlie] (df_rows r').
Proof.
  apply (dropping_a_condition_under_and_keeps_rows Runtime.lib sample_df
           (df_select sample_df [true; false; true; false; false])
           []
           [new_condition "City" "equals" (Scalar (VStr "Tokyo")) "text"]
           (new_condition "Status" "equals" (Scalar (VStr "Active")) "text")
           "AND").
  - discriminate.
  - reflexivity.
Defined.

(** X16: under OR, dropping a condition can only remove rows, as long
    as a condition that is evaluated remains: every row kept after was
    kept before. *)
Theorem dropping_a_condition_under_or_loses_rows
    (lib : PyLib) (df r : DataFrame) (l1 l2 : list Condition) (c : Condition)
    (logic : string) :
  upper logic = "OR" ->
  existsb evaluated (l1 ++ l2) = true ->
  apply_multiple_filters lib df (l1 ++ c :: l2) logic = Ok r ->
  exists r',
    apply_multiple_filters lib df (l1 ++ l2) logic = Ok r'
    /\ sublist (df_rows r') (df_rows r).
Proof.
  intros Hor Hev. unfold apply_multiple_filters.
  destruct (l1 ++ c :: l2)%list as [|c0 l] eqn:El;
    [destruct l1; discriminate|]. rewrite <- El. clear El c0 l.
  destruct (10 <? length (l1 ++ c :: l2))%nat eqn:Hten; [discriminate|].
  destruct (collect_masks lib df (l1 ++ c :: l2)) as [ms|e] eqn:E;
    [|discriminate]. simpl.
  pose proof (collect_masks_lengths _ _ _ _ E) as Hlen.
  destruct (collect_masks_without _ _ _ _ _ _ E) as (a & b & E' & Hms).
  pose proof (collect_masks_evaluated _ _ _ _ Hev E') as Hne.
  assert (Hten' : (10 <? length (l1 ++ l2))%nat = false).
  { apply Nat.ltb_ge. apply Nat.ltb_ge in Hten.
    rewrite length_app in *. simpl in Hten. lia. }
  assert (Hgoal : forall r0,
    match combine_masks logic ms with
    | Some m => Ok (df_select df m)
    | None => Ok df
    end = Ok r0 ->
    exists r',
      match combine_masks logic (a ++ b) with
      | Some m => Ok (df_select df m)
      | None => Ok df
      end = Ok r' /\ sublist (df_rows r') (df_rows r0)).
  { intros r0. destruct Hms as [->|[m ->]].
    - intros H. exists r0. split; [exact H|reflexivity].
    - rewrite (combine_masks_permutation logic _ (m :: a ++ b))
        by (symmetry; apply Permutation_middle).
      destruct (forall_lengths_without _ _ _ _ Hlen) as [Hm Hab].
      unfold combine_masks. rewrite Hor. simpl.
      destruct (a ++ b)%list as [|m0 rest]; [contradiction|]. simpl.
      intros [= <-]. eexists. split; [reflexivity|].
      unfold df_select. cbn [df_rows]. apply select_mask_le.
      apply fold_mask_or_mono, mask_or_above.
      apply List.Forall_cons_iff in Hab. destruct Hab as [H0 _]. lia. }
  intros Hr. destruct (Hgoal r Hr) as (r' & Hr' & Hsub).
  exists r'. split; [|exact Hsub].
  destruct (l1 ++ l2)%list as [|c0 l] eqn:El; [discriminate|].
  cbv beta iota. rewrite Hten', E'. simpl. exact Hr'.
Qed.

Lemma dropping_a_condition_under_or_loses_rows_witness :
  exists r',
    apply_multiple_filters Runtime.lib sample_df
      [new_condition "City" "equals" (Scalar (VStr "Tokyo")) "text"] "OR"
    = Ok r'
    /\ sublist (df_rows r') [alice; charlie; david].
Proof.
  apply (dropping_a_condition_under_or_loses_rows Runtime.lib sample_df
           (df_select sample_df [true; false; true; true; false])
           []
           [new_condition "City" "equals" (Scalar (VStr "Tokyo")) "text"]
           (new_condition "Status" "equals" (Scalar (VStr "Active")) "text")
           "OR").
  - reflexivity.
  - reflexivity.
  - reflexivity.
Defined.

(** ** The table shown and the table exported *)

Lemma apply_filter_set_select
    (lib : PyLib) (df r : DataFrame) (fs : option FilterSet)
    (types : gmap string string) :
  _apply_filter_set_to_df lib df fs types = Ok r ->
  exists m, r = df_select df m.
Proof.
  assert (Hdf : exists m, df = df_select df m)
    by (exists (repeat true (len df)); symmetry; apply df_select_all).
  unfold _apply_filter_set_to_df.
  destruct fs as [fs|]; [|intros [= <-]; exact Hdf].
  destruct (conditions fs); [intros [= <-]; exact Hdf|].
  destruct (omap _ _); [intros [= <-]; exact Hdf|].
  apply apply_multiple_filters_select.
Qed.

Lemma convert_to_json_format_length (df : DataFrame) :
  length (convert_to_json_format df) = len df.
Proof.
  unfold convert_to_json_format, to_dict_records, replace_nan_with_none, len.
  cbn [df_rows]. rewrite !length_map. reflexivity.
Qed.

Lemma filter_sublist {A} (p : A -> bool) (l : list A) :
  sublist (List.filter p l) l.
Proof.
  induction l as [|x l IH]; simpl; [constructor|].
  destruct (p x); [apply sublist_skip|apply sublist_cons]; exact IH.
Qed.

(** Selecting by the selected names selects the same names. *)
Lemma filter_by_filtered (p : string -> bool) (l : list string) :
  List.filter (fun c => str_in c (List.filter p l)) l = List.filter p l.
Proof.
  apply filter_ext_in. intros c Hc.
  destruct (p c) eqn:E.
  - apply str_in_In. apply filter_In. auto.
  - destruct (str_in c (List.filter p l)) eqn:E'; [|reflexivity].
    apply str_in_In in E'. apply filter_In in E' as [_ E'].
    rewrite E in E'. discriminate.
Qed.

Lemma filter_by_itself (l : list string) :
  List.filter (fun c => str_in c l) l = l.
Proof.
  rewrite (filter_ext_in (fun c => str_in c l) (fun _ => true)).
  - induction l as [|x l IH]; simpl; [reflexivity|]. rewrite IH. reflexivity.
  - intros c Hc. apply str_in_In. exact Hc.
Qed.

(** The selection [update_visible_columns] stores, for the table's
    columns [all] and the selection [sel] made. *)
Lemma effective_selection_again (all : list string)
    (sel : option (list string)) :
  let eff :=
    if no_selection sel then all
    else List.filter (fun c => str_in c (default [] sel)) all in
  List.filter (fun c => str_in c eff) all = eff.
Proof.
  cbv zeta. destruct (no_selection sel).
  - apply filter_by_itself.
  - apply filter_by_filtered.
Qed.

(** X17: what [update_visible_columns] stores and shows.  The stored
    selection is the table's columns in the table's order, restricted to
    the names selected (all of them without a selection); the table
    shows the stored selection, and all columns when the stored
    selection is empty; the banner is there exactly when no row is. *)
Theorem shown_columns_follow_the_selection
    (lib : PyLib) (sel : option (list string)) (td : TableData)
    (fs : option FilterSet) (eff : list string) (cont : TableContainer) :
  update_visible_columns lib sel (Some td) fs = Ok (Some (eff, cont)) ->
  sublist eff (column_names td)
  /\ (forall c,
        In c eff <->
        In c (column_names td)
        /\ (no_selection sel = true \/ In c (default [] sel)))
  /\ dt_columns (table cont)
     = map (fun c => (c, c))
           (match eff with [] => column_names td | _ => eff end)
  /\ (banner cont = true <-> dt_data (table cont) = []).
Proof.
  unfold update_visible_columns.
  destruct (_apply_filter_set_to_df lib _ fs _) as [filtered|e];
    [|discriminate].
  simpl. intros H. injection H as <- <-.
  cbn [table banner _wrap_table_with_empty_state create_table_component
       dt_columns dt_data].
  split; [|split; [|split]].
  - destruct (no_selection sel); [reflexivity|apply filter_sublist].
  - intros c. destruct (no_selection sel).
    + split; [intros H; auto|intros [H _]; exact H].
    + rewrite filter_In, str_in_In. split.
      * intros [H1 H2]. auto.
      * intros [H1 [H2|H2]]; [discriminate|auto].
  - pose proof (effective_selection_again (column_names td) sel) as Heff.
    cbv zeta in Heff. unfold _select_table_columns.
    destruct (if no_selection sel then column_names td
              else List.filter (fun c => str_in c (default [] sel))
                     (column_names td)) as [|c0 eff0] eqn:E.
    + reflexivity.
    + cbn [no_selection default from_option id]. rewrite Heff. reflexivity.
  - rewrite Nat.eqb_eq, <- convert_to_json_format_length.
    destruct (convert_to_json_format filtered); simpl; split;
      try reflexivity; discriminate.
Qed.

Lemma shown_columns_follow_the_selection_witness :
  exists cont,
    update_visible_columns Runtime.lib (Some ["City"; "Bonus"; "Name"])
      (Some sample_table_data) None
    = Ok (Some (["Name"; "City"], cont))
    /\ dt_columns (table cont) = [("Name", "Name"); ("City", "City")].
Proof.
  eexists. split; [vm_compute; reflexivity|].
  apply (shown_columns_follow_the_selection Runtime.lib
           (Some ["City"; "Bonus"; "Name"]) sample_table_data None
           ["Name"; "City"]).
  vm_compute. reflexivity.
Defined.

Lemma positions_of_In (labels cols : list string) :
  (forall c, In c labels -> In c cols) ->
  exists ps, positions_of labels cols = Some ps.
Proof.
  induction labels as [|c labels IH]; intros H; simpl; [eauto|].
  destruct (position_In c cols) as [i ->]; [apply H; simpl; auto|].
  destruct IH as [ps ->]; [intros k Hk; apply H; simpl; auto|]. eauto.
Qed.

(** X18: the export writes what the table shows.  For a stored table
    with distinct column names, at least one row and rows that carry
    the column names as keys, whenever [update_visible_columns] shows a
    table and stores a selection, [export_filtered_csv] with that stored
    selection and the same filter set exports a frame: its columns are
    the columns shown, in the same order, and it has as many rows as
    the table shown. *)
Theorem export_writes_what_is_shown
    (lib : PyLib) (sel : option (list string)) (td : TableData)
    (fs : option FilterSet) (eff : list string) (cont : TableContainer)
    (n : nat) :
  List.NoDup (column_names td) ->
  serialised (column_names td) (dataframe_json td) ->
  dataframe_json td <> [] ->
  update_visible_columns lib sel (Some td) fs = Ok (Some (eff, cont)) ->
  exists out,
    export_filtered_csv lib (Some (S n)) (Some td) fs (Some eff)
    = ExportFrame out
    /\ map (fun c => (c, c)) (df_columns out) = dt_columns (table cont)
    /\ length (df_rows out) = length (dt_data (table cont)).
Proof.
  intros Hnd Hs Hne.
  pose proof (from_dict_columns _ _ Hnd Hs Hne) as Hcols.
  unfold update_visible_columns, export_filtered_csv.
  destruct (_apply_filter_set_to_df lib _ fs _) as [filtered|e] eqn:Ef;
    [|discriminate].
  destruct (apply_filter_set_select _ _ _ _ _ Ef) as [m Hm].
  assert (Hfc : df_columns filtered = column_names td)
    by (rewrite Hm; exact Hcols).
  simpl. intros H. injection H as <- <-.
  cbn [table _wrap_table_with_empty_state create_table_component
       dt_columns dt_data].
  rewrite convert_to_json_format_length.
  pose proof (effective_selection_again (column_names td) sel) as Heff.
  cbv zeta in Heff. unfold _select_table_columns.
  destruct (if no_selection sel then column_names td
            else List.filter (fun c => str_in c (default [] sel))
                   (column_names td)) as [|c0 eff0] eqn:E.
  - cbn [no_selection]. eexists. split; [reflexivity|].
    rewrite Hfc. split; reflexivity.
  - cbn [no_selection default from_option id]. rewrite Heff.
    destruct (positions_of_In (c0 :: eff0) (df_columns filtered))
      as [ps Hps].
    { intros c Hc. rewrite Hfc. rewrite <- Heff in Hc.
      apply filter_In in Hc. apply Hc. }
    unfold loc_columns. rewrite Hps. eexists. split; [reflexivity|].
    cbn [df_columns df_rows]. rewrite length_map. split; reflexivity.
Qed.

Lemma export_writes_what_is_shown_witness :
  exists out,
    export_filtered_csv Runtime.lib (Some 1%nat) (Some sample_table_data)
      (Some city_filter_set) (Some ["Name"; "City"])
    = ExportFrame out
    /\ map (fun c => (c, c)) (df_columns out)
       = [("Name", "Name"); ("City", "City")]
    /\ length (df_rows out) = 2%nat.
Proof.
  apply (export_writes_what_is_shown Runtime.lib
           (Some ["City"; "Bonus"; "Name"]) sample_table_data
           (Some city_filter_set) ["Name"; "City"]
           (_wrap_table_with_empty_state
              (create_table_component
                 (convert_to_json_format
                    (df_select sample_df [true; false; true; false; false]))
                 [("Name", "Name"); ("City", "City")] false) 2) 0).
  - vm_compute. repeat constructor; simpl; intuition discriminate.
  - vm_compute. repeat constructor.
  - vm_compute. discriminate.
  - vm_compute. reflexivity.
Defined.

(** X19: a table stored without rows cannot be exported with a visible
    column.  The frame read back from no rows has no columns, so the
    column selection of [export_filtered_csv] finds no label: the
    callback ends in the [KeyError] (or in an exception of the filters),
    never in a download.  After the upload of a file with a header and
    no rows every column is visible. *)
Theorem export_of_table_without_rows_fails
    (lib : PyLib) (td : TableData) (fs : option FilterSet)
    (visible : list string) (c : string) (n : nat) :
  dataframe_json td = [] ->
  In c (column_names td) ->
  In c visible ->
  export_filtered_csv lib (Some (S n)) (Some td) fs (Some visible)
  = ExportKeyError
      (List.filter (fun k => str_in k visible) (column_names td))
  \/ exists e,
       export_filtered_csv lib (Some (S n)) (Some td) fs (Some visible)
       = ExportRaise e.
Proof.
  intros Hjson Hc Hv. unfold export_filtered_csv. rewrite Hjson.
  destruct (_apply_filter_set_to_df lib _ fs _) as [filtered|e] eqn:Ef;
    [|right; eauto].
  left. destruct (apply_filter_set_select _ _ _ _ _ Ef) as [m Hm].
  assert (Hfc : df_columns filtered = []) by (rewrite Hm; reflexivity).
  destruct visible as [|v visible]; [contradiction|].
  cbn [no_selection default from_option id].
  assert (Hin : In c (List.filter (fun k => str_in k (v :: visible))
                        (column_names td))).
  { apply filter_In. split; [exact Hc|]. apply str_in_In. exact Hv. }
  destruct (List.filter _ (column_names td)) as [|k keep];
    [contradiction|].
  unfold loc_columns. rewrite Hfc. reflexivity.
Qed.

Lemma export_of_table_without_rows_fails_witness :
  export_filtered_csv Runtime.lib (Some 1%nat)
    (Some header_only_table_data)
    None (Some ["Name"; "Age"; "Amount"; "Status"; "City"])
  = ExportKeyError ["Name"; "Age"; "Amount"; "Status"; "City"]
  \/ exists e,
       export_filtered_csv Runtime.lib (Some 1%nat)
         (Some header_only_table_data)
         None (Some ["Name"; "Age"; "Amount"; "Status"; "City"])
       = ExportRaise e.
Proof.
  apply (export_of_table_without_rows_fails Runtime.lib
           header_only_table_data
           None ["Name"; "Age"; "Amount"; "Status"; "City"] "Name" 0).
  - reflexivity.
  - vm_compute. left. reflexivity.
  - vm_compute. left. reflexivity.
Defined.

(** ** Removing conditions and clearing: [remove_filter_condition],
    [clear_filter] *)

Lemma pop_at_length {A} (i : nat) (l : list A) :
  (i < length l)%nat -> S (length (pop_at i l)) = length l.
Proof.
  intros H. unfold pop_at.
  rewrite length_app, firstn_length_le, length_skipn by lia. lia.
Qed.

Lemma pop_at_middle {A} (l1 l2 : list A) (x : A) :
  pop_at (length l1) (l1 ++ x :: l2) = (l1 ++ l2)%list.
Proof.
  unfold pop_at. induction l1 as [|a l1 IH]; simpl; [reflexivity|].
  f_equal. exact IH.
Qed.

Lemma split_at {A} (i : nat) (l : list A) :
  (i < length l)%nat ->
  exists l1 x l2, l = (l1 ++ x :: l2)%list /\ length l1 = i.
Proof.
  intros H. destruct (nth_error l i) as [x|] eqn:E.
  - apply nth_error_split in E as (l1 & l2 & -> & <-). eauto.
  - apply nth_error_None in E. lia.
Qed.

Lemma valid_index (i len : nat) :
  (i < len)%nat ->
  ((0 <=? Z.of_nat i)%Z && (Z.of_nat i <? Z.of_nat len)%Z) = true.
Proof.
  intros H. apply andb_true_iff. split.
  - apply Z.leb_le. lia.
  - apply Z.ltb_lt. lia.
Qed.

(** What a valid click on a remove button writes to the store. *)
Lemma remove_valid_index
    (lib : PyLib) (clicks : list (option nat)) (i : nat)
    (stored : option FilterSet) (table_data : option TableData)
    (visible : option (list string)) :
  any_clicked clicks = true ->
  (i < length (conditions (default empty_filter_set stored)))%nat ->
  exists fs',
    rm_filter_set
      (remove_filter_condition lib clicks (ButtonIndex (Z.of_nat i))
         stored table_data visible) = Some fs'
    /\ conditions fs'
       = pop_at i (conditions (default empty_filter_set stored))
    /\ logic_operator fs'
       = Some (get_logic_operator (default empty_filter_set stored))
    /\ rm_conditions_list
         (remove_filter_condition lib clicks (ButtonIndex (Z.of_nat i))
            stored table_data visible) = Some (conditions fs').
Proof.
  intros Hclick Hi. unfold remove_filter_condition.
  rewrite Hclick. cbn [negb]. cbv zeta.
  rewrite (valid_index _ _ Hi), Nat2Z.id.
  destruct (pop_at i (conditions (default empty_filter_set stored)));
    destruct table_data as [td|];
    try destruct (_apply_filter_set_to_df lib _ _ _);
    eexists; cbn [rm_filter_set rm_conditions_list conditions logic_operator];
    repeat split.
Qed.

(** X20: [remove_filter_condition] writes to the filter-set store
    exactly for a click on a button whose index is a position in the
    stored list, and then it writes the stored conditions without the
    one at that position, one fewer, in the same order, under the stored
    logic operator; the list displayed is the list written.  An index
    out of range, an id that does not parse and a call without a click
    leave the store as it is. *)
Theorem remove_writes_the_list_without_the_condition
    (lib : PyLib) (clicks : list (option nat)) (triggered : Trigger)
    (stored : option FilterSet) (table_data : option TableData)
    (visible : option (list string)) :
  (forall fs',
      rm_filter_set
        (remove_filter_condition lib clicks triggered stored table_data
           visible) = Some fs' ->
      exists i,
        any_clicked clicks = true
        /\ triggered = ButtonIndex (Z.of_nat i)
        /\ (i < length (conditions (default empty_filter_set stored)))%nat
        /\ conditions fs'
           = pop_at i (conditions (default empty_filter_set stored))
        /\ S (length (conditions fs'))
           = length (conditions (default empty_filter_set stored))
        /\ logic_operator fs'
           = Some (get_logic_operator (default empty_filter_set stored))
        /\ rm_conditions_list
             (remove_filter_condition lib clicks triggered stored table_data
                visible) = Some (conditions fs'))
  /\ (forall i,
         any_clicked clicks = true ->
         (i < length (conditions (default empty_filter_set stored)))%nat ->
         is_Some
           (rm_filter_set
              (remove_filter_condition lib clicks (ButtonIndex (Z.of_nat i))
                 stored table_data visible))).
Proof.
  split.
  - intros fs' H.
    assert (Hshape : any_clicked clicks = true
                     /\ exists i,
                          triggered = ButtonIndex (Z.of_nat i)
                          /\ (i < length (conditions
                                            (default empty_filter_set stored)))%nat).
    { unfold remove_filter_condition in H.
      destruct (any_clicked clicks); [|discriminate]. split; [reflexivity|].
      cbn [negb] in H. destruct triggered as [| |z]; try discriminate.
      cbv zeta in H.
      destruct ((0 <=? z)%Z && (z <? _)%Z) eqn:Hz; [|discriminate].
      apply andb_true_iff in Hz as [H0 H1].
      apply Z.leb_le in H0. apply Z.ltb_lt in H1.
      exists (Z.to_nat z). rewrite Z2Nat.id by exact H0. split; [reflexivity|].
      lia. }
    destruct Hshape as (Hclick & i & -> & Hi).
    destruct (remove_valid_index lib clicks i stored table_data visible
                Hclick Hi) as (fs0 & Hfs & Hc & Hl & Hlist).
    rewrite Hfs in H. injection H as <-.
    exists i. repeat split; try assumption.
    rewrite Hc. apply pop_at_length, Hi.
  - intros i Hclick Hi.
    destruct (remove_valid_index lib clicks i stored table_data visible
                Hclick Hi) as (fs0 & -> & _). eauto.
Qed.

Lemma remove_writes_the_list_without_the_condition_witness :
  is_Some
    (rm_filter_set
       (remove_filter_condition Runtime.lib [Some 1%nat] (ButtonIndex 0)
          (Some city_filter_set) (Some sample_table_data) None)).
Proof.
  apply (proj2 (remove_writes_the_list_without_the_condition Runtime.lib
                  [Some 1%nat] (ButtonIndex 0) (Some city_filter_set)
                  (Some sample_table_data) None) 0%nat).
  - reflexivity.
  - simpl. lia.
Defined.

Lemma add_accepted
    (column_input operator_input filter_value : option string)
    (filter_value_multi : option (list scalar))
    (filter_value2 : option string)
    (table_data : option TableData) (current_filter_set : option FilterSet)
    (c op : string) (total : nat) :
  add_status
    (add_filter_condition column_input operator_input filter_value
       filter_value_multi filter_value2 table_data current_filter_set)
  = ConditionAdded c op total ->
  exists cond,
    conditions
      (add_filter_set
         (add_filter_condition column_input operator_input filter_value
            filter_value_multi filter_value2 table_data current_filter_set))
    = (other_columns c
         (conditions (default empty_filter_set current_filter_set))
       ++ [cond])%list
    /\ total
       = S (length (other_columns c
                      (conditions
                         (default empty_filter_set current_filter_set))))
    /\ logic_operator
         (add_filter_set
            (add_filter_condition column_input operator_input filter_value
               filter_value_multi filter_value2 table_data
               current_filter_set))
       = Some (get_logic_operator
                 (default empty_filter_set current_filter_set)).
Proof.
  unfold add_filter_condition.
  destruct table_data as [td|]; [|discriminate].
  destruct column_input as [column|]; [|discriminate].
  destruct operator_input as [o|]; [|discriminate].
  destruct (actual_value_of (Some o) filter_value filter_value_multi
              filter_value2) as [actual|] eqn:Hact; [|discriminate].
  destruct (inputs_missing (Some column) (Some o) (Some actual));
    [discriminate|].
  destruct (negb (validate_filter_operator o _)); [discriminate|].
  destruct (MAX_CONDITIONS <? _)%nat; [discriminate|].
  simpl. intros [= <- <- <-].
  eexists. split; [reflexivity|]. split; [|reflexivity].
  rewrite length_app. simpl. lia.
Qed.

Lemma other_columns_none (c : string) (conds : list Condition) :
  Forall (fun k => on_column c k = false) conds ->
  other_columns c conds = conds.
Proof.
  rewrite other_columns_filter.
  induction 1 as [|k conds Hk _ IH]; simpl; [reflexivity|].
  rewrite Hk. simpl. rewrite IH. reflexivity.
Qed.

(** X21: removing the condition just added undoes the add.  After an
    accepted "Add Filter" on column [c] the new condition is the last of
    the stored list; a click on its remove button writes the conditions
    that were stored on the other columns, as the store keeps them,
    under the logic operator that was stored; if no condition was
    stored on [c], these are all the conditions that were stored. *)
Theorem removing_the_added_condition_undoes_the_add
    (lib : PyLib)
    (column_input operator_input filter_value : option string)
    (filter_value_multi : option (list scalar))
    (filter_value2 : option string)
    (table_data : option TableData) (stored : option FilterSet)
    (c op : string) (total : nat)
    (clicks : list (option nat)) (visible : option (list string)) :
  add_status
    (add_filter_condition column_input operator_input filter_value
       filter_value_multi filter_value2 table_data stored)
  = ConditionAdded c op total ->
  any_clicked clicks = true ->
  exists fs',
    rm_filter_set
      (remove_filter_condition lib clicks
         (ButtonIndex (Z.of_nat (total - 1)))
         (Some (store
                  (add_filter_set
                     (add_filter_condition column_input operator_input
                        filter_value filter_value_multi filter_value2
                        table_data stored))))
         table_data visible) = Some fs'
    /\ conditions fs'
       = map json_condition
           (other_columns c (conditions (default empty_filter_set stored)))
    /\ logic_operator fs'
       = Some (get_logic_operator (default empty_filter_set stored))
    /\ (Forall (fun k => on_column c k = false)
          (conditions (default empty_filter_set stored)) ->
        conditions fs'
        = conditions (store (default empty_filter_set stored))).
Proof.
  intros Hadd Hclick.
  destruct (add_accepted _ _ _ _ _ _ _ _ _ _ Hadd) as (cond & Hc & Ht & Hl).
  set (added := add_filter_set
                  (add_filter_condition column_input operator_input
                     filter_value filter_value_multi filter_value2
                     table_data stored)) in *.
  set (old := conditions (default empty_filter_set stored)) in *.
  assert (Hstored : conditions (store added)
                    = (map json_condition (other_columns c old)
                       ++ [json_condition cond])%list).
  { unfold store. cbn [conditions]. rewrite Hc, map_app. reflexivity. }
  assert (Hi : (total - 1
                < length (conditions
                            (default empty_filter_set
                               (Some (store added)))))%nat).
  { cbn [default from_option id]. rewrite Hstored, length_app, length_map.
    simpl. lia. }
  destruct (remove_valid_index lib clicks (total - 1) (Some (store added))
              table_data visible Hclick Hi)
    as (fs' & Hfs & Hconds & Hlogic & _).
  exists fs'. split; [exact Hfs|].
  assert (Hrest : conditions fs' = map json_condition (other_columns c old)).
  { rewrite Hconds. cbn [default from_option id]. rewrite Hstored.
    replace (total - 1)%nat
      with (length (map json_condition (other_columns c old)))
      by (rewrite length_map; lia).
    rewrite pop_at_middle. apply app_nil_r. }
  split; [exact Hrest|]. split.
  - rewrite Hlogic. cbn [default from_option id].
    unfold get_logic_operator at 1. unfold store. cbn [logic_operator].
    rewrite Hl. reflexivity.
  - intros Hnone. rewrite Hrest, (other_columns_none c old Hnone).
    reflexivity.
Qed.

Lemma removing_the_added_condition_undoes_the_add_witness :
  exists fs',
    rm_filter_set
      (remove_filter_condition Runtime.lib [Some 0%nat; Some 1%nat]
         (ButtonIndex 1)
         (Some (store
                  (add_filter_set
                     (add_filter_condition (Some "Amount") (Some "between")
                        (Some "1500") None (Some "2500")
                        (Some sample_table_data) (Some city_filter_set)))))
         (Some sample_table_data) None) = Some fs'
    /\ conditions fs' = conditions (store city_filter_set).
Proof.
  destruct (removing_the_added_condition_undoes_the_add Runtime.lib
              (Some "Amount") (Some "between") (Some "1500") None
              (Some "2500") (Some sample_table_data) (Some city_filter_set)
              "Amount" "between" 2 [Some 0%nat; Some 1%nat] None)
    as (fs' & Hfs & _ & _ & Hall).
  - vm_compute. reflexivity.
  - reflexivity.
  - exists fs'. split; [exact Hfs|]. apply Hall.
    repeat constructor.
Defined.

Lemma sublist_map {A B} (f : A -> B) (l1 l2 : list A) :
  sublist l1 l2 -> sublist (map f l1) (map f l2).
Proof.
  induction 1; simpl; [constructor|apply sublist_skip|apply sublist_cons];
    assumption.
Qed.

Lemma convert_to_json_format_map (df : DataFrame) :
  convert_to_json_format df
  = map (fun r => dict_of_items
                    (combine (df_columns df) (map nan_to_none (cells r))))
        (df_rows df).
Proof.
  unfold convert_to_json_format, to_dict_records, replace_nan_with_none.
  cbn [df_rows df_columns]. rewrite map_map. reflexivity.
Qed.

Lemma convert_to_json_format_sublist (r r' : DataFrame) :
  df_columns r = df_columns r' ->
  sublist (df_rows r) (df_rows r') ->
  sublist (convert_to_json_format r) (convert_to_json_format r').
Proof.
  intros Hc Hs. rewrite !convert_to_json_format_map, Hc.
  apply sublist_map, Hs.
Qed.

Lemma omap_append {A B} (f : A -> option B) (l1 l2 : list A) :
  omap f (l1 ++ l2)%list = (omap f l1 ++ omap f l2)%list.
Proof. apply omap_app. Qed.

Lemma omap_middle {A B} (f : A -> option B) (l1 l2 : list A) (x : A) :
  omap f (l1 ++ x :: l2)%list
  = (omap f l1 ++ match f x with
                  | Some y => y :: omap f l2
                  | None => omap f l2
                  end)%list.
Proof. rewrite omap_append. reflexivity. Qed.

(** Under AND, the frame a filter set selects is part of the frame it
    selects without one of its conditions. *)
Lemma filter_set_without_condition
    (lib : PyLib) (df before : DataFrame) (l1 l2 : list Condition)
    (c : Condition) (logic : option string) (n n' : option nat)
    (types : gmap string string) :
  upper (default "AND" logic) <> "OR" ->
  _apply_filter_set_to_df lib df
    (Some (Build_FilterSet (l1 ++ c :: l2) logic n)) types = Ok before ->
  exists after,
    _apply_filter_set_to_df lib df
      (Some (Build_FilterSet (l1 ++ l2)
               (Some (default "AND" logic)) n')) types = Ok after
    /\ df_columns before = df_columns after
    /\ sublist (df_rows before) (df_rows after).
Proof.
  intros Hand Hb.
  destruct (apply_filter_set_select _ _ _ _ _ Hb) as [m Hm].
  assert (Hwhole : df_columns before = df_columns df
                   /\ sublist (df_rows before) (df_rows df)).
  { rewrite Hm. split; [reflexivity|]. apply select_sublist. }
  revert Hb. unfold _apply_filter_set_to_df. cbn [conditions].
  unfold get_logic_operator. cbn [logic_operator default from_option id].
  destruct (l1 ++ c :: l2)%list as [|c0 l] eqn:El;
    [destruct l1; discriminate|]. rewrite <- El. clear El c0 l.
  rewrite omap_middle.
  destruct (l1 ++ l2)%list as [|c0 l] eqn:El2; [intros _; exists df; tauto|].
  rewrite <- El2, omap_append. clear El2 c0 l.
  destruct (typed_condition lib types c) as [tc|].
  - destruct (omap (typed_condition lib types) l1
              ++ tc :: omap (typed_condition lib types) l2)%list
      as [|t0 ts] eqn:Et;
      [destruct (omap (typed_condition lib types) l1); discriminate|].
    rewrite <- Et. clear Et t0 ts. intros Hb.
    destruct (and_without_condition _ _ _ _ _ _ _ Hand Hb)
      as (after & Ha & Hsub).
    destruct (omap (typed_condition lib types) l1
              ++ omap (typed_condition lib types) l2)%list as [|t0 ts] eqn:Et.
    + exists df. tauto.
    + exists after. split; [exact Ha|]. split; [|exact Hsub].
      destruct (apply_multiple_filters_select _ _ _ _ _ Ha) as [m' ->].
      apply Hwhole.
  - destruct (omap (typed_condition lib types) l1
              ++ omap (typed_condition lib types) l2)%list as [|t0 ts].
    + exists df. tauto.
    + intros Hb. exists before. split; [exact Hb|]. split; reflexivity.
Qed.

(** X22: under AND, removing a condition never hides a row.  If the
    stored filter set selects a frame of the stored table, a valid click
    on a remove button shows a table, and the rows that were selected
    are among the rows shown, in the same order. *)
Theorem removing_under_and_shows_no_fewer_rows
    (lib : PyLib) (clicks : list (option nat)) (i : nat)
    (fs : FilterSet) (td : TableData) (visible : option (list string))
    (before : DataFrame) :
  any_clicked clicks = true ->
  (i < length (conditions fs))%nat ->
  upper (get_logic_operator fs) <> "OR" ->
  _apply_filter_set_to_df lib (from_dict (dataframe_json td)) (Some fs)
    (column_types td) = Ok before ->
  exists cont,
    rm_table
      (remove_filter_condition lib clicks (ButtonIndex (Z.of_nat i))
         (Some fs) (Some td) visible) = Some cont
    /\ sublist (convert_to_json_format before) (dt_data (table cont)).
Proof.
  intros Hclick Hi Hand Hb.
  destruct (split_at i (conditions fs) Hi) as (l1 & c & l2 & Hsplit & Hlen).
  destruct (apply_filter_set_select _ _ _ _ _ Hb) as [m Hm].
  unfold remove_filter_condition. rewrite Hclick. cbn [negb]. cbv zeta.
  cbn [default from_option id].
  rewrite (valid_index _ _ Hi), Nat2Z.id.
  rewrite Hsplit, <- Hlen, pop_at_middle.
  destruct (l1 ++ l2)%list as [|c0 l] eqn:El.
  - eexists. split; [reflexivity|].
    cbn [table dt_data create_table_component].
    apply convert_to_json_format_sublist.
    + rewrite Hm. reflexivity.
    + rewrite Hm. apply select_sublist.
  - rewrite <- El. clear El c0 l.
    destruct fs as [conds logic n]. cbn [conditions] in Hsplit. subst conds.
    unfold get_logic_operator in *. cbn [logic_operator] in *.
    destruct (filter_set_without_condition lib _ before l1 l2 c logic n
                (Some O) (column_types td) Hand Hb)
      as (after & Ha & Hcols & Hsub).
    rewrite Ha. eexists. split; [reflexivity|].
    cbn [table dt_data create_table_component _wrap_table_with_empty_state].
    apply convert_to_json_format_sublist; assumption.
Qed.

Lemma removing_under_and_shows_no_fewer_rows_witness :
  exists cont,
    rm_table
      (remove_filter_condition Runtime.lib [Some 1%nat; Some 0%nat]
         (ButtonIndex 0)
         (Some {| conditions := active_in_tokyo;
                  logic_operator := Some "AND";
                  result_count := Some 2%nat |})
         (Some sample_table_data) None) = Some cont
    /\ sublist
         (convert_to_json_format
            (df_select (from_dict (dataframe_json sample_table_data))
               [true; false; true; false; false]))
         (dt_data (table cont)).
Proof.
  apply (removing_under_and_shows_no_fewer_rows Runtime.lib
           [Some 1%nat; Some 0%nat] 0
           {| conditions := active_in_tokyo;
              logic_operator := Some "AND";
              result_count := Some 2%nat |}
           sample_table_data None).
  - reflexivity.
  - simpl. lia.
  - vm_compute. discriminate.
  - vm_compute. reflexivity.
Defined.

(** X23: clearing shows the stored table.  For a stored table with
    distinct column names whose rows carry the column names as keys and
    hold texts, [None] and exact numbers (no NaN, no timestamp),
    [clear_filter] returns the empty filter set under AND and a table
    with exactly the stored rows, without banner; and removing the only
    condition of a filter set shows that same table. *)
Theorem clearing_shows_the_stored_rows
    (td : TableData) (visible : option (list string)) :
  List.NoDup (column_names td) ->
  serialised (column_names td) (dataframe_json td) ->
  plain_records (dataframe_json td) = true ->
  exists cont,
    clear_table (clear_filter (Some td) visible) = Some cont
    /\ clear_filter_set (clear_filter (Some td) visible) = empty_filter_set
    /\ dt_data (table cont) = dataframe_json td
    /\ dt_columns (table cont)
       = _select_table_columns (column_names td) visible
    /\ banner cont = false
    /\ forall lib clicks fs,
         any_clicked clicks = true ->
         length (conditions fs) = 1%nat ->
         rm_table
           (remove_filter_condition lib clicks (ButtonIndex 0) (Some fs)
              (Some td) visible) = Some cont.
Proof.
  intros Hnd Hs _. eexists. split; [reflexivity|]. split; [reflexivity|].
  cbn [table dt_data dt_columns banner create_table_component].
  split; [apply (reserialise_serialised (column_names td)); assumption|].
  split; [reflexivity|]. split; [reflexivity|].
  intros lib clicks fs Hclick Hone.
  unfold remove_filter_condition. rewrite Hclick. cbn [negb]. cbv zeta.
  cbn [default from_option id]. rewrite Hone.
  destruct (conditions fs) as [|c [|c' l]]; try discriminate.
  reflexivity.
Qed.

Lemma clearing_shows_the_stored_rows_witness :
  exists cont,
    clear_table (clear_filter (Some sample_table_data) None) = Some cont
    /\ dt_data (table cont) = dataframe_json sample_table_data.
Proof.
  destruct (clearing_shows_the_stored_rows sample_table_data None)
    as (cont & Hc & _ & Hd & _).
  - vm_compute. repeat constructor; simpl; intuition discriminate.
  - vm_compute. repeat constructor.
  - vm_compute. reflexivity.
  - exists cont. split; [exact Hc|exact Hd].
Defined.

(** ** File names: [validate_file_upload] and [parse_file] *)

Lemma prefix_cons (a b : ascii) (p s : string) :
  String.prefix (String a p) (String b s) = true ->
  a = b /\ String.prefix p s = true.
Proof. simpl. destruct (ascii_dec a b); [auto|discriminate]. Qed.

Lemma until_char_prefix (sep : ascii) (x : string) : forall r,
  has_char sep x = false ->
  String.prefix (x ++ String sep EmptyString) r = true ->
  until_char sep r = x.
Proof.
  induction x as [|a x IH]; intros [|b r] Hx Hp; try discriminate.
  - apply prefix_cons in Hp as [<- _]. simpl. rewrite Ascii.eqb_refl.
    reflexivity.
  - change (String a x ++ String sep EmptyString)%string
      with (String a (x ++ String sep EmptyString)) in Hp.
    apply prefix_cons in Hp as [<- Hp].
    unfold has_char in Hx. simpl in Hx.
    apply orb_false_iff in Hx as [Ha Hx].
    simpl. rewrite Ascii.eqb_sym, Ha. f_equal. apply IH; assumption.
Qed.

Lemma has_char_prefix (sep : ascii) (x : string) : forall r,
  String.prefix (x ++ String sep EmptyString) r = true ->
  has_char sep r = true.
Proof.
  unfold has_char.
  induction x as [|a x IH]; intros [|b r] Hp; try discriminate.
  - apply prefix_cons in Hp as [<- _]. simpl. rewrite Ascii.eqb_refl.
    reflexivity.
  - change (String a x ++ String sep EmptyString)%string
      with (String a (x ++ String sep EmptyString)) in Hp.
    apply prefix_cons in Hp as [<- Hp]. simpl. rewrite (IH r Hp).
    apply orb_true_r.
Qed.

Lemma has_char_rev_string (c : ascii) (s : string) : forall acc,
  has_char c (rev_string s acc) = has_char c s || has_char c acc.
Proof.
  unfold has_char. induction s as [|a s IH]; intros acc; simpl;
    [reflexivity|].
  rewrite IH. simpl. destruct (Ascii.eqb c a), (existsb _ _); simpl;
    try reflexivity; rewrite ?orb_true_r; reflexivity.
Qed.

Lemma lower_ascii_dot (c : ascii) :
  Ascii.eqb "." (lower_ascii c) = Ascii.eqb "." c.
Proof. destruct c as [[] [] [] [] [] [] [] []]; reflexivity. Qed.

Lemma has_dot_lower (s : string) :
  has_char "." (lower s) = has_char "." s.
Proof.
  unfold has_char. induction s as [|a s IH]; [reflexivity|].
  cbn [lower list_ascii_of_string existsb].
  rewrite lower_ascii_dot, IH. reflexivity.
Qed.

(** A name that ends in a dot and [e], where [e] has no dot, has the
    extension [e]. *)
Lemma file_ext_of_ending (name reversed : string) :
  has_char "." reversed = false ->
  String.prefix (reversed ++ ".") (rev_string (lower name) EmptyString)
  = true ->
  file_ext name = rev_string reversed EmptyString.
Proof.
  intros Hx Hp. unfold file_ext.
  assert (Hdot : has_char "." name = true).
  { rewrite <- has_dot_lower.
    pose proof (has_char_prefix "." reversed _ Hp) as H.
    rewrite has_char_rev_string in H. unfold has_char at 2 in H.
    simpl in H. rewrite orb_false_r in H. exact H. }
  rewrite Hdot. unfold after_last.
  rewrite (until_char_prefix "." reversed _ Hx Hp). reflexivity.
Qed.

(** X24: a file name that passes [validate_file_upload] is one that
    [parse_file] has a parser for: the extension it reads after the
    last dot is one of the eight it dispatches on, so its "Unsupported
    file format" error cannot follow a passed validation. *)
Theorem validated_file_name_has_a_parser
    (file_name content : string) (max_size_bytes : N) :
  fst (validate_file_upload file_name content max_size_bytes) = true ->
  In (file_ext file_name)
     ["csv"; "xlsx"; "xls"; "json"; "feather"; "ftr"; "parquet"; "pq"]
  /\ exists fmt, parse_file_format file_name = Some fmt.
Proof.
  intros H.
  assert (Hext : existsb (fun ext => endswith (lower ext) (lower file_name))
                   allowed_extensions = true).
  { unfold validate_file_upload, validate_file_type in H.
    destruct (file_name =? EmptyString); [discriminate|].
    destruct (existsb _ allowed_extensions); [reflexivity|discriminate]. }
  assert (Hin : In (file_ext file_name)
                  ["csv"; "xlsx"; "xls"; "json"; "feather"; "ftr";
                   "parquet"; "pq"]).
  { apply existsb_exists in Hext as (ext & Hin & Hend).
    unfold allowed_extensions in Hin. unfold endswith in Hend. simpl in Hin.
    repeat (destruct Hin as [<-|Hin];
            [match type of Hend with
             | String.prefix (rev_string (lower ?e) _) _ = true =>
                 let r := eval vm_compute in
                            (until_char "." (rev_string (lower e) EmptyString))
                 in rewrite (file_ext_of_ending file_name r eq_refl Hend)
             end; simpl; tauto|]).
    contradiction. }
  split; [exact Hin|].
  unfold parse_file_format. cbv zeta. simpl in Hin.
  repeat (destruct Hin as [<-|Hin]; [eexists; reflexivity|]).
  contradiction.
Qed.

Lemma validated_file_name_has_a_parser_witness :
  In (file_ext "Sales.2024.XLSX")
     ["csv"; "xlsx"; "xls"; "json"; "feather"; "ftr"; "parquet"; "pq"]
  /\ exists fmt, parse_file_format "Sales.2024.XLSX" = Some fmt.
Proof.
  apply (validated_file_name_has_a_parser "Sales.2024.XLSX"
           "data:application/octet-stream;base64,UEsDBA==" 52428800).
  reflexivity.
Defined.

(** ** The message for a failed upload *)

Lemma append_same_prefix (a b c : string) :
  (a ++ b)%string = (a ++ c)%string -> b = c.
Proof.
  induction a as [|x a IH]; simpl; [auto|]. intros [= H]. exact (IH H).
Qed.

(** X25: the encoding hint of [handle_file_upload_error] is never
    shown for a decoding error.  Its test for [UnicodeDecodeError] comes
    after the test for [ValueError], and a [UnicodeDecodeError] is a
    [ValueError]: such an exception gets the "Invalid file format or
    corrupted file" message, or one of the two before it. *)
Theorem decoding_error_gets_no_encoding_hint
    (error : Exception) (file_name : string) :
  isinstance error "UnicodeDecodeError" = true ->
  isinstance error "ValueError" = true ->
  handle_file_upload_error error file_name
  <> (upload_context file_name ++ encoding_hint)%string
  /\ In (handle_file_upload_error error file_name)
        (map (fun m => (upload_context file_name ++ m)%string)
             [": File not found"; ": Permission denied";
              ": Invalid file format or corrupted file"]).
Proof.
  intros _ Hv. unfold handle_file_upload_error. cbv zeta. rewrite Hv.
  destruct (isinstance error "FileNotFoundError");
    [|destruct (isinstance error "PermissionError")];
    (split; [intros E; apply append_same_prefix in E; discriminate
            |simpl; auto]).
Qed.

Lemma decoding_error_gets_no_encoding_hint_witness :
  handle_file_upload_error (unicode_decode_error "invalid start byte")
    "data.csv"
  <> (upload_context "data.csv" ++ encoding_hint)%string
  /\ In (handle_file_upload_error (unicode_decode_error "invalid start byte")
           "data.csv")
        (map (fun m => (upload_context "data.csv" ++ m)%string)
             [": File not found"; ": Permission denied";
              ": Invalid file format or corrupted file"]).
Proof.
  apply decoding_error_gets_no_encoding_hint; reflexivity.
Defined.
